(** * Cost tracking and guardrails of [litellm-helm/scripts/cost-monitor.py]

    A shallow embedding of [CostTracker], [ContentGuardrails] and
    [GuardrailsManager], followed by the properties of the ledger, the budget
    tiers, retention pruning, the pre-request check, the cost summary, the
    post-request hook, the status report and content validation.

    - Python [float] is IEEE 754 binary64, embedded as [spec_float] with the
      operations of [SpecFloat] at precision 53 and maximal exponent 1024.
    - Python [int] is [Z]; [dict] and [defaultdict] are [gmap]s, with the
      difference between the two (a missing key raises [KeyError] in the first
      and is materialised by the second) written out at each access.
    - A naive UTC [datetime] is the number of microseconds since
      0001-01-01T00:00:00; [datetime.utcnow()] is an argument [now]. The
      arithmetic the script does on datetimes raises [OverflowError] where
      Python does: for a [timedelta] of more than 999999999 days and for a
      result outside the years 1 to 9999.
    - Python [str] is [string], the characters being code points below 256.
    - Methods that mutate [self], log or raise are written in a small monad
      that threads the object, collects the log records and carries the
      exception; what a method changed before it raised stays changed.
    - [threading.Lock] is not modelled: every method runs alone. *)

From Stdlib Require Import ZArith Lia Bool Ascii SpecFloat.
From stdpp Require Import gmap strings list.

Local Open Scope Z_scope.

(** ** Python floats *)

Module Float64.

Definition prec : Z := 53.
Definition emax : Z := 1024.

Abbreviation float := spec_float.

Definition fzero : float := S754_zero false.
Definition fadd : float -> float -> float := SFadd prec emax.
Definition fmul : float -> float -> float := SFmul prec emax.
Definition fdiv : float -> float -> float := SFdiv prec emax.

(** [x <= y] on floats; false as soon as one side is a NaN. *)
Definition fle : float -> float -> bool := SFleb.

(** A float as Python holds it: a canonical binary64 value. *)
Definition valid (x : float) : bool := valid_binary prec emax x.

Definition is_nan (x : float) : bool :=
  match x with S754_nan => true | _ => false end.

(** Strictly positive and finite. *)
Definition positive_finite (x : float) : bool :=
  match x with
  | S754_finite false m e => bounded prec emax m e
  | _ => false
  end.

(** An integer as an exact, not yet rounded, binary value. *)
Definition int_to_sf (a : Z) : float :=
  match a with
  | Z0 => S754_zero false
  | Zpos p => S754_finite false p 0
  | Zneg p => S754_finite true p 0
  end.

(** [float(n)] for an int [n]: the nearest binary64 value. It is applied to
    lengths and small constants, far below the range where Python raises. *)
Definition of_int (n : Z) : float := binary_normalize prec emax n 0 false.

(** The float written [m]e-[k] in decimal, e.g. [decimal 125 6] for the
    literal [0.000125]: the binary64 value nearest to [m / 10^k]. *)
Definition decimal (m : Z) (k : Z) : float :=
  fdiv (int_to_sf m) (int_to_sf (10 ^ k)).

(** [f > n] for a float [f] and an int [n]; Python compares the two exactly,
    without rounding [n] to a float. *)
Definition float_gt_int (f : float) (n : Z) : bool :=
  match f with
  | S754_nan => false
  | S754_infinity s => negb s
  | S754_zero _ => n <? 0
  | S754_finite s m e =>
      let v := if s then Zneg m else Zpos m in
      if 0 <=? e then n <? v * 2 ^ e else n * 2 ^ (- e) <? v
  end.

(** *** Reference description of rounding, used to reason about [fmul] *)

(** [m2] is [m / 2^n] rounded to the nearest integer, ties to even. *)
Definition RNE (n m m2 : Z) : Prop :=
  2 ^ n * (2 * m2 - 1) <= 2 * m <= 2 ^ n * (2 * m2 + 1) /\
  (2 * m = 2 ^ n * (2 * m2 + 1) -> Z.even m2 = true) /\
  (2 * m = 2 ^ n * (2 * m2 - 1) -> Z.even m2 = true).

(** The last step of [binary_round_aux]: zero, finite or overflow. *)
Definition pack (s : bool) (m3 e3 : Z) : float :=
  match m3 with
  | Z0 => S754_zero s
  | Zpos p => if e3 <=? emax - prec then S754_finite s p e3 else S754_infinity s
  | Zneg _ => S754_nan
  end.

(** A mantissa that rounding carried to [2^53] moves up one exponent. *)
Definition renorm (m2 E : Z) : Z * Z :=
  if m2 =? 2 ^ 53 then (2 ^ 52, E + 1) else (m2, E).

Definition nonpos (x : float) : Prop :=
  match x with
  | S754_zero _ | S754_infinity true | S754_finite true _ _ => True
  | _ => False
  end.

Definition nonneg (x : float) : Prop :=
  match x with
  | S754_zero _ | S754_infinity false | S754_finite false _ _ => True
  | _ => False
  end.

End Float64.
Import Float64.

(** ** The Python runtime the script relies on *)

Module Py.

Inductive exn : Type :=
  | KeyError (key : string)
  | OverflowError
  | ZeroDivisionError.

(** [a / b] on ints: the correctly rounded quotient, [ZeroDivisionError]
    for [b = 0], and [OverflowError] when the quotient is too large for a
    float. *)
Definition int_truediv (a b : Z) : exn + float :=
  if b =? 0 then inl ZeroDivisionError
  else match fdiv (int_to_sf a) (int_to_sf b) with
       | S754_infinity _ => inl OverflowError
       | q => inr q
       end.

(** *** Dictionaries *)

(** [d[k]] on a plain [dict]. *)
Definition dict_getitem {V} (d : gmap string V) (k : string) : exn + V :=
  match d !! k with
  | Some v => inr v
  | None => inl (KeyError k)
  end.

(** [d.get(k, dflt)]: never inserts, on a [dict] and a [defaultdict] alike. *)
Definition dict_get {V} (d : gmap string V) (k : string) (dflt : V) : V :=
  default dflt (d !! k).

(** [d[k]] on a [defaultdict(factory)]: a missing key is inserted with the
    factory's value before it is returned. *)
Definition defaultdict_getitem {V} (factory : V) (d : gmap string V) (k : string)
  : gmap string V * V :=
  match d !! k with
  | Some v => (d, v)
  | None => (<[k := factory]> d, factory)
  end.

(** [d[k] += v] on a [defaultdict(float)]: read (materialising), add, store. *)
Definition defaultdict_iadd (d : gmap string float) (k : string) (v : float)
  : gmap string float :=
  let '(d1, old) := defaultdict_getitem fzero d k in
  <[k := fadd old v]> d1.

(** *** Strings *)

(** [str] values are strings of code points below 256. *)

(** [c.isspace()]. *)
Definition isspace (c : Ascii.ascii) : bool :=
  let n := Z.of_N (Ascii.N_of_ascii c) in
  ((9 <=? n) && (n <=? 13)) || ((28 <=? n) && (n <=? 32)) || (n =? 133) || (n =? 160).

(** [s.split()]: the maximal runs of characters that are not whitespace.
    [cur] is the run being read, in reverse. *)
Fixpoint split_go (s : string) (cur : list Ascii.ascii) : list string :=
  let flush (rest : list string) :=
    match cur with
    | [] => rest
    | _ => String.string_of_list_ascii (rev cur) :: rest
    end in
  match s with
  | EmptyString => flush []
  | String c s' =>
      if isspace c then flush (split_go s' []) else split_go s' (c :: cur)
  end.

Definition split (s : string) : list string := split_go s [].

(** [c.lower()] on a code point below 256: A-Z and the Latin-1 capitals. *)
Definition lower_char (c : Ascii.ascii) : Ascii.ascii :=
  let n := Ascii.N_of_ascii c in
  if ((65 <=? n) && (n <=? 90))%N
     || ((192 <=? n) && (n <=? 222) && negb (n =? 215))%N
  then Ascii.ascii_of_N (n + 32) else c.

Fixpoint lower (s : string) : string :=
  match s with
  | EmptyString => EmptyString
  | String c s' => String (lower_char c) (lower s')
  end.

Fixpoint startswith (p s : string) : bool :=
  match p, s with
  | EmptyString, _ => true
  | String a p', String b s' => if Ascii.eqb a b then startswith p' s' else false
  | String _ _, EmptyString => false
  end.

(** [sub in s]. *)
Fixpoint contains (sub s : string) : bool :=
  startswith sub s ||
  match s with
  | EmptyString => false
  | String _ s' => contains sub s'
  end.

(** [len(s.encode('utf-8'))]: one byte below 128, two bytes up to 255. *)
Fixpoint utf8_len (s : string) : Z :=
  match s with
  | EmptyString => 0
  | String c s' => (if (Ascii.N_of_ascii c <? 128)%N then 1 else 2) + utf8_len s'
  end.

(** *** Naive UTC datetimes *)

Abbreviation datetime := Z (only parsing).

Definition us_per_day : Z := 86400000000.

(** [timedelta(days=d)], in microseconds; a [timedelta] holds at most
    999999999 days, of either sign. *)
Definition timedelta_days (d : Z) : exn + Z :=
  if Z.abs d <=? 999999999 then inr (d * us_per_day) else inl OverflowError.

(** The first instant after [datetime.max], 9999-12-31T23:59:59.999999. *)
Definition datetime_end : Z := 3652059 * us_per_day.

(** [t - delta] for a datetime [t] and a timedelta [delta]: the result has
    to fall in the years 1 to 9999. *)
Definition datetime_sub (t : datetime) (delta : Z) : exn + datetime :=
  let r := t - delta in
  if (0 <=? r) && (r <? datetime_end) then inr r else inl OverflowError.

(** Days since 0001-01-01, which is a Monday. *)
Definition day_number (t : datetime) : Z := t / us_per_day.

(** Proleptic Gregorian (year, month, day) of a day number. *)
Definition civil (days : Z) : Z * Z * Z :=
  let z := days + 306 in
  let era := z / 146097 in
  let doe := z mod 146097 in
  let yoe := (doe - doe / 1460 + doe / 36524 - doe / 146096) / 365 in
  let doy := doe - (365 * yoe + yoe / 4 - yoe / 100) in
  let mp := (5 * doy + 2) / 153 in
  let d := doy - (153 * mp + 2) / 5 + 1 in
  let m := if mp <? 10 then mp + 3 else mp - 9 in
  let y := yoe + era * 400 + (if m <=? 2 then 1 else 0) in
  (y, m, d).

(** Day number of 1 January of year [y]. *)
Definition days_before_year (y : Z) : Z :=
  let p := y - 1 in 365 * p + p / 4 - p / 100 + p / 400.

(** [%U]: week of the year, weeks starting on Sunday, days before the first
    Sunday in week 0. *)
Definition week_U (days : Z) : Z :=
  let '(y, _, _) := civil days in
  let yday := days - days_before_year y in
  let wday := (days + 1) mod 7 in
  (yday + 7 - wday) / 7.

Definition digit (k : Z) : Ascii.ascii := Ascii.ascii_of_N (48 + Z.to_N (k mod 10)).

Definition pad2 (n : Z) : string :=
  String (digit (n / 10)) (String (digit n) EmptyString).

Definition pad4 (n : Z) : string :=
  String (digit (n / 1000)) (String (digit (n / 100)) (pad2 n)).

(** One [strftime] directive; the script uses [%Y], [%m], [%d] and [%U].
    [%Y] is written with four digits, as the library documents it. *)
Definition directive (c : Ascii.ascii) (t : datetime) : string :=
  let days := day_number t in
  let '(y, m, d) := civil days in
  if Ascii.eqb c "Y"%char then pad4 y
  else if Ascii.eqb c "m"%char then pad2 m
  else if Ascii.eqb c "d"%char then pad2 d
  else if Ascii.eqb c "U"%char then pad2 (week_U days)
  else String "%"%char (String c EmptyString).

(** [t.strftime(fmt)]. *)
Fixpoint strftime (fmt : string) (t : datetime) : string :=
  match fmt with
  | EmptyString => EmptyString
  | String c rest =>
      match rest with
      | String c' rest' =>
          if Ascii.eqb c "%"%char then directive c' t +:+ strftime rest' t
          else String c (strftime rest t)
      | EmptyString => String c EmptyString
      end
  end.

(** *** Logging *)

Inductive log_level : Type := INFO | WARNING.

(** The messages the script formats, with the values they interpolate. *)
Inductive log_message : Type :=
  | UnknownModel (model : string)
  | CostEntryAdded (model : string) (total_cost : float) (user_id : string)
  | CleanedUp (removed_count : Z).

Definition log_record : Type := log_level * log_message.

(** *** Methods: state of [self], log output, exception or value *)

Definition M (S A : Type) : Type := S -> S * list log_record * (exn + A).

Definition ret {S A} (x : A) : M S A := fun s => (s, [], inr x).

Definition bind {S A B} (c : M S A) (k : A -> M S B) : M S B :=
  fun s =>
    match c s with
    | (s1, l1, inl e) => (s1, l1, inl e)
    | (s1, l1, inr x) =>
        let '(s2, l2, r) := k x s1 in (s2, l1 ++ l2, r)
    end.

Definition lift {S A} (r : exn + A) : M S A := fun s => (s, [], r).

Definition get {S} : M S S := fun s => (s, [], inr s).

Definition modify {S} (f : S -> S) : M S unit := fun s => (f s, [], inr tt).

Definition log {S} (lvl : log_level) (msg : log_message) : M S unit :=
  fun s => (s, [(lvl, msg)], inr tt).

(** Run a method of the attribute [proj s] of [s], the attribute being an
    object that [s] refers to. *)
Definition on_attr {S T A} (proj : S -> T) (upd : T -> S -> S) (c : M T A) : M S A :=
  fun s => let '(t1, l, r) := c (proj s) in (upd t1 s, l, r).

End Py.
Import Py.

Declare Scope py_scope.
Delimit Scope py_scope with py.
Notation "x <~ c ; k" := (bind c (fun x => k))
  (at level 20, c at level 100, k at level 200, only parsing) : py_scope.
Notation "' p <~ c ; k" := (bind c (fun x => let 'p := x in k))
  (at level 20, p pattern, c at level 100, k at level 200, only parsing) : py_scope.
Notation "c ;; k" := (bind c (fun _ => k))
  (at level 100, k at level 200, only parsing, right associativity) : py_scope.
Local Open Scope py_scope.

(** ** [CostEntry] *)

Record CostEntry : Type := {
  timestamp : datetime;
  model : string;
  user_id : string;
  input_tokens : Z;
  output_tokens : Z;
  input_cost : float;
  output_cost : float;
  total_cost : float;
  request_id : string;
}.

(** ** [CostTracker] *)

(** [costs] is the list of retained entries. [daily_costs], [weekly_costs] and
    [monthly_costs] are [defaultdict(float)]; [user_costs] is a [defaultdict]
    of [defaultdict(float)]. [model_costs] is what [__init__] leaves in that
    attribute: a plain [dict] of plain [dict]s. *)
Record CostTracker : Type := {
  costs : list CostEntry;
  daily_costs : gmap string float;
  weekly_costs : gmap string float;
  monthly_costs : gmap string float;
  user_costs : gmap string (gmap string float);
  model_costs : gmap string (gmap string float);
  daily_budget : float;
  weekly_budget : float;
  monthly_budget : float;
  warning_threshold : float;
  critical_threshold : float;
  emergency_threshold : float;
}.

Definition set_costs (v : list CostEntry) (self : CostTracker) : CostTracker :=
  {| costs := v; daily_costs := daily_costs self; weekly_costs := weekly_costs self;
     monthly_costs := monthly_costs self; user_costs := user_costs self;
     model_costs := model_costs self; daily_budget := daily_budget self;
     weekly_budget := weekly_budget self; monthly_budget := monthly_budget self;
     warning_threshold := warning_threshold self;
     critical_threshold := critical_threshold self;
     emergency_threshold := emergency_threshold self |}.

Definition set_daily_costs (v : gmap string float) (self : CostTracker) : CostTracker :=
  {| costs := costs self; daily_costs := v; weekly_costs := weekly_costs self;
     monthly_costs := monthly_costs self; user_costs := user_costs self;
     model_costs := model_costs self; daily_budget := daily_budget self;
     weekly_budget := weekly_budget self; monthly_budget := monthly_budget self;
     warning_threshold := warning_threshold self;
     critical_threshold := critical_threshold self;
     emergency_threshold := emergency_threshold self |}.

Definition set_weekly_costs (v : gmap string float) (self : CostTracker) : CostTracker :=
  {| costs := costs self; daily_costs := daily_costs self; weekly_costs := v;
     monthly_costs := monthly_costs self; user_costs := user_costs self;
     model_costs := model_costs self; daily_budget := daily_budget self;
     weekly_budget := weekly_budget self; monthly_budget := monthly_budget self;
     warning_threshold := warning_threshold self;
     critical_threshold := critical_threshold self;
     emergency_threshold := emergency_threshold self |}.

Definition set_monthly_costs (v : gmap string float) (self : CostTracker) : CostTracker :=
  {| costs := costs self; daily_costs := daily_costs self;
     weekly_costs := weekly_costs self; monthly_costs := v;
     user_costs := user_costs self; model_costs := model_costs self;
     daily_budget := daily_budget self; weekly_budget := weekly_budget self;
     monthly_budget := monthly_budget self;
     warning_threshold := warning_threshold self;
     critical_threshold := critical_threshold self;
     emergency_threshold := emergency_threshold self |}.

Definition set_user_costs (v : gmap string (gmap string float)) (self : CostTracker)
  : CostTracker :=
  {| costs := costs self; daily_costs := daily_costs self;
     weekly_costs := weekly_costs self; monthly_costs := monthly_costs self;
     user_costs := v; model_costs := model_costs self;
     daily_budget := daily_budget self; weekly_budget := weekly_budget self;
     monthly_budget := monthly_budget self;
     warning_threshold := warning_threshold self;
     critical_threshold := critical_threshold self;
     emergency_threshold := emergency_threshold self |}.

Definition set_model_costs (v : gmap string (gmap string float)) (self : CostTracker)
  : CostTracker :=
  {| costs := costs self; daily_costs := daily_costs self;
     weekly_costs := weekly_costs self; monthly_costs := monthly_costs self;
     user_costs := user_costs self; model_costs := v;
     daily_budget := daily_budget self; weekly_budget := weekly_budget self;
     monthly_budget := monthly_budget self;
     warning_threshold := warning_threshold self;
     critical_threshold := critical_threshold self;
     emergency_threshold := emergency_threshold self |}.

(** The environment variables [__init__] reads, after [float(os.getenv(..))]. *)
Record Environ : Type := {
  DAILY_BUDGET : float;
  WEEKLY_BUDGET : float;
  MONTHLY_BUDGET : float;
  COST_ALERT_WARNING : float;
  COST_ALERT_CRITICAL : float;
  COST_ALERT_EMERGENCY : float;
  VERTEX_GEMINI_PRO_INPUT_COST : float;
  VERTEX_GEMINI_PRO_OUTPUT_COST : float;
  VERTEX_GEMINI_FLASH_INPUT_COST : float;
  VERTEX_GEMINI_FLASH_OUTPUT_COST : float;
}.

(** The defaults given to [os.getenv]. *)
Definition default_environ : Environ := {|
  DAILY_BUDGET := decimal 1000 1;
  WEEKLY_BUDGET := decimal 5000 1;
  MONTHLY_BUDGET := decimal 20000 1;
  COST_ALERT_WARNING := of_int 75;
  COST_ALERT_CRITICAL := of_int 90;
  COST_ALERT_EMERGENCY := of_int 95;
  VERTEX_GEMINI_PRO_INPUT_COST := decimal 125 6;
  VERTEX_GEMINI_PRO_OUTPUT_COST := decimal 375 6;
  VERTEX_GEMINI_FLASH_INPUT_COST := decimal 75 6;
  VERTEX_GEMINI_FLASH_OUTPUT_COST := decimal 3 4;
|}.

(** The price table that [__init__] stores in [self.model_costs]. *)
Definition pricing (env : Environ) : gmap string (gmap string float) :=
  {[ "vertex-gemini-pro" :=
       {[ "input" := VERTEX_GEMINI_PRO_INPUT_COST env;
          "output" := VERTEX_GEMINI_PRO_OUTPUT_COST env ]};
     "vertex-gemini-flash" :=
       {[ "input" := VERTEX_GEMINI_FLASH_INPUT_COST env;
          "output" := VERTEX_GEMINI_FLASH_OUTPUT_COST env ]} ]}.

(** [CostTracker.__init__]. The attribute [model_costs] is first bound to the
    empty per-model [defaultdict] of day totals and then rebound to the price
    table. *)
Definition CostTracker_init (env : Environ) : CostTracker :=
  let self := {|
    costs := [];
    daily_costs := ∅;
    weekly_costs := ∅;
    monthly_costs := ∅;
    user_costs := ∅;
    model_costs := ∅;
    daily_budget := DAILY_BUDGET env;
    weekly_budget := WEEKLY_BUDGET env;
    monthly_budget := MONTHLY_BUDGET env;
    warning_threshold := fdiv (COST_ALERT_WARNING env) (of_int 100);
    critical_threshold := fdiv (COST_ALERT_CRITICAL env) (of_int 100);
    emergency_threshold := fdiv (COST_ALERT_EMERGENCY env) (of_int 100);
  |} in
  set_model_costs (pricing env) self.

(** [CostTracker.calculate_cost]. *)
Definition calculate_cost (model : string) (input_tokens output_tokens : Z)
  : M CostTracker (float * float * float) :=
  self <~ get ;
  '(input_cost_per_1k, output_cost_per_1k) <~
    match model_costs self !! model with
    | None =>
        log WARNING (UnknownModel model) ;;
        ret (decimal 1 3, decimal 2 3)
    | Some prices =>
        i <~ lift (dict_getitem prices "input") ;
        o <~ lift (dict_getitem prices "output") ;
        ret (i, o)
    end ;
  q_in <~ lift (int_truediv input_tokens 1000) ;
  let input_cost := fmul q_in input_cost_per_1k in
  q_out <~ lift (int_truediv output_tokens 1000) ;
  let output_cost := fmul q_out output_cost_per_1k in
  let total_cost := fadd input_cost output_cost in
  ret (input_cost, output_cost, total_cost).

(** [CostTracker.add_cost_entry]; [now] is the value of [datetime.utcnow()]. *)
Definition add_cost_entry (model user_id : string) (input_tokens output_tokens : Z)
    (request_id : string) (now : datetime) : M CostTracker CostEntry :=
  '(input_cost, output_cost, total_cost) <~
    calculate_cost model input_tokens output_tokens ;
  let entry := {|
    timestamp := now;
    model := model;
    user_id := user_id;
    input_tokens := input_tokens;
    output_tokens := output_tokens;
    input_cost := input_cost;
    output_cost := output_cost;
    total_cost := total_cost;
    request_id := request_id;
  |} in
  modify (fun self => set_costs (costs self ++ [entry]) self) ;;
  let today := strftime "%Y-%m-%d" (timestamp entry) in
  let week := strftime "%Y-W%U" (timestamp entry) in
  let month := strftime "%Y-%m" (timestamp entry) in
  modify (fun self =>
    set_daily_costs (defaultdict_iadd (daily_costs self) today total_cost) self) ;;
  modify (fun self =>
    set_weekly_costs (defaultdict_iadd (weekly_costs self) week total_cost) self) ;;
  modify (fun self =>
    set_monthly_costs (defaultdict_iadd (monthly_costs self) month total_cost) self) ;;
  modify (fun self =>
    let '(users, days) := defaultdict_getitem ∅ (user_costs self) user_id in
    set_user_costs (<[user_id := defaultdict_iadd days today total_cost]> users) self) ;;
  (* self.model_costs[model][today] += total_cost *)
  self <~ get ;
  days <~ lift (dict_getitem (model_costs self) model) ;
  old <~ lift (dict_getitem days today) ;
  modify (set_model_costs
            (<[model := <[today := fadd old total_cost]> days]> (model_costs self))) ;;
  log INFO (CostEntryAdded model total_cost user_id) ;;
  ret entry.

(** [CostTracker.check_budget_limits]. The three consecutive reads of
    [datetime.utcnow()] are one instant [now]. A missing period reads as the
    int [0], which compares as the float [0.0]. *)
Definition check_budget_limits (now : datetime) : M CostTracker (gmap string bool) :=
  self <~ get ;
  let today := strftime "%Y-%m-%d" now in
  let week := strftime "%Y-W%U" now in
  let month := strftime "%Y-%m" now in
  let daily_spent := dict_get (daily_costs self) today fzero in
  let weekly_spent := dict_get (weekly_costs self) week fzero in
  let monthly_spent := dict_get (monthly_costs self) month fzero in
  ret (
    <["daily_warning" :=
        fle (fmul (daily_budget self) (warning_threshold self)) daily_spent]> (
    <["daily_critical" :=
        fle (fmul (daily_budget self) (critical_threshold self)) daily_spent]> (
    <["daily_emergency" :=
        fle (fmul (daily_budget self) (emergency_threshold self)) daily_spent]> (
    <["weekly_warning" :=
        fle (fmul (weekly_budget self) (warning_threshold self)) weekly_spent]> (
    <["weekly_critical" :=
        fle (fmul (weekly_budget self) (critical_threshold self)) weekly_spent]> (
    <["weekly_emergency" :=
        fle (fmul (weekly_budget self) (emergency_threshold self)) weekly_spent]> (
    <["monthly_warning" :=
        fle (fmul (monthly_budget self) (warning_threshold self)) monthly_spent]> (
    <["monthly_critical" :=
        fle (fmul (monthly_budget self) (critical_threshold self)) monthly_spent]> (
    <["monthly_emergency" :=
        fle (fmul (monthly_budget self) (emergency_threshold self)) monthly_spent]>
    ∅))))))))).

(** [CostTracker.cleanup_old_entries]; the method has no [return]. The
    cut-off is computed before the lock is taken and the entries are read. *)
Definition cleanup_old_entries (retention_days : Z) (now : datetime)
  : M CostTracker unit :=
  delta <~ lift (timedelta_days retention_days) ;
  cutoff_date <~ lift (datetime_sub now delta) ;
  self <~ get ;
  let original_count := Z.of_nat (length (costs self)) in
  let kept := filter (fun entry => cutoff_date < timestamp entry) (costs self) in
  modify (set_costs kept) ;;
  let removed_count := original_count - Z.of_nat (length kept) in
  if 0 <? removed_count then log INFO (CleanedUp removed_count) else ret tt.

(** ** [ContentGuardrails] *)

Record ContentGuardrails : Type := {
  block_pii : bool;
  block_toxic : bool;
  block_hate : bool;
  block_violence : bool;
  block_sexual : bool;
  max_input_tokens : Z;
  max_output_tokens : Z;
  max_request_size : Z;
  scan_for_secrets : bool;
  pii_patterns : list string;
  secret_patterns : list string;
}.

(** [ContentGuardrails.__init__] with the defaults given to [os.getenv]. *)
Definition ContentGuardrails_init : ContentGuardrails := {|
  block_pii := true;
  block_toxic := true;
  block_hate := true;
  block_violence := true;
  block_sexual := true;
  max_input_tokens := 8192;
  max_output_tokens := 8192;
  max_request_size := 1048576;
  scan_for_secrets := true;
  pii_patterns := [
    "\b\d{3}-\d{2}-\d{4}\b";
    "\b\d{4}[- ]?\d{4}[- ]?\d{4}[- ]?\d{4}\b";
    "\b[A-Za-z0-9._%+-]+@[A-Za-z0-9.-]+\.[A-Z|a-z]{2,}\b";
    "\b\d{3}[- ]?\d{3}[- ]?\d{4}\b"
  ];
  secret_patterns := [
    "sk-[a-zA-Z0-9]{48}";
    "AIza[0-9A-Za-z-_]{35}";
    "AKIA[0-9A-Z]{16}";
    "ghp_[a-zA-Z0-9]{36}";
    "xoxb-[0-9]{11}-[0-9]{11}-[a-zA-Z0-9]{24}"
  ];
|}.

(** The reasons the checks append to [violations], with the values their
    messages interpolate. *)
Inductive violation : Type :=
  | RequestSizeExceedsLimit (size limit : Z)
  | EstimatedInputTokensExceedLimit (estimated_tokens : float) (limit : Z)
  | PotentialPII
  | PotentialSecretInInput
  | PotentiallyHarmfulContent (keyword : string)
  | BudgetLimitExceeded.

Definition toxic_keywords : list string :=
  ["hate"; "kill"; "violence"; "explicit"; "toxic"].

(** ** [GuardrailsManager] *)

Record GuardrailsManager : Type := {
  cost_tracker : CostTracker;
  content_guardrails : ContentGuardrails;
  enabled : bool;
}.

Definition set_cost_tracker (v : CostTracker) (self : GuardrailsManager)
  : GuardrailsManager :=
  {| cost_tracker := v; content_guardrails := content_guardrails self;
     enabled := enabled self |}.

(** [GuardrailsManager.__init__]; [GUARDRAILS_ENABLED] is the flag read from
    the environment. The clean-up thread it starts is not part of the model. *)
Definition GuardrailsManager_init (env : Environ) (GUARDRAILS_ENABLED : bool)
  : GuardrailsManager :=
  {| cost_tracker := CostTracker_init env;
     content_guardrails := ContentGuardrails_init;
     enabled := GUARDRAILS_ENABLED |}.

(** Truth value of what [dict.get] returns: [None] is false. *)
Definition truthy (o : option bool) : bool := default false o.

Section Guardrails.

(** [re.search(pattern, s) is not None], from Python's [re] module. *)
Variable re_search : string -> string -> bool.

(** [ContentGuardrails.validate_input]. Each [for .. if .. append; break]
    loop appends once when some element matches. *)
Definition validate_input (self : ContentGuardrails) (content : string)
    (content_type : string) : bool * list violation :=
  let violations := [] in
  let violations :=
    if max_request_size self <? utf8_len content
    then violations ++ [RequestSizeExceedsLimit (utf8_len content) (max_request_size self)]
    else violations in
  let estimated_tokens :=
    fmul (of_int (Z.of_nat (length (split content)))) (decimal 13 1) in
  let violations :=
    if float_gt_int estimated_tokens (max_input_tokens self)
    then violations ++
           [EstimatedInputTokensExceedLimit estimated_tokens (max_input_tokens self)]
    else violations in
  let violations :=
    if block_pii self && existsb (fun pattern => re_search pattern content)
                                 (pii_patterns self)
    then violations ++ [PotentialPII] else violations in
  let violations :=
    if scan_for_secrets self && existsb (fun pattern => re_search pattern content)
                                        (secret_patterns self)
    then violations ++ [PotentialSecretInInput] else violations in
  let violations :=
    if block_toxic self || block_hate self || block_violence self || block_sexual self
    then
      let content_lower := lower content in
      match find (fun keyword => contains keyword content_lower) toxic_keywords with
      | Some keyword => violations ++ [PotentiallyHarmfulContent keyword]
      | None => violations
      end
    else violations in
  (bool_decide (length violations = 0%nat), violations).

(** [GuardrailsManager.pre_request_check]. *)
Definition pre_request_check (content model user_id : string) (now : datetime)
  : M GuardrailsManager (bool * list violation) :=
  self <~ get ;
  if negb (enabled self) then ret (true, [])
  else
    let violations := [] in
    budget_status <~
      on_attr cost_tracker set_cost_tracker (check_budget_limits now) ;
    let violations :=
      if truthy (budget_status !! "daily_emergency")
         || truthy (budget_status !! "monthly_emergency")
      then violations ++ [BudgetLimitExceeded] else violations in
    let '(content_valid, content_violations) :=
      validate_input (content_guardrails self) content "text/plain" in
    let violations :=
      if negb content_valid then violations ++ content_violations else violations in
    ret (bool_decide (length violations = 0%nat), violations).

End Guardrails.

(** ** The specification's operations, for comparison with the code *)

(** [PricingTable.price]: the configured pair of a model, or the fixed
    fallback pair. *)
Definition price (t : CostTracker) (model : string) : float * float :=
  match model_costs t !! model with
  | Some prices => (dict_get prices "input" fzero, dict_get prices "output" fzero)
  | None => (decimal 1 3, decimal 2 3)
  end.

(** [tokens / 1000], correctly rounded. *)
Definition per_1000 (tokens : Z) : float :=
  fdiv (int_to_sf tokens) (int_to_sf 1000).

(** [PricingTable.cost]. *)
Definition cost (t : CostTracker) (model : string) (inputTokens outputTokens : Z)
  : float * float * float :=
  let '(input_price, output_price) := price t model in
  let inputCost := fmul (per_1000 inputTokens) input_price in
  let outputCost := fmul (per_1000 outputTokens) output_price in
  (inputCost, outputCost, fadd inputCost outputCost).

(** The [CostRecord] that [record] constructs. *)
Definition cost_record (t : CostTracker) (model user_id : string)
    (input_tokens output_tokens : Z) (request_id : string) (now : datetime) : CostEntry :=
  let '(inputCost, outputCost, totalCost) := cost t model input_tokens output_tokens in
  {| timestamp := now; model := model; user_id := user_id;
     input_tokens := input_tokens; output_tokens := output_tokens;
     input_cost := inputCost; output_cost := outputCost; total_cost := totalCost;
     request_id := request_id |}.

(** The warning of a pricing lookup that misses. *)
Definition lookup_warning (t : CostTracker) (model : string) : list log_record :=
  match model_costs t !! model with
  | Some _ => []
  | None => [(WARNING, UnknownModel model)]
  end.

(** The ledger once an entry is appended and the daily, weekly, monthly and
    per-user totals have taken its [total_cost]. *)
Definition recorded (entry : CostEntry) (t : CostTracker) : CostTracker :=
  let today := strftime "%Y-%m-%d" (timestamp entry) in
  let week := strftime "%Y-W%U" (timestamp entry) in
  let month := strftime "%Y-%m" (timestamp entry) in
  set_user_costs
    (<[user_id entry :=
         defaultdict_iadd (dict_get (user_costs t) (user_id entry) ∅) today
                          (total_cost entry)]> (user_costs t))
    (set_monthly_costs (defaultdict_iadd (monthly_costs t) month (total_cost entry))
       (set_weekly_costs (defaultdict_iadd (weekly_costs t) week (total_cost entry))
          (set_daily_costs (defaultdict_iadd (daily_costs t) today (total_cost entry))
             (set_costs (costs t ++ [entry]) t)))).

(** The budget configuration of the data model: three ceilings, each a
    positive amount, and three fractions, all of them floats as Python holds
    them. *)
Definition budget_configuration (t : CostTracker) : bool :=
  positive_finite (daily_budget t) && positive_finite (weekly_budget t)
  && positive_finite (monthly_budget t)
  && valid (warning_threshold t) && valid (critical_threshold t)
  && valid (emergency_threshold t).

(** The warning, critical and emergency flags of one period are monotone. *)
Definition tier_monotone (status : gmap string bool) (period : string) : Prop :=
  (status !! (period +:+ "_emergency") = Some true ->
   status !! (period +:+ "_critical") = Some true) /\
  (status !! (period +:+ "_critical") = Some true ->
   status !! (period +:+ "_warning") = Some true).


(** The violation of the input-token limit. *)
Definition is_token_violation (v : violation) : bool :=
  match v with
  | EstimatedInputTokensExceedLimit _ _ => true
  | _ => false
  end.

(** [CostLedger.budgetStatus(now)]: the nine flags [check_budget_limits]
    returns. *)
Definition budgetStatus (t : CostTracker) (now : datetime) : gmap string bool :=
  match (check_budget_limits now t).2 with
  | inr status => status
  | inl _ => ∅
  end.

(** The states of a tracker constructed from [env]: what [__init__] builds,
    and what the two mutating methods leave, also when they raise. *)
Inductive reachable (env : Environ) : CostTracker -> Prop :=
  | reachable_init : reachable env (CostTracker_init env)
  | reachable_add (t : CostTracker) (mdl uid : string) (itok otok : Z) (rid : string)
      (now : datetime) :
      reachable env t ->
      reachable env (add_cost_entry mdl uid itok otok rid now t).1.1
  | reachable_cleanup (t : CostTracker) (R : Z) (now : datetime) :
      reachable env t ->
      reachable env (cleanup_old_entries R now t).1.1.

(** The budget scenario of the specification: a daily ceiling of 10 dollars,
    an emergency fraction of 0.95, and 9.60 dollars spent on the day of
    [scenario_now]. *)
Definition scenario_now : datetime := 63929394306000007.

Definition scenario_environ : Environ := {|
  DAILY_BUDGET := of_int 10;
  WEEKLY_BUDGET := WEEKLY_BUDGET default_environ;
  MONTHLY_BUDGET := MONTHLY_BUDGET default_environ;
  COST_ALERT_WARNING := COST_ALERT_WARNING default_environ;
  COST_ALERT_CRITICAL := COST_ALERT_CRITICAL default_environ;
  COST_ALERT_EMERGENCY := of_int 95;
  VERTEX_GEMINI_PRO_INPUT_COST := VERTEX_GEMINI_PRO_INPUT_COST default_environ;
  VERTEX_GEMINI_PRO_OUTPUT_COST := VERTEX_GEMINI_PRO_OUTPUT_COST default_environ;
  VERTEX_GEMINI_FLASH_INPUT_COST := VERTEX_GEMINI_FLASH_INPUT_COST default_environ;
  VERTEX_GEMINI_FLASH_OUTPUT_COST := VERTEX_GEMINI_FLASH_OUTPUT_COST default_environ;
|}.

Definition scenario_manager : GuardrailsManager :=
  set_cost_tracker
    (set_daily_costs {[ strftime "%Y-%m-%d" scenario_now := decimal 960 2 ]}
       (CostTracker_init scenario_environ))
    (GuardrailsManager_init scenario_environ true).

(** ** Proof automation *)

Ltac unfold_fexp := unfold fexp, emin, prec, emax in *.

Ltac status_lookup :=
  repeat first [rewrite lookup_insert_eq | rewrite lookup_insert_ne by discriminate].

(** * The cost summary, output validation, the post-request hook and the
      status report *)

(** [x / y] on floats: [ZeroDivisionError] for a divisor that equals zero,
    of either sign; the IEEE quotient otherwise. An int operand is first
    converted to a float. *)
Definition float_truediv (x y : float) : exn + float :=
  match y with
  | S754_zero _ => inl ZeroDivisionError
  | _ => inr (fdiv x y)
  end.

(** [CostTracker.get_current_costs]. The three reads of [datetime.utcnow()]
    are one instant [now]; a missing period reads as the int [0], which
    divides as the float [0.0]. The entries of the dict display are evaluated
    from left to right. *)
Definition get_current_costs (now : datetime)
  : M CostTracker (gmap string (gmap string float)) :=
  self <~ get ;
  let today := strftime "%Y-%m-%d" now in
  let week := strftime "%Y-W%U" now in
  let month := strftime "%Y-%m" now in
  daily_ratio <~
    lift (float_truediv (dict_get (daily_costs self) today fzero) (daily_budget self)) ;
  let daily : gmap string float :=
    {[ "spent" := dict_get (daily_costs self) today fzero;
       "budget" := daily_budget self;
       "percentage" := fmul daily_ratio (of_int 100) ]} in
  weekly_ratio <~
    lift (float_truediv (dict_get (weekly_costs self) week fzero) (weekly_budget self)) ;
  let weekly : gmap string float :=
    {[ "spent" := dict_get (weekly_costs self) week fzero;
       "budget" := weekly_budget self;
       "percentage" := fmul weekly_ratio (of_int 100) ]} in
  monthly_ratio <~
    lift (float_truediv (dict_get (monthly_costs self) month fzero) (monthly_budget self)) ;
  let monthly : gmap string float :=
    {[ "spent" := dict_get (monthly_costs self) month fzero;
       "budget" := monthly_budget self;
       "percentage" := fmul monthly_ratio (of_int 100) ]} in
  ret {[ "daily" := daily; "weekly" := weekly; "monthly" := monthly ]}.

(** The reasons [validate_output] appends to [violations]. *)
Inductive output_violation : Type :=
  | OutputTokensExceedLimit (estimated_tokens : float) (limit : Z)
  | PotentialSecretInOutput.

(** What the manager's methods log: the records of the cost tracker they
    call, and the manager's own budget alerts. *)
Inductive manager_message : Type :=
  | TrackerMessage (msg : log_message)
  | BudgetAlertTriggered (alert_type : string).

Definition manager_record : Type := log_level * manager_message.

Definition tracker_record (r : log_record) : manager_record :=
  (r.1, TrackerMessage r.2).

(** The keys of the dict that [check_budget_limits] builds, in the order of
    its display; [items()] yields them in this order. *)
Definition budget_status_keys : list string :=
  ["daily_warning"; "daily_critical"; "daily_emergency";
   "weekly_warning"; "weekly_critical"; "weekly_emergency";
   "monthly_warning"; "monthly_critical"; "monthly_emergency"].

(** The loop over [budget_status.items()] of [post_request_processing]. *)
Definition budget_alerts (budget_status : gmap string bool) : list manager_record :=
  flat_map (fun alert_type =>
              if truthy (budget_status !! alert_type)
              then [(WARNING, BudgetAlertTriggered alert_type)] else [])
           budget_status_keys.

(** The dict of [get_status] when the manager is enabled. *)
Module Status.

Record config : Type := {
  block_pii : bool;
  block_toxic : bool;
  scan_for_secrets : bool;
  max_input_tokens : Z;
  max_output_tokens : Z;
}.

Record report : Type := {
  costs : gmap string (gmap string float);
  budget_status : gmap string bool;
  total_entries : Z;
  guardrails_config : config;
}.

End Status.

(** [GuardrailsManager.get_status]: [None] is the dict [{'enabled': False}].
    [now] and [later] are the instants at which the two methods of the cost
    tracker read the clock. *)
Definition get_status (now later : datetime)
  : M GuardrailsManager (option Status.report) :=
  self <~ get ;
  if negb (enabled self) then ret None
  else
    current_costs <~ on_attr cost_tracker set_cost_tracker (get_current_costs now) ;
    budget_status <~ on_attr cost_tracker set_cost_tracker (check_budget_limits later) ;
    self <~ get ;
    ret (Some {|
      Status.costs := current_costs;
      Status.budget_status := budget_status;
      Status.total_entries := Z.of_nat (length (costs (cost_tracker self)));
      Status.guardrails_config := {|
        Status.block_pii := block_pii (content_guardrails self);
        Status.block_toxic := block_toxic (content_guardrails self);
        Status.scan_for_secrets := scan_for_secrets (content_guardrails self);
        Status.max_input_tokens := max_input_tokens (content_guardrails self);
        Status.max_output_tokens := max_output_tokens (content_guardrails self);
      |};
    |}).

Section Processing.

Variable re_search : string -> string -> bool.

(** [ContentGuardrails.validate_output]. *)
Definition validate_output (self : ContentGuardrails) (content : string)
  : bool * list output_violation :=
  let violations := [] in
  let estimated_tokens :=
    fmul (of_int (Z.of_nat (length (split content)))) (decimal 13 1) in
  let violations :=
    if float_gt_int estimated_tokens (max_output_tokens self)
    then violations ++ [OutputTokensExceedLimit estimated_tokens (max_output_tokens self)]
    else violations in
  let violations :=
    if scan_for_secrets self && existsb (fun pattern => re_search pattern content)
                                        (secret_patterns self)
    then violations ++ [PotentialSecretInOutput] else violations in
  (bool_decide (length violations = 0%nat), violations).

(** [GuardrailsManager.post_request_processing], in state-passing form: the
    manager it leaves, the records it logged, and the exception or the value.
    [now] is the instant [add_cost_entry] stamps the entry with, [later] the
    one at which [check_budget_limits] reads the clock. *)
Definition post_request_processing (model user_id : string)
    (input_tokens output_tokens : Z) (output_content request_id : string)
    (now later : datetime) (self : GuardrailsManager)
  : GuardrailsManager * list manager_record * (exn + bool * list output_violation) :=
  if negb (enabled self) then (self, [], inr (true, []))
  else
    let violations := [] in
    match add_cost_entry model user_id input_tokens output_tokens request_id now
                         (cost_tracker self) with
    | (tracker, records, inl e) =>
        (set_cost_tracker tracker self, tracker_record <$> records, inl e)
    | (tracker, records, inr cost_entry) =>
        let self := set_cost_tracker tracker self in
        let '(output_valid, output_violations) :=
          validate_output (content_guardrails self) output_content in
        let violations :=
          if negb output_valid then violations ++ output_violations else violations in
        match check_budget_limits later (cost_tracker self) with
        | (tracker, records', inl e) =>
            (set_cost_tracker tracker self,
             tracker_record <$> (records ++ records'), inl e)
        | (tracker, records', inr budget_status) =>
            (set_cost_tracker tracker self,
             (tracker_record <$> (records ++ records')) ++ budget_alerts budget_status,
             inr (bool_decide (length violations = 0%nat), violations))
        end
    end.

End Processing.

(** ** Notions used in the statements about these methods *)

Definition is_zero (x : float) : bool :=
  match x with S754_zero _ => true | _ => false end.

(** Zero or finite: neither an infinity nor a NaN. *)
Definition is_finite (x : float) : bool :=
  match x with S754_zero _ | S754_finite _ _ _ => true | _ => false end.

(** Not negative and not a NaN: a zero, a positive finite float or [+inf]. *)
Definition is_nonneg (x : float) : bool :=
  match x with
  | S754_zero _ | S754_infinity false | S754_finite false _ _ => true
  | _ => false
  end.

(** A price or a fraction as one configures it: not negative, and finite. *)
Definition nonneg_finite (x : float) : bool := is_nonneg x && is_finite x.

(** Zero or negative, and finite. *)
Definition nonpos_finite (x : float) : bool :=
  match x with
  | S754_zero _ | S754_finite true _ _ => true
  | _ => false
  end.

(** A running total as the tracker holds it: a canonical float that is not
    negative. *)
Definition spend_ok (x : float) : bool := valid x && is_nonneg x.

(** The four configured prices are canonical floats, finite and not
    negative. *)
Definition prices_ok (env : Environ) : bool :=
  forallb (fun p => valid p && nonneg_finite p)
    [VERTEX_GEMINI_PRO_INPUT_COST env; VERTEX_GEMINI_PRO_OUTPUT_COST env;
     VERTEX_GEMINI_FLASH_INPUT_COST env; VERTEX_GEMINI_FLASH_OUTPUT_COST env].

(** The states of a constructed tracker on which only token counts from 0 up
    to [2^1000] were recorded. *)
Inductive recorded_nonneg (env : Environ) : CostTracker -> Prop :=
  | recorded_nonneg_init : recorded_nonneg env (CostTracker_init env)
  | recorded_nonneg_add (t : CostTracker) (mdl uid : string) (itok otok : Z)
      (rid : string) (now : datetime) :
      recorded_nonneg env t ->
      0 <= itok < 2 ^ 1000 -> 0 <= otok < 2 ^ 1000 ->
      recorded_nonneg env (add_cost_entry mdl uid itok otok rid now t).1.1
  | recorded_nonneg_cleanup (t : CostTracker) (R : Z) (now : datetime) :
      recorded_nonneg env t ->
      recorded_nonneg env (cleanup_old_entries R now t).1.1.

(** Every total of the tracker, under every key, is a canonical float that
    is not negative; a key without a total reads as [0.0]. *)
Definition totals_ok (t : CostTracker) : Prop :=
  forall user key : string,
    spend_ok (dict_get (daily_costs t) key fzero) = true /\
    spend_ok (dict_get (weekly_costs t) key fzero) = true /\
    spend_ok (dict_get (monthly_costs t) key fzero) = true /\
    spend_ok (dict_get (dict_get (user_costs t) user ∅) key fzero) = true.

(** One of the three ceilings equals zero. *)
Definition zero_budget (t : CostTracker) : bool :=
  is_zero (daily_budget t) || is_zero (weekly_budget t) || is_zero (monthly_budget t).

(** The fields of the dict [get_current_costs] returns for one period. *)
Definition summary_field (summary : gmap string (gmap string float))
    (period field : string) : option float :=
  summary !! period ≫= (.!! field).

(** Some check of [validate_input] is switched on that scans for the listed
    keywords. *)
Definition keyword_scan (c : ContentGuardrails) : bool :=
  block_toxic c || block_hate c || block_violence c || block_sexual c.

(** The instant [R] days before [now], at or before which
    [cleanup_old_entries] removes. *)
Definition cutoff (R : Z) (now : datetime) : Z := now - R * us_per_day.

(** [now - timedelta(days=R)] is a datetime: the window has at most
    999999999 days and the cut-off falls in the years 1 to 9999. *)
Definition cutoff_ok (R : Z) (now : datetime) : bool :=
  (Z.abs R <=? 999999999) && ((0 <=? cutoff R now) && (cutoff R now <? datetime_end)).

(** The period keys of an entry have buckets in the tracker [t]. *)
Definition bucketed (t : CostTracker) (e : CostEntry) : Prop :=
  is_Some (daily_costs t !! strftime "%Y-%m-%d" (timestamp e)) /\
  is_Some (weekly_costs t !! strftime "%Y-W%U" (timestamp e)) /\
  is_Some (monthly_costs t !! strftime "%Y-%m" (timestamp e)) /\
  exists days, user_costs t !! user_id e = Some days /\
               is_Some (days !! strftime "%Y-%m-%d" (timestamp e)).

(** Lookup in the nested dict of the summary. *)
Ltac summary_lookup :=
  unfold summary_field;
  repeat first [rewrite lookup_insert_eq | rewrite lookup_insert_ne by discriminate
               | rewrite lookup_singleton_eq];
  cbn [mbind option_bind];
  repeat first [rewrite lookup_insert_eq | rewrite lookup_insert_ne by discriminate
               | rewrite lookup_singleton_eq].

(** * Facts about binary64 rounding *)

(** A positive number of [d] binary digits lies in [2^(d-1), 2^d). *)
Lemma digits2_pos_bounds (p : positive) :
  2 ^ (Zpos (digits2_pos p) - 1) <= Zpos p < 2 ^ Zpos (digits2_pos p).
Proof.
  induction p as [p IH|p IH|]; cbn [digits2_pos].
  - rewrite Pos2Z.inj_succ.
    replace (Z.succ (Z.pos (digits2_pos p)) - 1) with (Z.succ (Z.pos (digits2_pos p) - 1)) by lia.
    rewrite !Z.pow_succ_r by lia. lia.
  - rewrite Pos2Z.inj_succ.
    replace (Z.succ (Z.pos (digits2_pos p)) - 1) with (Z.succ (Z.pos (digits2_pos p) - 1)) by lia.
    rewrite !Z.pow_succ_r by lia. lia.
  - simpl. lia.
Qed.

Lemma Zdigits2_bounds (m : Z) :
  0 < m -> 1 <= Zdigits2 m /\ 2 ^ (Zdigits2 m - 1) <= m < 2 ^ Zdigits2 m.
Proof.
  destruct m as [|p|p]; try lia. intros _. cbn [Zdigits2].
  split; [lia | apply digits2_pos_bounds].
Qed.

Lemma Zdigits2_nonneg (m : Z) : 0 <= Zdigits2 m.
Proof. destruct m; simpl; lia. Qed.

(** Fewer than [2^k] means at most [k] digits. *)
Lemma Zdigits2_le (m k : Z) : 0 <= k -> 0 <= m < 2 ^ k -> Zdigits2 m <= k.
Proof.
  intros Hk [Hm Hlt].
  destruct (Z.eq_dec m 0) as [->|Hne]; [simpl; lia|].
  destruct (Zdigits2_bounds m) as [Hd [Hlo _]]; [lia|].
  destruct (Z_lt_le_dec k (Zdigits2 m)) as [Hgt|]; [|lia].
  exfalso.
  assert (2 ^ k <= 2 ^ (Zdigits2 m - 1)) by (apply Z.pow_le_mono_r; lia).
  lia.
Qed.

(** One step of [shr] halves the mantissa and remembers the bits it drops:
    the last one in the round bit, the earlier ones in the sticky bit. *)
Lemma shr_1_nonneg (m : Z) (r s : bool) :
  0 <= m ->
  shr_1 (Build_shr_record m r s) = Build_shr_record (m / 2) (Z.odd m) (r || s).
Proof.
  intros Hm. destruct m as [|[p|p|]|p]; try lia; cbn [shr_1].
  - reflexivity.
  - f_equal. rewrite Pos2Z.inj_xI.
    apply (Z.div_unique _ _ _ 1); lia.
  - f_equal. rewrite Pos2Z.inj_xO.
    apply (Z.div_unique _ _ _ 0); lia.
  - reflexivity.
Qed.

(** [iter_pos] is iteration over the unary number. *)
Lemma iter_pos_nat {A} (f : A -> A) (p : positive) (x : A) :
  SpecFloat.iter_pos f p x = Nat.iter (Pos.to_nat p) f x.
Proof.
  revert x. induction p as [p IH|p IH|]; intros x; cbn [SpecFloat.iter_pos].
  - rewrite !IH, Pos2Nat.inj_xI.
    replace (S (2 * Pos.to_nat p))%nat with (Pos.to_nat p + (Pos.to_nat p + 1))%nat by lia.
    rewrite !Nat.iter_add. reflexivity.
  - rewrite !IH, Pos2Nat.inj_xO.
    replace (2 * Pos.to_nat p)%nat with (Pos.to_nat p + Pos.to_nat p)%nat by lia.
    rewrite Nat.iter_add. reflexivity.
  - reflexivity.
Qed.

(** Shifting [k] times divides the mantissa by [2^k]. *)
Lemma shr_iter_m (k : nat) (mrs : shr_record) :
  0 <= shr_m mrs ->
  shr_m (Nat.iter k shr_1 mrs) = shr_m mrs / 2 ^ Z.of_nat k.
Proof.
  intros Hm. induction k as [|k IH].
  - simpl. now rewrite Z.div_1_r.
  - rewrite Nat2Z.inj_succ, Z.pow_succ_r by lia. rewrite Nat.iter_succ.
    destruct (Nat.iter k shr_1 mrs) as [m r s] eqn:E. cbn [shr_m] in IH.
    assert (0 <= m) by (subst m; apply Z.div_pos; lia).
    rewrite shr_1_nonneg by lia. cbn [shr_m]. subst m.
    rewrite Z.div_div by lia. f_equal. lia.
Qed.

(** After [k + 1] shifts of an exact value the round bit is bit [k] of the
    mantissa and the sticky bit tells whether the lower bits are all zero. *)
Lemma shr_iter_exact (k : nat) (m : Z) :
  0 <= m ->
  Nat.iter (S k) shr_1 (Build_shr_record m false false) =
  Build_shr_record (m / 2 ^ Z.of_nat (S k)) (Z.odd (m / 2 ^ Z.of_nat k))
                   (negb (m mod 2 ^ Z.of_nat k =? 0)).
Proof.
  intros Hm. induction k as [|k IH].
  - unfold Nat.iter; cbn [nat_rect]. rewrite shr_1_nonneg by lia.
    change (2 ^ Z.of_nat 1) with 2. change (2 ^ Z.of_nat 0) with 1.
    rewrite Z.div_1_r, Z.mod_1_r. reflexivity.
  - rewrite Nat.iter_succ, IH.
    assert (Hp : 0 < 2 ^ Z.of_nat k) by (apply Z.pow_pos_nonneg; lia).
    assert (Hp1 : 2 ^ Z.of_nat (S k) = 2 ^ Z.of_nat k * 2)
      by (rewrite Nat2Z.inj_succ, Z.pow_succ_r by lia; lia).
    rewrite shr_1_nonneg by (apply Z.div_pos; lia).
    f_equal.
    + rewrite Z.div_div by lia.
      rewrite (Nat2Z.inj_succ (S k)), Z.pow_succ_r by lia. f_equal. lia.
    + rewrite Hp1.
      rewrite Z.rem_mul_r by lia.
      set (a := m / 2 ^ Z.of_nat k). set (lo := m mod 2 ^ Z.of_nat k).
      assert (0 <= lo < 2 ^ Z.of_nat k) by (apply Z.mod_pos_bound; lia).
      rewrite Zodd_mod.
      assert (0 <= a mod 2 < 2) by (apply Z.mod_pos_bound; lia).
      destruct (Z.eqb_spec (a mod 2) 1) as [E1|E1];
      destruct (Z.eqb_spec lo 0) as [E2|E2];
      destruct (Z.eqb_spec (lo + 2 ^ Z.of_nat k * (a mod 2)) 0) as [E3|E3];
      simpl; try reflexivity; nia.
Qed.

Lemma even_succ_false (q : Z) : Z.even q = false -> Z.even (q + 1) = true.
Proof.
  intros H. replace (q + 1) with (Z.succ q) by lia.
  rewrite Z.even_succ. rewrite <- Z.negb_even, H. reflexivity.
Qed.

(** Shifting an exact value by [n] bits and rounding with the round and sticky
    bits rounds [m / 2^n] to the nearest integer, ties to even. *)
Lemma shr_exact_RNE (m e n : Z) :
  0 <= m -> 0 <= n ->
  exists mrs, shr (Build_shr_record m false false) e n = (mrs, e + n) /\
    RNE n m (round_nearest_even (shr_m mrs) (loc_of_shr_record mrs)).
Proof.
  intros Hm Hn. destruct n as [|p|p]; try lia.
  - exists (Build_shr_record m false false). split.
    + cbn [shr]. f_equal. lia.
    + cbn. unfold RNE. rewrite Z.pow_0_r. lia.
  - cbn [shr]. rewrite iter_pos_nat.
    destruct (Pos.to_nat p) as [|k] eqn:Ek; [lia|].
    rewrite shr_iter_exact by lia.
    eexists; split; [reflexivity|].
    assert (Hpk : Z.pos p = Z.of_nat (S k)) by lia.
    rewrite Hpk. cbn [shr_m loc_of_shr_record].
    assert (Hh : 0 < 2 ^ Z.of_nat k) by (apply Z.pow_pos_nonneg; lia).
    assert (Hp1 : 2 ^ Z.of_nat (S k) = 2 ^ Z.of_nat k * 2)
      by (rewrite Nat2Z.inj_succ, Z.pow_succ_r by lia; lia).
    rewrite Hp1. set (h := 2 ^ Z.of_nat k) in *.
    assert (Hq : m / (h * 2) = (m / h) / 2) by (rewrite Z.div_div by lia; reflexivity).
    rewrite Hq.
    set (a := m / h). set (lo := m mod h).
    assert (Hma : m = h * a + lo) by (apply Z.div_mod; lia).
    assert (Hlo : 0 <= lo < h) by (apply Z.mod_pos_bound; lia).
    assert (Ha : a = 2 * (a / 2) + a mod 2) by (apply Z.div_mod; lia).
    assert (Hb : 0 <= a mod 2 < 2) by (apply Z.mod_pos_bound; lia).
    set (q := a / 2) in *.
    rewrite Zodd_mod. unfold RNE.
    destruct (Z.eqb_spec (a mod 2) 1) as [E1|E1];
      destruct (Z.eqb_spec lo 0) as [E2|E2]; cbn [negb round_nearest_even].
    + destruct (Z.even q) eqn:Ev.
      * repeat split; try nia. intros _. exact Ev.
      * repeat split; try nia. intros _. now apply even_succ_false.
    + repeat split; try nia.
    + repeat split; try nia.
    + repeat split; try nia.
Qed.

(** Rounding to nearest is monotone. *)
Lemma RNE_mono (n a a' b b' : Z) :
  0 <= n -> RNE n a a' -> RNE n b b' -> a <= b -> a' <= b'.
Proof.
  intros Hn (Ha & Ha1 & Ha2) (Hb & Hb1 & Hb2) Hab.
  assert (Hp : 0 < 2 ^ n) by (apply Z.pow_pos_nonneg; lia).
  destruct (Z_le_gt_dec a' b') as [|Hgt]; [assumption|exfalso].
  assert (H1 : 2 ^ n * (2 * b' + 1) <= 2 ^ n * (2 * a' - 1)) by nia.
  assert (E1 : 2 * a = 2 ^ n * (2 * a' - 1)) by lia.
  assert (E2 : 2 * b = 2 ^ n * (2 * b' + 1)) by lia.
  assert (E3 : a' = b' + 1) by nia.
  specialize (Ha2 E1). specialize (Hb1 E2). subst a'.
  replace (b' + 1) with (Z.succ b') in Ha2 by lia.
  rewrite Z.even_succ, <- Z.negb_even, Hb1 in Ha2. discriminate.
Qed.

(** Rounding does not depend on the scale at which the value is written. *)
Lemma RNE_scale (n j m m2 : Z) :
  0 <= n -> 0 <= j -> RNE n m m2 -> RNE (n + j) (m * 2 ^ j) m2.
Proof.
  intros Hn Hj (H & H1 & H2).
  assert (Hp : 0 < 2 ^ j) by (apply Z.pow_pos_nonneg; lia).
  unfold RNE. rewrite Z.pow_add_r by lia.
  repeat split; try nia.
  - intros E. apply H1. nia.
  - intros E. apply H2. nia.
Qed.

(** An integer below the value stays below its rounding. *)
Lemma RNE_lower (n m m2 k : Z) :
  0 <= n -> RNE n m m2 -> k * 2 ^ n <= m -> k <= m2.
Proof.
  intros Hn (H & _) Hk.
  assert (Hp : 0 < 2 ^ n) by (apply Z.pow_pos_nonneg; lia). nia.
Qed.

(** An integer above the value stays above its rounding. *)
Lemma RNE_upper (n m m2 k : Z) :
  0 <= n -> RNE n m m2 -> m <= k * 2 ^ n -> m2 <= k.
Proof.
  intros Hn (H & _) Hk.
  assert (Hp : 0 < 2 ^ n) by (apply Z.pow_pos_nonneg; lia). nia.
Qed.

(** The second pass of [binary_round_aux] only renormalises a mantissa that
    rounding carried to [2^53]. *)
Lemma shr_fexp_renorm (m2 E : Z) :
  0 <= m2 <= 2 ^ 53 -> -1074 <= E ->
  exists mrs, shr_fexp prec emax m2 E loc_Exact = (mrs, snd (renorm m2 E)) /\
              shr_m mrs = fst (renorm m2 E).
Proof.
  intros Hm HE. unfold shr_fexp, renorm. cbn [shr_record_of_loc].
  destruct (Z.eqb_spec m2 (2 ^ 53)) as [->|Hne].
  - replace (fexp prec emax (Zdigits2 (2 ^ 53) + E) - E) with 1
      by (change (Zdigits2 (2 ^ 53)) with 54; unfold_fexp; lia).
    eexists; split; reflexivity.
  - assert (Hd : Zdigits2 m2 <= 53) by (apply Zdigits2_le; lia).
    pose proof (Zdigits2_nonneg m2).
    assert (Hn : fexp prec emax (Zdigits2 m2 + E) - E <= 0) by (unfold_fexp; lia).
    destruct (fexp prec emax (Zdigits2 m2 + E) - E) as [|p|p]; try lia;
      eexists; split; reflexivity.
Qed.

(** [binary_round_aux] on an exact value whose exponent does not exceed the
    one of its format: the mantissa is rounded to nearest even at that
    exponent, renormalised and packed; it has 53 bits unless the result is
    subnormal. *)
Lemma binary_round_aux_exact (s : bool) (m : positive) (e : Z) :
  let E := fexp prec emax (Zdigits2 (Zpos m) + e) in
  e <= E ->
  exists m2, RNE (E - e) (Zpos m) m2 /\ 0 <= m2 <= 2 ^ 53 /\
    (-1074 < E -> 2 ^ 52 <= m2) /\
    binary_round_aux prec emax s (Zpos m) e loc_Exact =
      pack s (fst (renorm m2 E)) (snd (renorm m2 E)).
Proof.
  intros E HE.
  destruct (Zdigits2_bounds (Zpos m)) as (Hd1 & Hlo & Hhi); [lia|].
  set (d := Zdigits2 (Zpos m)) in *.
  destruct (shr_exact_RNE (Zpos m) e (E - e)) as (mrs & Hshr & HR); [lia|lia|].
  set (m2 := round_nearest_even (shr_m mrs) (loc_of_shr_record mrs)) in *.
  assert (Hn : 0 <= E - e) by lia.
  assert (HEmin : -1074 <= E) by (subst E; unfold_fexp; lia).
  assert (Hdn : d - (E - e) <= 53) by (subst E; unfold_fexp; lia).
  assert (Hp : 0 < 2 ^ (E - e)) by (apply Z.pow_pos_nonneg; lia).
  assert (H0 : 0 <= m2) by (destruct HR as (HR & _); nia).
  assert (H53 : m2 <= 2 ^ 53).
  { destruct (Z_le_gt_dec (E - e) d) as [Hle|Hgt].
    - transitivity (2 ^ (d - (E - e))).
      + apply (RNE_upper (E - e) (Zpos m)); [lia|exact HR|].
        rewrite <- Z.pow_add_r by lia.
        replace (d - (E - e) + (E - e)) with d by lia. lia.
      + apply Z.pow_le_mono_r; lia.
    - transitivity 1; [|lia].
      apply (RNE_upper (E - e) (Zpos m)); [lia|exact HR|].
      assert (2 ^ d <= 2 ^ (E - e)) by (apply Z.pow_le_mono_r; lia). lia. }
  exists m2. split; [exact HR|]. split; [lia|]. split.
  - intros Hnorm.
    assert (HEq : E - e = d - 53) by (subst E; unfold_fexp; lia).
    apply (RNE_lower (E - e) (Zpos m)); [lia|exact HR|].
    rewrite HEq, <- Z.pow_add_r by lia.
    replace (52 + (d - 53)) with (d - 1) by lia. lia.
  - unfold binary_round_aux.
    change (shr_fexp prec emax (Zpos m) e loc_Exact)
      with (shr (Build_shr_record (Zpos m) false false) e (E - e)).
    rewrite Hshr. replace (e + (E - e)) with E by lia.
    fold m2.
    destruct (shr_fexp_renorm m2 E) as (mrs2 & Hs2 & Hm3); [lia|lia|].
    rewrite Hs2, Hm3. reflexivity.
Qed.

Lemma pos_compare_cont_Eq (p q : positive) : Pos.compare_cont Eq p q = (Zpos p ?= Zpos q).
Proof. reflexivity. Qed.

(** Order of packed non-negative results: by exponent, then by mantissa. *)
Lemma pack_le_pos (ma ea mb eb : Z) :
  0 <= ma -> 0 <= mb ->
  ma = 0 \/ (0 < mb /\ (ea < eb \/ (ea = eb /\ ma <= mb))) ->
  SFleb (pack false ma ea) (pack false mb eb) = true.
Proof.
  intros Ha Hb H. unfold pack.
  destruct ma as [|pa|pa]; try lia; destruct mb as [|pb|pb]; try lia;
    destruct (Z.leb_spec ea (emax - prec)); destruct (Z.leb_spec eb (emax - prec));
    try reflexivity; try (exfalso; lia).
  unfold SFleb, SFcompare. rewrite pos_compare_cont_Eq.
  destruct (Z.compare_spec ea eb); try reflexivity; try (exfalso; lia).
  destruct (Z.compare_spec (Zpos pa) (Zpos pb)); try reflexivity; exfalso; lia.
Qed.

(** The same for results of negative sign, with the order reversed. *)
Lemma pack_le_neg (ma ea mb eb : Z) :
  0 <= ma -> 0 <= mb ->
  ma = 0 \/ (0 < mb /\ (ea < eb \/ (ea = eb /\ ma <= mb))) ->
  SFleb (pack true mb eb) (pack true ma ea) = true.
Proof.
  intros Ha Hb H. unfold pack.
  destruct ma as [|pa|pa]; try lia; destruct mb as [|pb|pb]; try lia;
    destruct (Z.leb_spec ea (emax - prec)); destruct (Z.leb_spec eb (emax - prec));
    try reflexivity; try (exfalso; lia).
  unfold SFleb, SFcompare. rewrite pos_compare_cont_Eq.
  destruct (Z.compare_spec eb ea); try reflexivity; try (exfalso; lia).
  destruct (Z.compare_spec (Zpos pb) (Zpos pa)); try reflexivity; exfalso; lia.
Qed.

(** A larger value has at least the magnitude of a smaller one. *)
Lemma magnitude_mono (ma mb ea eb c : Z) :
  0 < ma -> 0 < mb -> c <= ea -> c <= eb ->
  ma * 2 ^ (ea - c) <= mb * 2 ^ (eb - c) ->
  Zdigits2 ma + ea <= Zdigits2 mb + eb.
Proof.
  intros Ha Hb Hca Hcb Hle.
  destruct (Zdigits2_bounds ma Ha) as (Hda & Hlo & _).
  destruct (Zdigits2_bounds mb Hb) as (Hdb & _ & Hhi).
  assert (H1 : 2 ^ (Zdigits2 ma - 1 + (ea - c)) <= ma * 2 ^ (ea - c)).
  { rewrite Z.pow_add_r by lia.
    apply Z.mul_le_mono_nonneg_r; [apply Z.pow_nonneg; lia|exact Hlo]. }
  assert (H2 : mb * 2 ^ (eb - c) < 2 ^ (Zdigits2 mb + (eb - c))).
  { rewrite Z.pow_add_r by lia.
    apply Z.mul_lt_mono_pos_r; [apply Z.pow_pos_nonneg; lia|exact Hhi]. }
  assert (H3 : 2 ^ (Zdigits2 ma - 1 + (ea - c)) < 2 ^ (Zdigits2 mb + (eb - c))) by lia.
  apply Z.pow_lt_mono_r_iff in H3; lia.
Qed.

(** Rounding of exact positive values is monotone, and antitone once the sign
    is negative. *)
Lemma round_exact_mono (ma mb : positive) (ea eb : Z) :
  ea <= fexp prec emax (Zdigits2 (Zpos ma) + ea) ->
  eb <= fexp prec emax (Zdigits2 (Zpos mb) + eb) ->
  Zpos ma * 2 ^ (ea - Z.min ea eb) <= Zpos mb * 2 ^ (eb - Z.min ea eb) ->
  SFleb (binary_round_aux prec emax false (Zpos ma) ea loc_Exact)
        (binary_round_aux prec emax false (Zpos mb) eb loc_Exact) = true /\
  SFleb (binary_round_aux prec emax true (Zpos mb) eb loc_Exact)
        (binary_round_aux prec emax true (Zpos ma) ea loc_Exact) = true.
Proof.
  intros Hpa Hpb Hle.
  set (c := Z.min ea eb) in *.
  assert (Hmag : Zdigits2 (Zpos ma) + ea <= Zdigits2 (Zpos mb) + eb)
    by (apply (magnitude_mono _ _ _ _ c); lia).
  destruct (binary_round_aux_exact false ma ea Hpa) as (xa & HRa & Hxa & Hna & Efa).
  destruct (binary_round_aux_exact true ma ea Hpa) as (xa' & HRa' & _ & _ & Eta).
  destruct (binary_round_aux_exact false mb eb Hpb) as (xb & HRb & Hxb & Hnb & Efb).
  destruct (binary_round_aux_exact true mb eb Hpb) as (xb' & HRb' & _ & _ & Etb).
  set (Ea := fexp prec emax (Zdigits2 (Zpos ma) + ea)) in *.
  set (Eb := fexp prec emax (Zdigits2 (Zpos mb) + eb)) in *.
  assert (xa' = xa).
  { apply Z.le_antisymm; eapply (RNE_mono (Ea - ea)); eauto; lia. }
  assert (xb' = xb).
  { apply Z.le_antisymm; eapply (RNE_mono (Eb - eb)); eauto; lia. }
  subst xa' xb'. rewrite Efa, Eta, Efb, Etb. clear Efa Eta Efb Etb HRa' HRb'.
  assert (HE : Ea <= Eb) by (subst Ea Eb; unfold_fexp; lia).
  assert (HEa : -1074 <= Ea) by (subst Ea; unfold_fexp; lia).
  assert (Hkey :
    let '(m3a, e3a) := renorm xa Ea in
    let '(m3b, e3b) := renorm xb Eb in
    0 <= m3a /\ 0 <= m3b /\
    (m3a = 0 \/ (0 < m3b /\ (e3a < e3b \/ (e3a = e3b /\ m3a <= m3b))))).
  { destruct (Z.eq_dec Ea Eb) as [Heq|Hne].
    - assert (Hx : xa <= xb).
      { apply (RNE_mono (Ea - c) (Zpos ma * 2 ^ (ea - c)) _ (Zpos mb * 2 ^ (eb - c))).
        - lia.
        - replace (Ea - c) with (Ea - ea + (ea - c)) by lia.
          apply RNE_scale; [lia|lia|exact HRa].
        - rewrite Heq. replace (Eb - c) with (Eb - eb + (eb - c)) by lia.
          apply RNE_scale; [lia|lia|exact HRb].
        - exact Hle. }
      unfold renorm.
      destruct (Z.eqb_spec xa (2 ^ 53)); destruct (Z.eqb_spec xb (2 ^ 53)); lia.
    - assert (2 ^ 52 <= xb) by (apply Hnb; lia).
      unfold renorm.
      destruct (Z.eqb_spec xa (2 ^ 53)); destruct (Z.eqb_spec xb (2 ^ 53)); lia. }
  destruct (renorm xa Ea) as [m3a e3a]. destruct (renorm xb Eb) as [m3b e3b].
  destruct Hkey as (H1 & H2 & H3). cbn [fst snd].
  split; [apply pack_le_pos|apply pack_le_neg]; assumption.
Qed.

(** A canonical mantissa has at most 53 bits, and exactly 53 unless the
    exponent is the least one. *)
Lemma bounded_canonical (m : positive) (e : Z) :
  bounded prec emax m e = true ->
  Zdigits2 (Zpos m) <= 53 /\ -1074 <= e <= 971 /\ (Zdigits2 (Zpos m) = 53 \/ e = -1074).
Proof.
  unfold bounded, canonical_mantissa. rewrite andb_true_iff, Z.eqb_eq, Z.leb_le.
  cbn [Zdigits2]. unfold_fexp. lia.
Qed.

(** A product has at least the digits of its factors, less one. *)
Lemma Zdigits2_mul_lower (x y : positive) :
  Zdigits2 (Zpos x) + Zdigits2 (Zpos y) - 1 <= Zdigits2 (Zpos (x * y)).
Proof.
  destruct (Zdigits2_bounds (Zpos x)) as (Hx1 & Hxlo & _); [lia|].
  destruct (Zdigits2_bounds (Zpos y)) as (Hy1 & Hylo & _); [lia|].
  destruct (Zdigits2_bounds (Zpos (x * y))) as (Hp1 & _ & Hphi); [lia|].
  assert (H : 2 ^ (Zdigits2 (Zpos x) - 1 + (Zdigits2 (Zpos y) - 1)) <= Zpos (x * y)).
  { rewrite Pos2Z.inj_mul, Z.pow_add_r by lia. apply Z.mul_le_mono_nonneg; try lia;
      apply Z.pow_nonneg; lia. }
  assert (H3 : 2 ^ (Zdigits2 (Zpos x) - 1 + (Zdigits2 (Zpos y) - 1))
               < 2 ^ Zdigits2 (Zpos (x * y))) by lia.
  apply Z.pow_lt_mono_r_iff in H3; lia.
Qed.

(** The exact product of two canonical floats never has to be shifted left. *)
Lemma product_shift (mx my : positive) (ex ey : Z) :
  bounded prec emax mx ex = true -> bounded prec emax my ey = true ->
  ex + ey <= fexp prec emax (Zdigits2 (Zpos (mx * my)) + (ex + ey)).
Proof.
  intros Hx Hy. apply bounded_canonical in Hx, Hy.
  pose proof (Zdigits2_mul_lower mx my).
  destruct (Zdigits2_bounds (Zpos mx)) as (? & _); [lia|].
  destruct (Zdigits2_bounds (Zpos my)) as (? & _); [lia|].
  unfold_fexp. lia.
Qed.

(** [<=] on finite floats of positive sign. *)
Lemma finite_le_pos (mx my : positive) (ex ey : Z) :
  SFleb (S754_finite false mx ex) (S754_finite false my ey) = true ->
  ex < ey \/ (ex = ey /\ Zpos mx <= Zpos my).
Proof.
  unfold SFleb, SFcompare. rewrite pos_compare_cont_Eq.
  destruct (Z.compare_spec ex ey); try discriminate; try lia.
  destruct (Z.compare_spec (Zpos mx) (Zpos my)); try discriminate; lia.
Qed.

(** [<=] on finite floats of negative sign. *)
Lemma finite_le_neg (mx my : positive) (ex ey : Z) :
  SFleb (S754_finite true mx ex) (S754_finite true my ey) = true ->
  ey < ex \/ (ex = ey /\ Zpos my <= Zpos mx).
Proof.
  unfold SFleb, SFcompare. rewrite pos_compare_cont_Eq.
  destruct (Z.compare_spec ex ey); try discriminate; try lia.
  destruct (Z.compare_spec (Zpos mx) (Zpos my)); try discriminate; lia.
Qed.

(** The order of canonical positive floats is the order of their values, also
    after both are scaled by a mantissa [k] and an exponent [e0]. *)
Lemma canonical_value_le (k mx my : positive) (e0 ex ey : Z) :
  bounded prec emax mx ex = true -> bounded prec emax my ey = true ->
  ex < ey \/ (ex = ey /\ Zpos mx <= Zpos my) ->
  Zpos (k * mx) * 2 ^ (e0 + ex - Z.min (e0 + ex) (e0 + ey)) <=
  Zpos (k * my) * 2 ^ (e0 + ey - Z.min (e0 + ex) (e0 + ey)).
Proof.
  intros Hx Hy Hle. apply bounded_canonical in Hx, Hy.
  rewrite !Pos2Z.inj_mul.
  destruct Hle as [Hlt|[-> Hm]].
  - rewrite Z.min_l by lia.
    replace (e0 + ex - (e0 + ex)) with 0 by lia.
    replace (e0 + ey - (e0 + ex)) with (ey - ex) by lia.
    rewrite Z.pow_0_r, Z.mul_1_r.
    destruct (Zdigits2_bounds (Zpos mx)) as (_ & _ & Hxhi); [lia|].
    destruct (Zdigits2_bounds (Zpos my)) as (_ & Hylo & _); [lia|].
    assert (Hdy : Zdigits2 (Zpos my) = 53) by lia. rewrite Hdy in Hylo.
    assert (Hx53 : Zpos mx < 2 ^ 53).
    { eapply Z.lt_le_trans; [exact Hxhi|]. apply Z.pow_le_mono_r; lia. }
    assert (Hp : 2 ^ 1 <= 2 ^ (ey - ex)) by (apply Z.pow_le_mono_r; lia).
    change (2 ^ 1) with 2 in Hp. change (2 ^ (53 - 1)) with (2 ^ 52) in Hylo.
    assert (Zpos mx <= Zpos my * 2 ^ (ey - ex)) by nia.
    rewrite <- Z.mul_assoc. apply Z.mul_le_mono_nonneg_l; lia.
  - rewrite Z.min_id. replace (e0 + ey - (e0 + ey)) with 0 by lia.
    rewrite Z.pow_0_r. nia.
Qed.

(** Signs decide the order of a non-positive and a non-negative float. *)
Lemma nonpos_le_nonneg (x y : spec_float) : nonpos x -> nonneg y -> SFleb x y = true.
Proof. destruct x as [?|[]| |[] ? ?], y as [?|[]| |[] ? ?]; simpl; tauto. Qed.

Lemma neg_inf_le (y : spec_float) : is_nan y = false -> SFleb (S754_infinity true) y = true.
Proof. destruct y as [?|[]| |[] ? ?]; intros H; try discriminate H; reflexivity. Qed.

Lemma le_pos_inf (x : spec_float) : is_nan x = false -> SFleb x (S754_infinity false) = true.
Proof. destruct x as [?|[]| |[] ? ?]; intros H; try discriminate H; reflexivity. Qed.

(** Rounding keeps the sign. *)
Lemma round_exact_sign (s : bool) (m : positive) (e : Z) :
  e <= fexp prec emax (Zdigits2 (Zpos m) + e) ->
  (if s then nonpos else nonneg) (binary_round_aux prec emax s (Zpos m) e loc_Exact).
Proof.
  intros H. destruct (binary_round_aux_exact s m e H) as (m2 & _ & Hm2 & _ & ->).
  unfold renorm. destruct (Z.eqb_spec m2 (2 ^ 53)); cbn [fst snd]; unfold pack.
  - change (2 ^ 52) with 4503599627370496.
    destruct (_ <=? _); destruct s; exact I.
  - destruct m2 as [|p|p]; try lia; [destruct s; exact I|].
    destruct (_ <=? _); destruct s; exact I.
Qed.

(** Multiplication by a positive finite float is monotone: [x <= y] implies
    [b * x <= b * y], overflow and underflow included. *)
Lemma fmul_le_mono_l (mb : positive) (eb : Z) (x y : spec_float) :
  bounded prec emax mb eb = true ->
  valid_binary prec emax x = true -> valid_binary prec emax y = true ->
  SFleb x y = true ->
  SFleb (fmul (S754_finite false mb eb) x) (fmul (S754_finite false mb eb) y) = true.
Proof.
  intros Hb Hx Hy Hle.
  assert (Hsx : forall (s : bool) (m : positive) (e : Z), bounded prec emax m e = true ->
     (if s then nonpos else nonneg)
       (binary_round_aux prec emax s (Zpos (mb * m)) (eb + e) loc_Exact)).
  { intros s m e Hm. apply round_exact_sign, product_shift; assumption. }
  assert (Hnn : forall (s : bool) (z : spec_float),
     (if s then nonpos else nonneg) z -> is_nan z = false).
  { intros [] [?|[]| |[] ? ?]; simpl; tauto. }
  destruct x as [sx|[]| |[] mx ex]; destruct y as [sy|[]| |[] my ey];
    try discriminate Hle; unfold fmul; cbn [SFmul xorb valid_binary] in *;
    try reflexivity;
    try (apply nonpos_le_nonneg;
         [first [exact I | exact (Hsx true _ _ Hx) | exact (Hsx true _ _ Hy)]
         |first [exact I | exact (Hsx false _ _ Hx) | exact (Hsx false _ _ Hy)]]);
    try (apply neg_inf_le;
         first [exact (Hnn true _ (Hsx true _ _ Hy)) | exact (Hnn false _ (Hsx false _ _ Hy))]);
    try (apply le_pos_inf;
         first [exact (Hnn true _ (Hsx true _ _ Hx)) | exact (Hnn false _ (Hsx false _ _ Hx))]).
  - (* negative, negative *)
    apply finite_le_neg in Hle.
    apply (round_exact_mono (mb * my) (mb * mx) (eb + ey) (eb + ex)).
    + apply product_shift; assumption.
    + apply product_shift; assumption.
    + apply canonical_value_le; try assumption. lia.
  - (* positive, positive *)
    apply finite_le_pos in Hle.
    apply (round_exact_mono (mb * mx) (mb * my) (eb + ex) (eb + ey)).
    + apply product_shift; assumption.
    + apply product_shift; assumption.
    + apply canonical_value_le; assumption.
Qed.

(** [<=] on floats is transitive. *)
Lemma SFleb_trans (x y z : spec_float) :
  SFleb x y = true -> SFleb y z = true -> SFleb x z = true.
Proof.
  unfold SFleb, SFcompare.
  destruct x as [?|[]| |[] mx ex]; destruct y as [?|[]| |[] my ey];
    try discriminate; destruct z as [?|[]| |[] mz ez];
    try discriminate; try reflexivity;
    rewrite !pos_compare_cont_Eq;
    destruct (Z.compare_spec ex ey); try discriminate;
    destruct (Z.compare_spec ey ez); try discriminate;
    destruct (Z.compare_spec ex ez); try reflexivity; try (exfalso; lia);
    destruct (Z.compare_spec (Zpos mx) (Zpos my)); try discriminate;
    destruct (Z.compare_spec (Zpos my) (Zpos mz)); try discriminate;
    destruct (Z.compare_spec (Zpos mx) (Zpos mz)); try reflexivity; 
    try discriminate; try (exfalso; lia); intros; subst; try lia.
Qed.

(** [shr] by [n] divides the mantissa by [2^n] when [n] is positive and does
    nothing otherwise, whatever the round and sticky bits. *)
Lemma shr_general (mrs : shr_record) (e n : Z) :
  0 <= shr_m mrs ->
  exists mrs', shr mrs e n = (mrs', e + Z.max 0 n) /\
               shr_m mrs' = shr_m mrs / 2 ^ Z.max 0 n.
Proof.
  intros Hm. destruct n as [|p|p]; cbn [shr].
  - exists mrs. rewrite Z.max_l by lia. rewrite Z.pow_0_r, Z.div_1_r, Z.add_0_r. auto.
  - eexists; split.
    + rewrite Z.max_r by lia. reflexivity.
    + rewrite iter_pos_nat, shr_iter_m by assumption.
      rewrite Z.max_r by lia. rewrite positive_nat_Z. reflexivity.
  - exists mrs. rewrite Z.max_l by lia. rewrite Z.pow_0_r, Z.div_1_r, Z.add_0_r. auto.
Qed.

Lemma round_nearest_even_bounds (m : Z) (l : location) :
  m <= round_nearest_even m l <= m + 1.
Proof. destruct l as [|[]]; cbn [round_nearest_even]; try destruct (Z.even m); lia. Qed.

Lemma shr_m_record_of_loc (m : Z) (l : location) : shr_m (shr_record_of_loc m l) = m.
Proof. destruct l as [|[]]; reflexivity. Qed.

(** The exponent of a rounded value is bounded by the exponent of its format. *)
Lemma binary_round_aux_bound (s : bool) (m e : Z) (l : location) (B : Z) :
  0 <= m -> fexp prec emax (Zdigits2 m + e + 1) <= B -> e <= B ->
  exists m3 e3, binary_round_aux prec emax s m e l = pack s m3 e3 /\ 0 <= m3 /\ e3 <= B.
Proof.
  intros Hm HB He. unfold binary_round_aux, shr_fexp.
  set (d := Zdigits2 m) in *.
  assert (Hd0 : 0 <= d) by apply Zdigits2_nonneg.
  set (n := fexp prec emax (d + e) - e).
  destruct (shr_general (shr_record_of_loc m l) e n) as (mrs1 & -> & Hm1);
    [rewrite shr_m_record_of_loc; lia|].
  rewrite shr_m_record_of_loc in Hm1.
  set (e1 := e + Z.max 0 n).
  set (m2 := round_nearest_even (shr_m mrs1) (loc_of_shr_record mrs1)).
  pose proof (round_nearest_even_bounds (shr_m mrs1) (loc_of_shr_record mrs1)) as Hr.
  fold m2 in Hr.
  assert (Hp : 0 < 2 ^ Z.max 0 n) by (apply Z.pow_pos_nonneg; lia).
  assert (Hm1' : 0 <= shr_m mrs1) by (rewrite Hm1; apply Z.div_pos; lia).
  assert (Hmd : m < 2 ^ d).
  { destruct (Z.eq_dec m 0) as [->|]; [apply Z.pow_pos_nonneg; lia|].
    apply Zdigits2_bounds. lia. }
  assert (Hub : shr_m mrs1 < 2 ^ Z.max (d - Z.max 0 n) 0).
  { rewrite Hm1. apply Z.div_lt_upper_bound; [lia|].
    rewrite <- Z.pow_add_r by lia.
    eapply Z.lt_le_trans; [exact Hmd|]. apply Z.pow_le_mono_r; lia. }
  assert (Hd2 : Zdigits2 m2 <= Z.max (d - Z.max 0 n) 0 + 1).
  { apply Zdigits2_le; [lia|]. split; [lia|].
    rewrite Z.pow_add_r by lia. change (2 ^ 1) with 2.
    assert (0 < 2 ^ Z.max (d - Z.max 0 n) 0) by (apply Z.pow_pos_nonneg; lia). lia. }
  pose proof (Zdigits2_nonneg m2) as Hd2'.
  set (n2 := fexp prec emax (Zdigits2 m2 + e1) - e1).
  destruct (shr_general (shr_record_of_loc m2 loc_Exact) e1 n2) as (mrs2 & -> & Hm3);
    [cbn; lia|].
  cbn [shr_record_of_loc shr_m] in Hm3.
  exists (shr_m mrs2), (e1 + Z.max 0 n2). split; [reflexivity|]. split.
  - rewrite Hm3. apply Z.div_pos; [lia|]. apply Z.pow_pos_nonneg; lia.
  - subst n2 e1 n. revert HB He Hd2. unfold_fexp. lia.
Qed.

Lemma pack_bounded_finite (s : bool) (m3 e3 : Z) :
  0 <= m3 -> e3 <= 971 ->
  match pack s m3 e3 with S754_zero _ | S754_finite _ _ _ => True | _ => False end.
Proof.
  intros Hm He. unfold pack. destruct m3 as [|p|p]; [exact I| |lia].
  destruct (Z.leb_spec e3 (emax - prec)); [exact I|]. unfold prec, emax in *. lia.
Qed.

(** The quotient of two integers is finite when the dividend is below
    [2^1000]. *)
Lemma SFdiv_int_finite (sa : bool) (pa pb : positive) :
  Zpos pa < 2 ^ 1000 ->
  match SFdiv prec emax (S754_finite sa pa 0) (S754_finite false pb 0) with
  | S754_zero _ | S754_finite _ _ _ => True
  | _ => False
  end.
Proof.
  intros Ha. cbn [SFdiv]. unfold SFdiv_core_binary.
  set (d1 := Zdigits2 (Zpos pa)). set (d2 := Zdigits2 (Zpos pb)).
  assert (Hd1 : 1 <= d1 <= 1000).
  { split; [apply Zdigits2_bounds; lia|apply Zdigits2_le; lia]. }
  assert (Hd2 : 1 <= d2) by (apply Zdigits2_bounds; lia).
  set (e' := Z.min (fexp prec emax (d1 + 0 - (d2 + 0))) (0 - 0)).
  assert (He' : e' <= 0) by (subst e'; lia).
  set (m' := match 0 - 0 - e' with
             | 0 => Zpos pa | Zpos _ => Z.shiftl (Zpos pa) (0 - 0 - e') | Zneg _ => 0 end).
  assert (Hm' : m' = Zpos pa * 2 ^ (- e')).
  { subst m'. replace (0 - 0 - e') with (- e') by lia.
    destruct (- e') as [|p|p] eqn:E; [rewrite Z.pow_0_r; lia| |lia].
    rewrite Z.shiftl_mul_pow2 by lia. reflexivity. }
  destruct (Z.div_eucl m' (Zpos pb)) as [q r] eqn:Eqr.
  assert (Hq : q = m' / Zpos pb) by (unfold Z.div; rewrite Eqr; reflexivity).
  assert (Hp : 0 < 2 ^ (- e')) by (apply Z.pow_pos_nonneg; lia).
  assert (Hq0 : 0 <= q) by (rewrite Hq; apply Z.div_pos; lia).
  assert (Hqm : q <= m').
  { rewrite Hq. apply Z.div_le_upper_bound; [lia|]. nia. }
  assert (Hmd : m' < 2 ^ (d1 - e')).
  { rewrite Hm'. replace (d1 - e') with (d1 + - e') by lia.
    rewrite Z.pow_add_r by lia. apply Z.mul_lt_mono_pos_r; [lia|].
    apply Zdigits2_bounds. lia. }
  assert (Hdq : Zdigits2 q <= d1 - e') by (apply Zdigits2_le; lia).
  destruct (binary_round_aux_bound (xorb sa false) q e' (new_location (Zpos pb) r) 948)
    as (m3 & e3 & -> & H3 & He3).
  - exact Hq0.
  - revert Hdq Hd1. unfold_fexp. lia.
  - lia.
  - apply pack_bounded_finite; lia.
Qed.

(** [a / b] returns for [b > 0] and [|a| < 2^1000]. *)
Lemma int_truediv_returns (a b : Z) :
  0 < b -> Z.abs a < 2 ^ 1000 ->
  int_truediv a b = inr (fdiv (int_to_sf a) (int_to_sf b)).
Proof.
  intros Hb Ha. unfold int_truediv, fdiv.
  destruct (Z.eqb_spec b 0); [lia|].
  destruct b as [|pb|pb]; try lia.
  destruct a as [|pa|pa]; [reflexivity| |];
    cbn [int_to_sf];
    (lazymatch goal with
     | |- context [SFdiv prec emax (S754_finite ?s ?p 0) _] =>
         pose proof (SFdiv_int_finite s p pb) as H
     end);
    destruct (SFdiv prec emax _ _); try reflexivity; exfalso; apply H; lia.
Qed.

(** * Facts about the embedding *)

(** The runtime on values computed with Python itself. *)
Example strftime_period_keys :
  strftime "%Y-%m-%d" 63929394306000007 = "2026-11-04" /\
  strftime "%Y-W%U" 63929394306000007 = "2026-W44" /\
  strftime "%Y-%m" 63929394306000007 = "2026-11" /\
  strftime "%Y-W%U" 63839711106000007 = "2024-W00" /\
  strftime "%Y-W%U" 63840229506000007 = "2024-W01".
Proof. repeat split; reflexivity. Qed.

Example float_literals :
  decimal 1 3 = S754_finite false 4611686018427388 (-62) /\
  decimal 13 1 = S754_finite false 5854679515581645 (-52) /\
  fmul (of_int 10) (decimal 95 2) = decimal 95 1 /\
  fle (decimal 95 1) (decimal 960 2) = true.
Proof. repeat split; reflexivity. Qed.

Example int_truediv_values :
  int_truediv 500 1000 = inr (decimal 5 1) /\
  int_truediv (10 ^ 400) 1000 = inl OverflowError.
Proof. split; vm_compute; reflexivity. Qed.

Example split_values :
  split "  hello   world " = ["hello"; "world"] /\ split "" = [] /\
  lower "Kill BILL" = "kill bill" /\ contains "kill" (lower "Kill BILL") = true.
Proof. repeat split; reflexivity. Qed.

Lemma day_key_length (t : datetime) :
  String.length (strftime "%Y-%m-%d" t) = 10%nat.
Proof.
  unfold strftime, directive. destruct (civil (day_number t)) as [[y m] d]. reflexivity.
Qed.

Lemma day_key_not_input (t : datetime) : "input" <> strftime "%Y-%m-%d" t.
Proof. intros E. pose proof (day_key_length t) as H. rewrite <- E in H. discriminate H. Qed.

Lemma day_key_not_output (t : datetime) : "output" <> strftime "%Y-%m-%d" t.
Proof. intros E. pose proof (day_key_length t) as H. rewrite <- E in H. discriminate H. Qed.

Lemma pricing_lookup (env : Environ) (model : string) (prices : gmap string float) :
  pricing env !! model = Some prices ->
  exists a b, prices = {[ "input" := a; "output" := b ]}.
Proof.
  unfold pricing. intros H.
  destruct (decide (model = "vertex-gemini-pro")) as [->|H1].
  - rewrite lookup_insert_eq in H. inversion H. eauto.
  - rewrite lookup_insert_ne in H by congruence.
    destruct (decide (model = "vertex-gemini-flash")) as [->|H2].
    + rewrite lookup_singleton_eq in H. inversion H. eauto.
    + rewrite lookup_singleton_ne in H by congruence. discriminate H.
Qed.

Lemma price_table_no_day (a b : float) (t : datetime) :
  ({[ "input" := a; "output" := b ]} : gmap string float) !! strftime "%Y-%m-%d" t = None.
Proof.
  rewrite lookup_insert_ne by apply day_key_not_input.
  apply lookup_singleton_ne, day_key_not_output.
Qed.

Lemma calculate_cost_run (env : Environ) (t : CostTracker) (model : string)
    (input_tokens output_tokens : Z) :
  model_costs t = pricing env ->
  Z.abs input_tokens < 2 ^ 1000 -> Z.abs output_tokens < 2 ^ 1000 ->
  calculate_cost model input_tokens output_tokens t =
    (t, lookup_warning t model, inr (cost t model input_tokens output_tokens)).
Proof.
  intros Hp Hi Ho.
  unfold calculate_cost, cost, price, lookup_warning, per_1000, bind, get, lift, ret, log.
  rewrite !int_truediv_returns by lia.
  destruct (model_costs t !! model) as [prices|] eqn:E.
  - rewrite Hp in E. apply pricing_lookup in E as (a & b & ->).
    reflexivity.
  - reflexivity.
Qed.

Lemma user_total_update (users0 : gmap string (gmap string float)) (uid day : string)
    (amount : float) (s : CostTracker) :
  (let '(users, days) := defaultdict_getitem ∅ users0 uid in
   set_user_costs (<[uid := defaultdict_iadd days day amount]> users) s) =
  set_user_costs (<[uid := defaultdict_iadd (dict_get users0 uid ∅) day amount]> users0) s.
Proof.
  unfold defaultdict_getitem at 1. unfold dict_get.
  destruct (users0 !! uid); cbn [default]; [reflexivity|].
  now rewrite insert_insert_eq.
Qed.

Lemma add_cost_entry_priced (env : Environ) (t : CostTracker) (mdl uid : string)
    (itok otok : Z) (rid : string) (now : datetime) (logs : list log_record)
    (ic oc tc : float) :
  model_costs t = pricing env ->
  calculate_cost mdl itok otok t = (t, logs, inr (ic, oc, tc)) ->
  add_cost_entry mdl uid itok otok rid now t =
    (recorded {| timestamp := now; model := mdl; user_id := uid;
                 input_tokens := itok; output_tokens := otok;
                 input_cost := ic; output_cost := oc; total_cost := tc;
                 request_id := rid |} t,
     logs,
     inl (KeyError match model_costs t !! mdl with
                   | Some _ => strftime "%Y-%m-%d" now
                   | None => mdl
                   end)).
Proof.
  intros Hp Hc.
  unfold add_cost_entry, bind at 1. rewrite Hc.
  unfold recorded, bind, modify, get, lift, log, ret. cbn [timestamp total_cost user_id].
  cbn [costs daily_costs weekly_costs monthly_costs user_costs model_costs
       set_costs set_daily_costs set_weekly_costs set_monthly_costs].
  rewrite !user_total_update.
  repeat match goal with
         | |- context [model_costs (set_user_costs ?a ?s)] =>
             change (model_costs (set_user_costs a s)) with (model_costs t)
         end.
  destruct (model_costs t !! mdl) as [prices|] eqn:E.
  - unfold dict_getitem. rewrite E.
    rewrite Hp in E. apply pricing_lookup in E as (a & b & ->).
    rewrite price_table_no_day. cbn [app]. now rewrite ?app_nil_r.
  - unfold dict_getitem. rewrite E. cbn [app]. now rewrite ?app_nil_r.
Qed.

Lemma add_cost_entry_run (env : Environ) (t : CostTracker) (mdl uid : string)
    (itok otok : Z) (rid : string) (now : datetime) :
  model_costs t = pricing env ->
  Z.abs itok < 2 ^ 1000 -> Z.abs otok < 2 ^ 1000 ->
  add_cost_entry mdl uid itok otok rid now t =
    (recorded (cost_record t mdl uid itok otok rid now) t,
     lookup_warning t mdl,
     inl (KeyError match model_costs t !! mdl with
                   | Some _ => strftime "%Y-%m-%d" now
                   | None => mdl
                   end)).
Proof.
  intros Hp Hi Ho.
  pose proof (calculate_cost_run env t mdl itok otok Hp Hi Ho) as Hc.
  unfold cost_record. destruct (cost t mdl itok otok) as [[ic oc] tc].
  now apply (add_cost_entry_priced env).
Qed.

Lemma calculate_cost_reads (t : CostTracker) (mdl : string) (itok otok : Z) :
  (calculate_cost mdl itok otok t).1.1 = t.
Proof.
  unfold calculate_cost, bind, get, lift, log, ret.
  destruct (model_costs t !! mdl) as [prices|].
  - destruct (dict_getitem prices "input"); [reflexivity|].
    destruct (dict_getitem prices "output"); [reflexivity|].
    destruct (int_truediv itok 1000); [reflexivity|].
    destruct (int_truediv otok 1000); reflexivity.
  - destruct (int_truediv itok 1000); [reflexivity|].
    destruct (int_truediv otok 1000); reflexivity.
Qed.

(** The price table stays in [model_costs] through every call. *)
Lemma add_cost_entry_keeps_price_table (env : Environ) (t : CostTracker)
    (mdl uid : string) (itok otok : Z) (rid : string) (now : datetime) :
  model_costs t = pricing env ->
  model_costs (add_cost_entry mdl uid itok otok rid now t).1.1 = pricing env.
Proof.
  intros Hp.
  pose proof (calculate_cost_reads t mdl itok otok) as Hs.
  destruct (calculate_cost mdl itok otok t) as [[s logs] [e|[[ic oc] tc]]] eqn:Hc;
    cbn [fst] in Hs; subst s.
  - unfold add_cost_entry, bind at 1. rewrite Hc. exact Hp.
  - rewrite (add_cost_entry_priced env _ _ _ _ _ _ _ _ _ _ _ Hp Hc). exact Hp.
Qed.

(** The range of [datetime]: day 0 is 0001-01-01, the last day is
    9999-12-31. *)
Example datetime_range :
  civil (day_number 0) = (1, 1, 1) /\
  civil (day_number (datetime_end - 1)) = (9999, 12, 31) /\
  civil (day_number datetime_end) = (10000, 1, 1).
Proof. repeat split; reflexivity. Qed.

Lemma prune_count (cutoff : Z) (l : list CostEntry) :
  Z.of_nat (length l) - Z.of_nat (length (filter (fun e => cutoff < timestamp e) l)) =
  Z.of_nat (length (filter (fun e => timestamp e <= cutoff) l)).
Proof.
  induction l as [|e l IH]; [reflexivity|].
  rewrite !filter_cons.
  destruct (decide (cutoff < timestamp e)); destruct (decide (timestamp e <= cutoff));
    cbn [length]; lia.
Qed.

(** What [cleanup_old_entries] does: when the cut-off is a datetime it
    filters and logs; otherwise computing the cut-off raises and the tracker
    is as it was. *)
Lemma cleanup_old_entries_run (t : CostTracker) (R : Z) (now : datetime) :
  cleanup_old_entries R now t =
    if cutoff_ok R now
    then (set_costs (filter (fun e => cutoff R now < timestamp e) (costs t)) t,
          (let removed :=
             Z.of_nat (length (filter (fun e => timestamp e <= cutoff R now) (costs t))) in
           if 0 <? removed then [(INFO, CleanedUp removed)] else []),
          inr tt)
    else (t, [], inl OverflowError).
Proof.
  unfold cleanup_old_entries, cutoff_ok, cutoff, timedelta_days, datetime_sub,
    bind, lift, get, modify.
  destruct (Z.abs R <=? 999999999); [|reflexivity]. cbn [andb]. cbv zeta.
  destruct ((0 <=? now - R * us_per_day) && (now - R * us_per_day <? datetime_end));
    [|reflexivity].
  cbn [costs set_costs]. rewrite prune_count.
  destruct (0 <? _); reflexivity.
Qed.

(** The tracker [cleanup_old_entries] leaves differs from the one it got in
    the retained entries only, and retains no entry that was not there. *)
Lemma cleanup_old_entries_state (t : CostTracker) (R : Z) (now : datetime) :
  exists kept,
    (cleanup_old_entries R now t).1.1 = set_costs kept t /\
    forall e, e ∈ kept -> e ∈ costs t.
Proof.
  rewrite cleanup_old_entries_run. destruct (cutoff_ok R now); cbn [fst].
  - eexists. split; [reflexivity|].
    intros e He. now apply list_elem_of_filter in He.
  - exists (costs t). split; [now destruct t|auto].
Qed.

Lemma reachable_price_table (env : Environ) (t : CostTracker) :
  reachable env t -> model_costs t = pricing env.
Proof.
  induction 1 as [|t mdl uid itok otok rid now _ IH|t R now _ IH].
  - reflexivity.
  - now apply add_cost_entry_keeps_price_table.
  - destruct (cleanup_old_entries_state t R now) as (kept & -> & _). exact IH.
Qed.

(** On a tracker constructed by [__init__], whatever happened to it since, no
    call of [add_cost_entry] returns an entry: it ends in an exception. *)
Lemma add_cost_entry_never_returns (env : Environ) (t : CostTracker)
    (mdl uid : string) (itok otok : Z) (rid : string) (now : datetime) :
  reachable env t ->
  exists e, (add_cost_entry mdl uid itok otok rid now t).2 = inl e.
Proof.
  intros Hr. apply reachable_price_table in Hr.
  pose proof (calculate_cost_reads t mdl itok otok) as Hs.
  destruct (calculate_cost mdl itok otok t) as [[s logs] [e|[[ic oc] tc]]] eqn:Hc;
    cbn [fst] in Hs; subst s.
  - unfold add_cost_entry, bind at 1. rewrite Hc. eauto.
  - rewrite (add_cost_entry_priced env _ _ _ _ _ _ _ _ _ _ _ Hr Hc). eauto.
Qed.

(** * The ledger: pricing and recording *)



(** C1 (defect in the code). Whenever the tracker holds the price table that
    [__init__] stored in [model_costs], a call of [add_cost_entry] appends
    exactly one entry and adds its [total_cost] once to the daily, weekly,
    monthly and per-user totals, and then raises [KeyError] at the per-model
    update: the fifth accumulator is not updated, no [CostEntry] is returned,
    and the four updates that were made stay. *)
Theorem add_cost_entry_raises_before_model_total (env : Environ) (t : CostTracker)
    (mdl uid : string) (itok otok : Z) (rid : string) (now : datetime) :
  model_costs t = pricing env ->
  0 <= itok < 2 ^ 1000 -> 0 <= otok < 2 ^ 1000 ->
  exists t' logs key entry,
    add_cost_entry mdl uid itok otok rid now t = (t', logs, inl (KeyError key)) /\
    entry = cost_record t mdl uid itok otok rid now /\
    costs t' = costs t ++ [entry] /\
    daily_costs t' =
      defaultdict_iadd (daily_costs t) (strftime "%Y-%m-%d" now) (total_cost entry) /\
    weekly_costs t' =
      defaultdict_iadd (weekly_costs t) (strftime "%Y-W%U" now) (total_cost entry) /\
    monthly_costs t' =
      defaultdict_iadd (monthly_costs t) (strftime "%Y-%m" now) (total_cost entry) /\
    user_costs t' =
      <[uid := defaultdict_iadd (dict_get (user_costs t) uid ∅)
                 (strftime "%Y-%m-%d" now) (total_cost entry)]> (user_costs t) /\
    model_costs t' = model_costs t.
Proof.
  intros Hp Hi Ho.
  eexists _, _, _, _. split; [apply (add_cost_entry_run env); [assumption|lia|lia]|].
  split; [reflexivity|].
  unfold recorded, cost_record.
  destruct (cost t mdl itok otok) as [[ic oc] tc].
  repeat split.
Qed.

Lemma add_cost_entry_raises_before_model_total_witness :
  model_costs (CostTracker_init default_environ) = pricing default_environ /\
  0 <= 1000 < 2 ^ 1000 /\ 0 <= 500 < 2 ^ 1000 /\
  exists t' logs key entry,
    add_cost_entry "vertex-gemini-pro" "alice" 1000 500 "req-1" 63929394306000007
      (CostTracker_init default_environ) = (t', logs, inl (KeyError key)) /\
    entry = cost_record (CostTracker_init default_environ) "vertex-gemini-pro" "alice"
              1000 500 "req-1" 63929394306000007 /\
    costs t' = costs (CostTracker_init default_environ) ++ [entry] /\
    daily_costs t' =
      defaultdict_iadd (daily_costs (CostTracker_init default_environ))
        (strftime "%Y-%m-%d" 63929394306000007) (total_cost entry) /\
    weekly_costs t' =
      defaultdict_iadd (weekly_costs (CostTracker_init default_environ))
        (strftime "%Y-W%U" 63929394306000007) (total_cost entry) /\
    monthly_costs t' =
      defaultdict_iadd (monthly_costs (CostTracker_init default_environ))
        (strftime "%Y-%m" 63929394306000007) (total_cost entry) /\
    user_costs t' =
      <["alice" := defaultdict_iadd
                     (dict_get (user_costs (CostTracker_init default_environ)) "alice" ∅)
                     (strftime "%Y-%m-%d" 63929394306000007) (total_cost entry)]>
        (user_costs (CostTracker_init default_environ)) /\
    model_costs t' = model_costs (CostTracker_init default_environ).
Proof.
  split; [reflexivity|]. split; [lia|]. split; [lia|].
  apply (add_cost_entry_raises_before_model_total default_environ); [reflexivity|lia|lia].
Defined.

(** The call of C1 on a fresh tracker, evaluated: on 2026-11-04 the request of
    1000 input and 500 output tokens is appended and priced at 0.0003125, and
    the call ends in [KeyError('2026-11-04')]. *)
Example add_cost_entry_fresh_tracker :
  let '(t', logs, r) :=
    add_cost_entry "vertex-gemini-pro" "alice" 1000 500 "req-1" 63929394306000007
      (CostTracker_init default_environ) in
  r = inl (KeyError "2026-11-04") /\ logs = [] /\
  total_cost <$> costs t' = [S754_finite false 5764607523034235 (-64)] /\
  daily_costs t' !! "2026-11-04" = Some (S754_finite false 5764607523034235 (-64)) /\
  weekly_costs t' !! "2026-W44" = Some (S754_finite false 5764607523034235 (-64)) /\
  monthly_costs t' !! "2026-11" = Some (S754_finite false 5764607523034235 (-64)) /\
  (user_costs t' !! "alice") ≫= (.!! "2026-11-04") =
    Some (S754_finite false 5764607523034235 (-64)) /\
  (model_costs t' !! "vertex-gemini-pro") ≫= (.!! "2026-11-04") = None.
Proof. vm_compute. repeat split. Qed.

(** C2 (defect in the code). For a model that is not in the price table the
    pricing lookup does not fail: [calculate_cost] logs one warning and prices
    the request with the fallback pair (0.001, 0.002). [add_cost_entry] does
    not complete: after the warning it raises [KeyError] for the model at the
    per-model update and returns no [CostEntry]. *)
Theorem unknown_model_priced_then_KeyError (env : Environ) (t : CostTracker)
    (mdl uid : string) (itok otok : Z) (rid : string) (now : datetime) :
  model_costs t = pricing env -> model_costs t !! mdl = None ->
  0 <= itok < 2 ^ 1000 -> 0 <= otok < 2 ^ 1000 ->
  calculate_cost mdl itok otok t =
    (t, [(WARNING, UnknownModel mdl)],
     inr (fmul (per_1000 itok) (decimal 1 3), fmul (per_1000 otok) (decimal 2 3),
          fadd (fmul (per_1000 itok) (decimal 1 3)) (fmul (per_1000 otok) (decimal 2 3)))) /\
  exists t',
    add_cost_entry mdl uid itok otok rid now t =
      (t', [(WARNING, UnknownModel mdl)], inl (KeyError mdl)).
Proof.
  intros Hp Hm Hi Ho. split.
  - rewrite (calculate_cost_run env) by (assumption || lia).
    unfold lookup_warning, cost, price. rewrite Hm. reflexivity.
  - eexists. rewrite (add_cost_entry_run env) by (assumption || lia).
    unfold lookup_warning. rewrite Hm. reflexivity.
Qed.

Lemma unknown_model_priced_then_KeyError_witness :
  model_costs (CostTracker_init default_environ) = pricing default_environ /\
  model_costs (CostTracker_init default_environ) !! "gpt-4" = None /\
  0 <= 1000 < 2 ^ 1000 /\ 0 <= 500 < 2 ^ 1000 /\
  calculate_cost "gpt-4" 1000 500 (CostTracker_init default_environ) =
    (CostTracker_init default_environ, [(WARNING, UnknownModel "gpt-4")],
     inr (fmul (per_1000 1000) (decimal 1 3), fmul (per_1000 500) (decimal 2 3),
          fadd (fmul (per_1000 1000) (decimal 1 3)) (fmul (per_1000 500) (decimal 2 3)))) /\
  exists t',
    add_cost_entry "gpt-4" "alice" 1000 500 "req-1" 63929394306000007
      (CostTracker_init default_environ) =
      (t', [(WARNING, UnknownModel "gpt-4")], inl (KeyError "gpt-4")).
Proof.
  split; [reflexivity|]. split; [reflexivity|]. split; [lia|]. split; [lia|].
  apply (unknown_model_priced_then_KeyError default_environ);
    [reflexivity|reflexivity|lia|lia].
Defined.




(** * Retention pruning *)

(** C4, as the code behaves. An entry recorded exactly [R = 30] days before
    [now] is not strictly older than [now - R], yet [cleanup_old_entries]
    removes it; the method returns [None], the count is only logged. *)
Lemma prune_removes_record_stamped_at_cutoff :
  let now := 63929394306000007 in
  let t := (add_cost_entry "vertex-gemini-pro" "alice" 1000 500 "req-1"
              (now - 30 * us_per_day) (CostTracker_init default_environ)).1.1 in
  timestamp <$> costs t = [now - 30 * us_per_day] /\
  let '(t', logs, r) := cleanup_old_entries 30 now t in
  costs t' = [] /\ logs = [(INFO, CleanedUp 1)] /\ r = inr tt.
Proof. vm_compute. repeat split. Qed.

(** A window whose cut-off is not a datetime: a million days before 2026 is
    before year 1, three million days after it is past year 9999, and a
    [timedelta] holds no more than 999999999 days. The call raises and
    every entry stays. *)
Example cleanup_old_entries_overflow :
  let now := 63929394306000007 in
  let t := (add_cost_entry "vertex-gemini-pro" "alice" 1000 500 "req-1"
              (now - 30 * us_per_day) (CostTracker_init default_environ)).1.1 in
  cleanup_old_entries 1000000 now t = (t, [], inl OverflowError) /\
  cleanup_old_entries (-3000000) now t = (t, [], inl OverflowError) /\
  cleanup_old_entries 1000000000 now t = (t, [], inl OverflowError) /\
  length (costs t) = 1%nat.
Proof. vm_compute. repeat split. Qed.

(** C4, amended. For every retained list, retention window [R] and instant
    [now]: when [now - R days] is a datetime - [R] has at most 999999999 days
    in magnitude and the cut-off falls in the years 1 to 9999 -
    [cleanup_old_entries] keeps exactly the entries whose timestamp is
    strictly later than the cut-off and removes exactly those with a
    timestamp at or before it; it returns [None], logs the number of removed
    entries when that number is positive, and leaves the five accumulators
    unchanged. For every other [R] it raises [OverflowError] while computing
    the cut-off, removes nothing and logs nothing. *)
Theorem cleanup_old_entries_keeps_newer_than_cutoff (t : CostTracker) (R : Z)
    (now : datetime) :
  (cutoff_ok R now = true ->
   exists t',
     cleanup_old_entries R now t =
       (t',
        (if 0 <? Z.of_nat (length (filter (fun e => timestamp e <= now - R * us_per_day)
                                          (costs t)))
         then [(INFO, CleanedUp
                  (Z.of_nat (length (filter (fun e => timestamp e <= now - R * us_per_day)
                                            (costs t)))))]
         else []),
        inr tt) /\
     costs t' = filter (fun e => now - R * us_per_day < timestamp e) (costs t) /\
     (forall e, e ∈ costs t' <-> e ∈ costs t /\ now - R * us_per_day < timestamp e) /\
     daily_costs t' = daily_costs t /\
     weekly_costs t' = weekly_costs t /\
     monthly_costs t' = monthly_costs t /\
     user_costs t' = user_costs t /\
     model_costs t' = model_costs t) /\
  (cutoff_ok R now = false ->
   cleanup_old_entries R now t = (t, [], inl OverflowError)).
Proof.
  rewrite cleanup_old_entries_run. unfold cutoff. split; intros ->; [|reflexivity].
  eexists. split; [reflexivity|].
  cbn [costs daily_costs weekly_costs monthly_costs user_costs model_costs set_costs].
  split; [reflexivity|]. split; [|repeat split].
  intros e. rewrite list_elem_of_filter. tauto.
Qed.

(** * Budget tiers *)

Lemma check_budget_limits_reads (t : CostTracker) (now : datetime) :
  check_budget_limits now t = (t, [], inr (budgetStatus t now)).
Proof. reflexivity. Qed.

Lemma positive_finite_inv (b : float) :
  positive_finite b = true ->
  exists m e, b = S754_finite false m e /\ bounded prec emax m e = true.
Proof. destruct b as [?|?| |[] m e]; try discriminate. eauto. Qed.

(** A higher fraction of a positive ceiling is reached only after a lower one. *)
Lemma threshold_reached_mono (b lo hi spent : float) :
  positive_finite b = true -> valid lo = true -> valid hi = true ->
  fle lo hi = true ->
  fle (fmul b hi) spent = true -> fle (fmul b lo) spent = true.
Proof.
  intros Hb Hlo Hhi Hle Hs.
  apply positive_finite_inv in Hb as (m & e & -> & Hb).
  apply (SFleb_trans _ (fmul (S754_finite false m e) hi)); [|exact Hs].
  now apply fmul_le_mono_l.
Qed.

(** C5. For every ledger state and every budget configuration (ceilings that
    are positive amounts) whose fractions satisfy warning <= critical <=
    emergency, [check_budget_limits] returns nine flags that are monotone in
    each period: emergency implies critical, and critical implies warning. *)
Theorem budget_status_tier_monotone (t : CostTracker) (now : datetime) :
  budget_configuration t = true ->
  fle (warning_threshold t) (critical_threshold t) = true ->
  fle (critical_threshold t) (emergency_threshold t) = true ->
  exists status,
    check_budget_limits now t = (t, [], inr status) /\
    size status = 9%nat /\
    tier_monotone status "daily" /\
    tier_monotone status "weekly" /\
    tier_monotone status "monthly".
Proof.
  unfold budget_configuration. rewrite !andb_true_iff.
  intros (((((Hd & Hw) & Hm) & Vw) & Vc) & Ve) Hwc Hce.
  eexists. split; [reflexivity|]. split; [reflexivity|].
  unfold tier_monotone. cbn [String.append].
  repeat split; status_lookup; intros H; injection H as H; f_equal;
    refine (threshold_reached_mono _ _ _ _ _ _ _ _ H); assumption.
Qed.

Lemma budget_status_tier_monotone_witness :
  budget_configuration (CostTracker_init default_environ) = true /\
  fle (warning_threshold (CostTracker_init default_environ))
      (critical_threshold (CostTracker_init default_environ)) = true /\
  fle (critical_threshold (CostTracker_init default_environ))
      (emergency_threshold (CostTracker_init default_environ)) = true /\
  exists status,
    check_budget_limits 63929394306000007 (CostTracker_init default_environ) =
      (CostTracker_init default_environ, [], inr status) /\
    size status = 9%nat /\
    tier_monotone status "daily" /\
    tier_monotone status "weekly" /\
    tier_monotone status "monthly".
Proof.
  repeat (split; [reflexivity|]).
  apply budget_status_tier_monotone; reflexivity.
Defined.

(** * The pre-request check *)

Lemma set_cost_tracker_same (g : GuardrailsManager) :
  set_cost_tracker (cost_tracker g) g = g.
Proof. destruct g; reflexivity. Qed.

(** What [pre_request_check] returns when the manager is enabled. *)
Lemma pre_request_check_enabled (re_search : string -> string -> bool)
    (g : GuardrailsManager) (content mdl uid : string) (now : datetime) :
  enabled g = true ->
  pre_request_check re_search content mdl uid now g =
    (g, [],
     let status := budgetStatus (cost_tracker g) now in
     let budget :=
       if truthy (status !! "daily_emergency") || truthy (status !! "monthly_emergency")
       then [BudgetLimitExceeded] else [] in
     let checked := validate_input re_search (content_guardrails g) content "text/plain" in
     let violations := if negb checked.1 then budget ++ checked.2 else budget in
     inr (bool_decide (length violations = 0%nat), violations)).
Proof.
  intros He. unfold pre_request_check, bind, get, on_attr, ret.
  rewrite He. cbn [negb]. rewrite check_budget_limits_reads, set_cost_tracker_same.
  destruct (validate_input re_search (content_guardrails g) content "text/plain")
    as [valid violations].
  reflexivity.
Qed.

(** C6. When the manager is enabled and the budget status of the current
    period has its daily or its monthly emergency flag set, [pre_request_check]
    returns [allowed = false] with the budget violation in the list, for every
    content, model and user. *)
Theorem pre_request_check_blocks_on_emergency (re_search : string -> string -> bool)
    (g : GuardrailsManager) (content mdl uid : string) (now : datetime) :
  enabled g = true ->
  budgetStatus (cost_tracker g) now !! "daily_emergency" = Some true \/
  budgetStatus (cost_tracker g) now !! "monthly_emergency" = Some true ->
  exists violations,
    pre_request_check re_search content mdl uid now g = (g, [], inr (false, violations)) /\
    BudgetLimitExceeded ∈ violations.
Proof.
  intros He Hb. rewrite pre_request_check_enabled by assumption.
  assert (Hflag : truthy (budgetStatus (cost_tracker g) now !! "daily_emergency")
                  || truthy (budgetStatus (cost_tracker g) now !! "monthly_emergency")
                  = true).
  { destruct Hb as [-> | ->]; cbn [truthy default]; [reflexivity|apply orb_true_r]. }
  cbv zeta. rewrite Hflag.
  destruct (validate_input re_search (content_guardrails g) content "text/plain")
    as [valid violations].
  cbn [fst snd]. eexists. split.
  - destruct valid; reflexivity.
  - destruct valid; cbn [negb]; [apply list_elem_of_here|].
    apply elem_of_app. left. apply list_elem_of_here.
Qed.

Lemma pre_request_check_blocks_on_emergency_witness :
  enabled scenario_manager = true /\
  (budgetStatus (cost_tracker scenario_manager) scenario_now !! "daily_emergency"
     = Some true \/
   budgetStatus (cost_tracker scenario_manager) scenario_now !! "monthly_emergency"
     = Some true) /\
  exists violations,
    pre_request_check (fun _ _ => false) "hello world" "vertex-gemini-pro" "alice"
        scenario_now scenario_manager =
      (scenario_manager, [], inr (false, violations)) /\
    BudgetLimitExceeded ∈ violations.
Proof.
  split; [reflexivity|]. split; [left; vm_compute; reflexivity|].
  apply pre_request_check_blocks_on_emergency; [reflexivity|left; vm_compute; reflexivity].
Defined.

(** The budget scenario, for every content: with 9.60 of 10 dollars spent and
    an emergency fraction of 0.95 the request is refused, and the budget
    violation comes first in the list. *)
Example budget_blocking_scenario (re_search : string -> string -> bool)
    (content mdl uid : string) :
  exists rest,
    pre_request_check re_search content mdl uid scenario_now scenario_manager =
      (scenario_manager, [], inr (false, BudgetLimitExceeded :: rest)).
Proof.
  rewrite pre_request_check_enabled by reflexivity. cbv zeta.
  replace (truthy (budgetStatus (cost_tracker scenario_manager) scenario_now
                     !! "daily_emergency")) with true by (vm_compute; reflexivity).
  cbn [orb].
  destruct (validate_input re_search (content_guardrails scenario_manager) content
              "text/plain") as [valid violations].
  cbn [fst snd]. destruct valid; cbn [negb app]; eauto.
Qed.

(** C7. For every content, model, user and state, [pre_request_check] returns
    the manager it was given: the retained entries and the five accumulators
    of its cost tracker are the same maps and list, so a period key that was
    absent before the call is absent after it. *)
Theorem pre_request_check_leaves_ledger_unchanged (re_search : string -> string -> bool)
    (g : GuardrailsManager) (content mdl uid : string) (now : datetime) :
  let '(g', _, _) := pre_request_check re_search content mdl uid now g in
  g' = g /\
  costs (cost_tracker g') = costs (cost_tracker g) /\
  daily_costs (cost_tracker g') = daily_costs (cost_tracker g) /\
  weekly_costs (cost_tracker g') = weekly_costs (cost_tracker g) /\
  monthly_costs (cost_tracker g') = monthly_costs (cost_tracker g) /\
  user_costs (cost_tracker g') = user_costs (cost_tracker g) /\
  model_costs (cost_tracker g') = model_costs (cost_tracker g).
Proof.
  assert (H : exists logs r,
             pre_request_check re_search content mdl uid now g = (g, logs, r)).
  { destruct (enabled g) eqn:He.
    - rewrite pre_request_check_enabled by assumption. eauto.
    - unfold pre_request_check, bind, get, ret. rewrite He. cbn. eauto. }
  destruct H as (logs & r & ->). repeat split.
Qed.

(** A read with [d[key]] would materialise the key in a [defaultdict]; the
    read [check_budget_limits] performs, [d.get(key, 0)], does not. *)
Example defaultdict_getitem_materialises :
  (defaultdict_getitem fzero (∅ : gmap string float) "2026-11-04").1 !! "2026-11-04"
    = Some fzero /\
  daily_costs (check_budget_limits 63929394306000007
                 (CostTracker_init default_environ)).1.1 !! "2026-11-04" = None.
Proof. split; reflexivity. Qed.

(** * Input validation *)





(** * The cost summary and the status report *)

Lemma float_truediv_cases (x y : float) :
  float_truediv x y = if is_zero y then inl ZeroDivisionError else inr (fdiv x y).
Proof. destruct y; reflexivity. Qed.

(** What [get_current_costs] does, by the ceilings: it raises on a zero
    ceiling and returns the three sub-dicts otherwise; it never changes the
    tracker. *)
Lemma get_current_costs_run (t : CostTracker) (now : datetime) :
  get_current_costs now t =
    (t, [],
     if zero_budget t then inl ZeroDivisionError
     else
       let period (spent budget : float) : gmap string float :=
         {[ "spent" := spent; "budget" := budget;
            "percentage" := fmul (fdiv spent budget) (of_int 100) ]} in
       inr {[ "daily" :=
                period (dict_get (daily_costs t) (strftime "%Y-%m-%d" now) fzero)
                       (daily_budget t);
              "weekly" :=
                period (dict_get (weekly_costs t) (strftime "%Y-W%U" now) fzero)
                       (weekly_budget t);
              "monthly" :=
                period (dict_get (monthly_costs t) (strftime "%Y-%m" now) fzero)
                       (monthly_budget t) ]}).
Proof.
  unfold get_current_costs, zero_budget, bind, get, lift, ret.
  rewrite !float_truediv_cases.
  destruct (is_zero (daily_budget t)); [reflexivity|].
  destruct (is_zero (weekly_budget t)); [reflexivity|].
  destruct (is_zero (monthly_budget t)); reflexivity.
Qed.

(** X1. [get_current_costs] never changes the tracker and logs nothing. It
    raises [ZeroDivisionError] exactly when one of the three ceilings is a
    zero; otherwise it returns, for each period, the total accumulated under
    the current key (zero when there is none), the ceiling, and their
    quotient times 100. *)
Theorem get_current_costs_raises_iff_zero_budget (t : CostTracker) (now : datetime) :
  (get_current_costs now t).1 = (t, []) /\
  (zero_budget t = true -> (get_current_costs now t).2 = inl ZeroDivisionError) /\
  (zero_budget t = false ->
   exists summary,
     (get_current_costs now t).2 = inr summary /\
     summary_field summary "daily" "spent" =
       Some (dict_get (daily_costs t) (strftime "%Y-%m-%d" now) fzero) /\
     summary_field summary "weekly" "spent" =
       Some (dict_get (weekly_costs t) (strftime "%Y-W%U" now) fzero) /\
     summary_field summary "monthly" "spent" =
       Some (dict_get (monthly_costs t) (strftime "%Y-%m" now) fzero) /\
     summary_field summary "daily" "budget" = Some (daily_budget t) /\
     summary_field summary "weekly" "budget" = Some (weekly_budget t) /\
     summary_field summary "monthly" "budget" = Some (monthly_budget t) /\
     summary_field summary "daily" "percentage" =
       Some (fmul (fdiv (dict_get (daily_costs t) (strftime "%Y-%m-%d" now) fzero)
                        (daily_budget t)) (of_int 100)) /\
     summary_field summary "weekly" "percentage" =
       Some (fmul (fdiv (dict_get (weekly_costs t) (strftime "%Y-W%U" now) fzero)
                        (weekly_budget t)) (of_int 100)) /\
     summary_field summary "monthly" "percentage" =
       Some (fmul (fdiv (dict_get (monthly_costs t) (strftime "%Y-%m" now) fzero)
                        (monthly_budget t)) (of_int 100))).
Proof.
  rewrite get_current_costs_run. cbn [fst snd].
  split; [reflexivity|]. split; intros ->; [reflexivity|].
  eexists. split; [reflexivity|].
  cbv zeta. repeat split; summary_lookup; reflexivity.
Qed.

(** A ceiling of zero dollars makes every summary fail. *)
Example get_current_costs_zero_daily_budget :
  let env := {|
    DAILY_BUDGET := of_int 0;
    WEEKLY_BUDGET := WEEKLY_BUDGET default_environ;
    MONTHLY_BUDGET := MONTHLY_BUDGET default_environ;
    COST_ALERT_WARNING := COST_ALERT_WARNING default_environ;
    COST_ALERT_CRITICAL := COST_ALERT_CRITICAL default_environ;
    COST_ALERT_EMERGENCY := COST_ALERT_EMERGENCY default_environ;
    VERTEX_GEMINI_PRO_INPUT_COST := VERTEX_GEMINI_PRO_INPUT_COST default_environ;
    VERTEX_GEMINI_PRO_OUTPUT_COST := VERTEX_GEMINI_PRO_OUTPUT_COST default_environ;
    VERTEX_GEMINI_FLASH_INPUT_COST := VERTEX_GEMINI_FLASH_INPUT_COST default_environ;
    VERTEX_GEMINI_FLASH_OUTPUT_COST := VERTEX_GEMINI_FLASH_OUTPUT_COST default_environ;
  |} in
  (get_current_costs scenario_now (CostTracker_init env)).2 = inl ZeroDivisionError /\
  (get_status scenario_now scenario_now (GuardrailsManager_init env true)).2
    = inl ZeroDivisionError.
Proof. split; reflexivity. Qed.

Lemma zero_percentage (budget : float) :
  is_zero budget = false -> is_nan budget = false ->
  is_zero (fmul (fdiv fzero budget) (of_int 100)) = true.
Proof. destruct budget as [?|?| |? ? ?]; intros Hz Hn; try discriminate; reflexivity. Qed.

(** X2. While nothing is recorded under the keys of the current day, week
    and month, and the three ceilings are neither zero nor NaN, the summary
    reports a spend of [0.0] and a percentage of zero for each period. *)
Theorem get_current_costs_nothing_spent (t : CostTracker) (now : datetime) :
  daily_costs t !! strftime "%Y-%m-%d" now = None ->
  weekly_costs t !! strftime "%Y-W%U" now = None ->
  monthly_costs t !! strftime "%Y-%m" now = None ->
  zero_budget t = false ->
  is_nan (daily_budget t) || is_nan (weekly_budget t) || is_nan (monthly_budget t)
    = false ->
  exists summary,
    get_current_costs now t = (t, [], inr summary) /\
    forall period, period ∈ ["daily"; "weekly"; "monthly"] ->
      summary_field summary period "spent" = Some fzero /\
      exists percentage,
        summary_field summary period "percentage" = Some percentage /\
        is_zero percentage = true.
Proof.
  intros Hd Hw Hm Hz Hn.
  rewrite get_current_costs_run, Hz. unfold dict_get. rewrite Hd, Hw, Hm.
  cbn [default]. cbv zeta. eexists. split; [reflexivity|].
  unfold zero_budget in Hz. rewrite !orb_false_iff in Hz, Hn.
  destruct Hz as ((Zd & Zw) & Zm), Hn as ((Nd & Nw) & Nm).
  intros period Hp. rewrite !elem_of_cons in Hp.
  destruct Hp as [->|[->|[->|Hp]]]; [| | |now apply elem_of_nil in Hp];
    (split; [summary_lookup; reflexivity|]);
    eexists; (split; [summary_lookup; reflexivity|]); now apply zero_percentage.
Qed.

Lemma get_current_costs_nothing_spent_witness :
  daily_costs (CostTracker_init default_environ) !! strftime "%Y-%m-%d" scenario_now
    = None /\
  weekly_costs (CostTracker_init default_environ) !! strftime "%Y-W%U" scenario_now
    = None /\
  monthly_costs (CostTracker_init default_environ) !! strftime "%Y-%m" scenario_now
    = None /\
  zero_budget (CostTracker_init default_environ) = false /\
  is_nan (daily_budget (CostTracker_init default_environ))
  || is_nan (weekly_budget (CostTracker_init default_environ))
  || is_nan (monthly_budget (CostTracker_init default_environ)) = false /\
  exists summary,
    get_current_costs scenario_now (CostTracker_init default_environ) =
      (CostTracker_init default_environ, [], inr summary) /\
    forall period, period ∈ ["daily"; "weekly"; "monthly"] ->
      summary_field summary period "spent" = Some fzero /\
      exists percentage,
        summary_field summary period "percentage" = Some percentage /\
        is_zero percentage = true.
Proof.
  repeat (split; [reflexivity|]).
  apply get_current_costs_nothing_spent; reflexivity.
Defined.

(** What [get_status] does on an enabled manager. *)
Lemma get_status_enabled (g : GuardrailsManager) (now later : datetime) :
  enabled g = true ->
  get_status now later g =
    (g, [],
     match (get_current_costs now (cost_tracker g)).2 with
     | inl e => inl e
     | inr current_costs =>
         inr (Some {|
           Status.costs := current_costs;
           Status.budget_status := budgetStatus (cost_tracker g) later;
           Status.total_entries := Z.of_nat (length (costs (cost_tracker g)));
           Status.guardrails_config := {|
             Status.block_pii := block_pii (content_guardrails g);
             Status.block_toxic := block_toxic (content_guardrails g);
             Status.scan_for_secrets := scan_for_secrets (content_guardrails g);
             Status.max_input_tokens := max_input_tokens (content_guardrails g);
             Status.max_output_tokens := max_output_tokens (content_guardrails g);
           |};
         |})
     end).
Proof.
  intros He. unfold get_status, bind, get, on_attr, ret. rewrite He. cbn [negb].
  rewrite get_current_costs_run. cbn [snd].
  rewrite set_cost_tracker_same.
  destruct (zero_budget (cost_tracker g)); [reflexivity|].
  rewrite check_budget_limits_reads, set_cost_tracker_same. reflexivity.
Qed.

(** X3. [get_status] never changes the manager or its tracker and logs
    nothing. A disabled manager reports only that it is disabled. An enabled
    one raises [ZeroDivisionError] when a ceiling is zero, and otherwise
    reports the number of retained entries, the flags of
    [check_budget_limits] and the summary of [get_current_costs]. *)
Theorem get_status_reads (g : GuardrailsManager) (now later : datetime) :
  (get_status now later g).1 = (g, []) /\
  (enabled g = false -> (get_status now later g).2 = inr None) /\
  (enabled g = true -> zero_budget (cost_tracker g) = true ->
   (get_status now later g).2 = inl ZeroDivisionError) /\
  (enabled g = true -> zero_budget (cost_tracker g) = false ->
   exists report,
     (get_status now later g).2 = inr (Some report) /\
     Status.total_entries report = Z.of_nat (length (costs (cost_tracker g))) /\
     Status.budget_status report = budgetStatus (cost_tracker g) later /\
     inr (Status.costs report) = (get_current_costs now (cost_tracker g)).2).
Proof.
  destruct (enabled g) eqn:He.
  - rewrite get_status_enabled by assumption. cbn [fst snd].
    rewrite get_current_costs_run. cbn [snd].
    split; [reflexivity|]. split; [discriminate|].
    split; intros _ ->; [reflexivity|].
    eexists. split; [reflexivity|]. repeat split.
  - unfold get_status, bind, get, ret. rewrite He. cbn [negb fst snd].
    split; [reflexivity|]. split; [reflexivity|]. split; discriminate.
Qed.

(** * More on retention pruning *)

Lemma set_costs_twice (l1 l2 : list CostEntry) (t : CostTracker) :
  set_costs l1 (set_costs l2 t) = set_costs l1 t.
Proof. reflexivity. Qed.

(** X4. Two pruning passes whose cut-offs are datetimes compose to the
    stricter one. After a pass with the later cut-off, a pass with an earlier
    (or the same) cut-off removes nothing and logs nothing, so pruning is
    idempotent; and a pass with the later cut-off leaves the same tracker
    whether or not a pass with an earlier cut-off ran before it. *)
Theorem cleanup_old_entries_passes_compose (t : CostTracker) (R1 R2 : Z)
    (now1 now2 : datetime) :
  cutoff_ok R1 now1 = true -> cutoff_ok R2 now2 = true ->
  cutoff R1 now1 <= cutoff R2 now2 ->
  cleanup_old_entries R1 now1 (cleanup_old_entries R2 now2 t).1.1 =
    ((cleanup_old_entries R2 now2 t).1.1, [], inr tt) /\
  (cleanup_old_entries R2 now2 (cleanup_old_entries R1 now1 t).1.1).1.1 =
    (cleanup_old_entries R2 now2 t).1.1.
Proof.
  intros H1 H2 Hc. rewrite !cleanup_old_entries_run, H1, H2. cbn [fst costs set_costs].
  rewrite ?set_costs_twice. split.
  - rewrite (list_filter_filter_r (fun e => cutoff R1 now1 < timestamp e))
      by (intros e; cbn; lia).
    replace (filter (fun e => timestamp e <= cutoff R1 now1)
               (filter (fun e => cutoff R2 now2 < timestamp e) (costs t)))
      with (@nil CostEntry); [reflexivity|].
    symmetry. induction (costs t) as [|e l IH]; [reflexivity|].
    rewrite filter_cons. destruct (decide (cutoff R2 now2 < timestamp e)); [|exact IH].
    rewrite filter_cons_False by lia. exact IH.
  - rewrite (list_filter_filter_l (fun e => cutoff R2 now2 < timestamp e))
      by (intros e; cbn; lia).
    reflexivity.
Qed.

Lemma cleanup_old_entries_passes_compose_witness :
  let t := (add_cost_entry "vertex-gemini-pro" "alice" 1000 500 "req-1"
              (cutoff 31 scenario_now) (CostTracker_init default_environ)).1.1 in
  cutoff_ok 30 scenario_now = true /\
  cutoff_ok 30 (scenario_now + 3600000000) = true /\
  cutoff 30 scenario_now <= cutoff 30 (scenario_now + 3600000000) /\
  cleanup_old_entries 30 scenario_now
      (cleanup_old_entries 30 (scenario_now + 3600000000) t).1.1 =
    ((cleanup_old_entries 30 (scenario_now + 3600000000) t).1.1, [], inr tt) /\
  (cleanup_old_entries 30 (scenario_now + 3600000000)
      (cleanup_old_entries 30 scenario_now t).1.1).1.1 =
    (cleanup_old_entries 30 (scenario_now + 3600000000) t).1.1.
Proof.
  cbv zeta. split; [reflexivity|]. split; [reflexivity|].
  split; [vm_compute; discriminate|].
  apply cleanup_old_entries_passes_compose;
    [reflexivity|reflexivity|vm_compute; discriminate].
Defined.

(** X5. Pruning does not give budget back: the totals are not decremented,
    so after [cleanup_old_entries] the budget flags, the cost summary and
    the verdict of [pre_request_check] are what they were before, for every
    retention window. *)
Theorem cleanup_old_entries_keeps_spend (re_search : string -> string -> bool)
    (g : GuardrailsManager) (R : Z) (now later : datetime) (content mdl uid : string) :
  let pruned := (cleanup_old_entries R now (cost_tracker g)).1.1 in
  (check_budget_limits later pruned).2 = (check_budget_limits later (cost_tracker g)).2 /\
  (get_current_costs later pruned).2 = (get_current_costs later (cost_tracker g)).2 /\
  (pre_request_check re_search content mdl uid later (set_cost_tracker pruned g)).2 =
    (pre_request_check re_search content mdl uid later g).2.
Proof.
  cbv zeta.
  destruct (cleanup_old_entries_state (cost_tracker g) R now) as (kept & -> & _).
  split; [reflexivity|]. split.
  - rewrite !get_current_costs_run. reflexivity.
  - destruct (enabled g) eqn:He.
    + rewrite !pre_request_check_enabled by exact He. reflexivity.
    + unfold pre_request_check, bind, get, ret. cbn [enabled set_cost_tracker].
      rewrite He. reflexivity.
Qed.

(** X6. A retention window of zero days, or a negative one whose cut-off
    is still a datetime, empties the list of retained entries: every entry
    stamped at or before [now] is removed. *)
Theorem cleanup_old_entries_zero_retention (t : CostTracker) (R : Z) (now : datetime) :
  R <= 0 -> cutoff_ok R now = true ->
  forallb (fun e => timestamp e <=? now) (costs t) = true ->
  costs (cleanup_old_entries R now t).1.1 = [].
Proof.
  intros HR Hok Hall. rewrite cleanup_old_entries_run, Hok. cbn [fst costs set_costs].
  assert (Hc : now <= cutoff R now).
  { unfold cutoff, us_per_day. lia. }
  induction (costs t) as [|e l IH]; [reflexivity|].
  cbn [forallb] in Hall. apply andb_true_iff in Hall as (He & Hl).
  apply Z.leb_le in He. rewrite filter_cons_False by lia. now apply IH.
Qed.

Lemma cleanup_old_entries_zero_retention_witness :
  let t := (add_cost_entry "vertex-gemini-pro" "alice" 1000 500 "req-1"
              (scenario_now - 1) (CostTracker_init default_environ)).1.1 in
  0 <= 0 /\ cutoff_ok 0 scenario_now = true /\
  forallb (fun e => timestamp e <=? scenario_now) (costs t) = true /\
  length (costs t) = 1%nat /\
  costs (cleanup_old_entries 0 scenario_now t).1.1 = [].
Proof.
  cbv zeta. split; [lia|]. split; [reflexivity|]. split; [vm_compute; reflexivity|].
  split; [vm_compute; reflexivity|].
  apply cleanup_old_entries_zero_retention; [lia|reflexivity|vm_compute; reflexivity].
Defined.

(** * Every state a constructed tracker can reach *)

Lemma int_truediv_value (a : Z) (q : float) :
  int_truediv a 1000 = inr q -> q = per_1000 a.
Proof.
  unfold int_truediv, per_1000. cbn [Z.eqb].
  destruct (fdiv (int_to_sf a) (int_to_sf 1000)); intros H; now inversion H.
Qed.

(** When [calculate_cost] returns, it returns the costs of the price table. *)
Lemma calculate_cost_value (env : Environ) (t s : CostTracker) (mdl : string)
    (itok otok : Z) (logs : list log_record) (ic oc tc : float) :
  model_costs t = pricing env ->
  calculate_cost mdl itok otok t = (s, logs, inr (ic, oc, tc)) ->
  (ic, oc, tc) = cost t mdl itok otok.
Proof.
  intros Hp. unfold calculate_cost, cost, price, bind, get, lift, ret, log.
  destruct (model_costs t !! mdl) as [prices|] eqn:E.
  - rewrite Hp in E. apply pricing_lookup in E as (a & b & ->).
    change (dict_getitem ({[ "input" := a; "output" := b ]} : gmap string float) "input")
      with (@inr exn float a).
    change (dict_getitem ({[ "input" := a; "output" := b ]} : gmap string float) "output")
      with (@inr exn float b).
    change (dict_get ({[ "input" := a; "output" := b ]} : gmap string float) "input" fzero)
      with a.
    change (dict_get ({[ "input" := a; "output" := b ]} : gmap string float) "output" fzero)
      with b.
    destruct (int_truediv itok 1000) as [?|qi] eqn:Ei; [discriminate|].
    destruct (int_truediv otok 1000) as [?|qo] eqn:Eo; [discriminate|].
    apply int_truediv_value in Ei, Eo. subst. intros H. now inversion H.
  - destruct (int_truediv itok 1000) as [?|qi] eqn:Ei; [discriminate|].
    destruct (int_truediv otok 1000) as [?|qo] eqn:Eo; [discriminate|].
    apply int_truediv_value in Ei, Eo. subst. intros H. now inversion H.
Qed.

(** The tracker [add_cost_entry] leaves: untouched when pricing raised, and
    with the priced entry recorded otherwise. *)
Lemma add_cost_entry_state (env : Environ) (t : CostTracker) (mdl uid : string)
    (itok otok : Z) (rid : string) (now : datetime) :
  model_costs t = pricing env ->
  (add_cost_entry mdl uid itok otok rid now t).1.1 = t \/
  (add_cost_entry mdl uid itok otok rid now t).1.1 =
    recorded (cost_record t mdl uid itok otok rid now) t.
Proof.
  intros Hp.
  pose proof (calculate_cost_reads t mdl itok otok) as Hs.
  destruct (calculate_cost mdl itok otok t) as [[s logs] [e|[[ic oc] tc]]] eqn:Hc;
    cbn [fst] in Hs; subst s.
  - left. unfold add_cost_entry, bind at 1. rewrite Hc. reflexivity.
  - right. rewrite (add_cost_entry_priced env _ _ _ _ _ _ _ _ _ _ _ Hp Hc). cbn [fst].
    unfold cost_record. rewrite <- (calculate_cost_value _ _ _ _ _ _ _ _ _ _ Hp Hc).
    reflexivity.
Qed.

Lemma cost_record_fields (t : CostTracker) (mdl uid : string) (itok otok : Z)
    (rid : string) (now : datetime) :
  let e := cost_record t mdl uid itok otok rid now in
  timestamp e = now /\ model e = mdl /\ user_id e = uid /\
  input_tokens e = itok /\ output_tokens e = otok /\ request_id e = rid /\
  (input_cost e, output_cost e, total_cost e) = cost t mdl itok otok.
Proof.
  cbv zeta. unfold cost_record.
  destruct (cost t mdl itok otok) as [[a b] c]. repeat split.
Qed.

Lemma cost_same_table (t t' : CostTracker) (mdl : string) (itok otok : Z) :
  model_costs t = model_costs t' -> cost t mdl itok otok = cost t' mdl itok otok.
Proof. intros H. unfold cost, price. now rewrite H. Qed.

Lemma cost_total (t : CostTracker) (mdl : string) (itok otok : Z) (ic oc tc : float) :
  (ic, oc, tc) = cost t mdl itok otok -> tc = fadd ic oc.
Proof.
  unfold cost. destruct (price t mdl) as [pi po]. intros H. now inversion H.
Qed.

(** X7. Nothing a constructed tracker goes through changes its
    configuration: after any sequence of [add_cost_entry] and
    [cleanup_old_entries] calls, raising or not, [model_costs] is still the
    price table of [__init__] (no total is ever written into it), and the
    ceilings and the three fractions are those read from the environment. *)
Theorem reachable_configuration_fixed (env : Environ) (t : CostTracker) :
  reachable env t ->
  model_costs t = pricing env /\
  daily_budget t = DAILY_BUDGET env /\
  weekly_budget t = WEEKLY_BUDGET env /\
  monthly_budget t = MONTHLY_BUDGET env /\
  warning_threshold t = fdiv (COST_ALERT_WARNING env) (of_int 100) /\
  critical_threshold t = fdiv (COST_ALERT_CRITICAL env) (of_int 100) /\
  emergency_threshold t = fdiv (COST_ALERT_EMERGENCY env) (of_int 100).
Proof.
  induction 1 as [|t mdl uid itok otok rid now _ IH|t R now _ IH].
  - repeat split.
  - destruct IH as (Hp & IH).
    destruct (add_cost_entry_state env t mdl uid itok otok rid now Hp) as [-> | ->];
      [now split|].
    split; [exact Hp|exact IH].
  - destruct (cleanup_old_entries_state t R now) as (kept & -> & _). exact IH.
Qed.

Lemma reachable_configuration_fixed_witness :
  let t := (cleanup_old_entries 30 scenario_now
              (add_cost_entry "vertex-gemini-pro" "alice" 1000 500 "req-1"
                 (cutoff 31 scenario_now)
                 (CostTracker_init default_environ)).1.1).1.1 in
  reachable default_environ t /\
  model_costs t = pricing default_environ /\
  daily_budget t = DAILY_BUDGET default_environ /\
  weekly_budget t = WEEKLY_BUDGET default_environ /\
  monthly_budget t = MONTHLY_BUDGET default_environ /\
  warning_threshold t = fdiv (COST_ALERT_WARNING default_environ) (of_int 100) /\
  critical_threshold t = fdiv (COST_ALERT_CRITICAL default_environ) (of_int 100) /\
  emergency_threshold t = fdiv (COST_ALERT_EMERGENCY default_environ) (of_int 100).
Proof.
  cbv zeta.
  assert (Hr : reachable default_environ
    (cleanup_old_entries 30 scenario_now
       (add_cost_entry "vertex-gemini-pro" "alice" 1000 500 "req-1"
          (cutoff 31 scenario_now)
          (CostTracker_init default_environ)).1.1).1.1).
  { apply reachable_cleanup, reachable_add, reachable_init. }
  split; [exact Hr|]. exact (reachable_configuration_fixed _ _ Hr).
Defined.

(** X8. Every entry a constructed tracker retains was priced by the table
    of [__init__]: its input cost, output cost and total are those of its
    model and token counts under that table, and its total is the float sum
    of its two parts. *)
Theorem reachable_entries_priced (env : Environ) (t : CostTracker) (e : CostEntry) :
  reachable env t -> e ∈ costs t ->
  (input_cost e, output_cost e, total_cost e) =
    cost (CostTracker_init env) (model e) (input_tokens e) (output_tokens e) /\
  total_cost e = fadd (input_cost e) (output_cost e).
Proof.
  intros Hr He.
  enough (H : (input_cost e, output_cost e, total_cost e) =
              cost (CostTracker_init env) (model e) (input_tokens e) (output_tokens e)).
  { split; [exact H|]. exact (cost_total _ _ _ _ _ _ _ H). }
  induction Hr as [|t mdl uid itok otok rid now Hr IH|t R now _ IH].
  - now apply elem_of_nil in He.
  - pose proof (reachable_price_table _ _ Hr) as Hp.
    destruct (add_cost_entry_state env t mdl uid itok otok rid now Hp) as [E|E];
      rewrite E in He; [now apply IH|].
    cbn [recorded costs set_user_costs set_monthly_costs set_weekly_costs
         set_daily_costs set_costs] in He.
    apply elem_of_app in He as [He|He]; [now apply IH|].
    apply list_elem_of_singleton in He. subst e.
    destruct (cost_record_fields t mdl uid itok otok rid now)
      as (_ & -> & _ & -> & -> & _ & ->).
    apply cost_same_table. exact Hp.
  - destruct (cleanup_old_entries_state t R now) as (kept & E & Hsub).
    rewrite E in He. cbn [costs set_costs] in He. now apply IH, Hsub.
Qed.

Lemma reachable_entries_priced_witness :
  let t := (add_cost_entry "gpt-4" "bob" 2000 1000 "req-2" scenario_now
              (add_cost_entry "vertex-gemini-pro" "alice" 1000 500 "req-1"
                 (scenario_now - 1) (CostTracker_init default_environ)).1.1).1.1 in
  let e := cost_record (CostTracker_init default_environ) "gpt-4" "bob" 2000 1000
             "req-2" scenario_now in
  reachable default_environ t /\ e ∈ costs t /\
  (input_cost e, output_cost e, total_cost e) =
    cost (CostTracker_init default_environ) (model e) (input_tokens e) (output_tokens e) /\
  total_cost e = fadd (input_cost e) (output_cost e).
Proof.
  cbv zeta.
  assert (Hr : reachable default_environ
    (add_cost_entry "gpt-4" "bob" 2000 1000 "req-2" scenario_now
       (add_cost_entry "vertex-gemini-pro" "alice" 1000 500 "req-1"
          (scenario_now - 1) (CostTracker_init default_environ)).1.1).1.1).
  { apply reachable_add, reachable_add, reachable_init. }
  assert (He : cost_record (CostTracker_init default_environ) "gpt-4" "bob" 2000 1000
                 "req-2" scenario_now
               ∈ costs (add_cost_entry "gpt-4" "bob" 2000 1000 "req-2" scenario_now
                   (add_cost_entry "vertex-gemini-pro" "alice" 1000 500 "req-1"
                      (scenario_now - 1) (CostTracker_init default_environ)).1.1).1.1).
  { vm_compute. apply list_elem_of_further, list_elem_of_here. }
  split; [exact Hr|]. split; [exact He|].
  exact (reachable_entries_priced _ _ _ Hr He).
Defined.

Lemma defaultdict_iadd_lookup (d : gmap string float) (k : string) (v : float) :
  defaultdict_iadd d k v !! k = Some (fadd (dict_get d k fzero) v).
Proof.
  unfold defaultdict_iadd, defaultdict_getitem, dict_get.
  destruct (d !! k); cbn [default]; now rewrite lookup_insert_eq.
Qed.

Lemma defaultdict_iadd_lookup_ne (d : gmap string float) (k k' : string) (v : float) :
  k <> k' -> defaultdict_iadd d k v !! k' = d !! k'.
Proof.
  intros Hne. unfold defaultdict_iadd, defaultdict_getitem.
  destruct (d !! k); now rewrite !lookup_insert_ne by exact Hne.
Qed.

Lemma defaultdict_iadd_is_Some (d : gmap string float) (k k' : string) (v : float) :
  k' = k \/ is_Some (d !! k') -> is_Some (defaultdict_iadd d k v !! k').
Proof.
  destruct (decide (k = k')) as [->|Hne].
  - intros _. rewrite defaultdict_iadd_lookup. eauto.
  - rewrite defaultdict_iadd_lookup_ne by exact Hne. intros [->|H]; [congruence|exact H].
Qed.

Lemma bucketed_recorded (t : CostTracker) (entry e : CostEntry) :
  e = entry \/ bucketed t e -> bucketed (recorded entry t) e.
Proof.
  intros H. unfold bucketed, recorded.
  cbn [daily_costs weekly_costs monthly_costs user_costs set_user_costs
       set_monthly_costs set_weekly_costs set_daily_costs set_costs].
  split; [|split; [|split]].
  - apply defaultdict_iadd_is_Some. destruct H as [->|(H & _)]; eauto.
  - apply defaultdict_iadd_is_Some. destruct H as [->|(_ & H & _)]; eauto.
  - apply defaultdict_iadd_is_Some. destruct H as [->|(_ & _ & H & _)]; eauto.
  - destruct (decide (user_id entry = user_id e)) as [Eu|Eu].
    + rewrite Eu, lookup_insert_eq. eexists. split; [reflexivity|].
      apply defaultdict_iadd_is_Some.
      destruct H as [->|(_ & _ & _ & days & Hd & Hs)]; [now left|right].
      unfold dict_get. rewrite Hd. exact Hs.
    + rewrite lookup_insert_ne by exact Eu.
      destruct H as [->|(_ & _ & _ & H)]; [congruence|exact H].
Qed.

(** X9. On every tracker a constructed one can become, each retained entry
    has its buckets: its day, week and month keys are present in the three
    period totals, and its user has a per-day total under its day key.
    Pruning removes entries, never buckets. *)
Theorem reachable_entries_bucketed (env : Environ) (t : CostTracker) (e : CostEntry) :
  reachable env t -> e ∈ costs t ->
  is_Some (daily_costs t !! strftime "%Y-%m-%d" (timestamp e)) /\
  is_Some (weekly_costs t !! strftime "%Y-W%U" (timestamp e)) /\
  is_Some (monthly_costs t !! strftime "%Y-%m" (timestamp e)) /\
  exists days, user_costs t !! user_id e = Some days /\
               is_Some (days !! strftime "%Y-%m-%d" (timestamp e)).
Proof.
  intros Hr He. change (bucketed t e).
  induction Hr as [|t mdl uid itok otok rid now Hr IH|t R now _ IH].
  - now apply elem_of_nil in He.
  - pose proof (reachable_price_table _ _ Hr) as Hp.
    destruct (add_cost_entry_state env t mdl uid itok otok rid now Hp) as [E|E];
      rewrite E in *; [now apply IH|].
    apply bucketed_recorded.
    cbn [recorded costs set_user_costs set_monthly_costs set_weekly_costs
         set_daily_costs set_costs] in He.
    apply elem_of_app in He as [He|He]; [right; now apply IH|left].
    now apply list_elem_of_singleton in He.
  - destruct (cleanup_old_entries_state t R now) as (kept & E & Hsub).
    rewrite E in *. cbn [costs set_costs] in He. now apply IH, Hsub.
Qed.

Lemma reachable_entries_bucketed_witness :
  let t := (add_cost_entry "gpt-4" "bob" 2000 1000 "req-2" scenario_now
              (add_cost_entry "vertex-gemini-pro" "alice" 1000 500 "req-1"
                 (cutoff 40 scenario_now)
                 (CostTracker_init default_environ)).1.1).1.1 in
  let e := cost_record (CostTracker_init default_environ) "vertex-gemini-pro" "alice"
             1000 500 "req-1" (cutoff 40 scenario_now) in
  reachable default_environ t /\ e ∈ costs t /\
  is_Some (daily_costs t !! strftime "%Y-%m-%d" (timestamp e)) /\
  is_Some (weekly_costs t !! strftime "%Y-W%U" (timestamp e)) /\
  is_Some (monthly_costs t !! strftime "%Y-%m" (timestamp e)) /\
  exists days, user_costs t !! user_id e = Some days /\
               is_Some (days !! strftime "%Y-%m-%d" (timestamp e)).
Proof.
  cbv zeta.
  assert (Hr : reachable default_environ
    (add_cost_entry "gpt-4" "bob" 2000 1000 "req-2" scenario_now
       (add_cost_entry "vertex-gemini-pro" "alice" 1000 500 "req-1"
          (cutoff 40 scenario_now)
          (CostTracker_init default_environ)).1.1).1.1).
  { apply reachable_add, reachable_add, reachable_init. }
  assert (He : cost_record (CostTracker_init default_environ) "vertex-gemini-pro" "alice"
                 1000 500 "req-1" (cutoff 40 scenario_now)
               ∈ costs (add_cost_entry "gpt-4" "bob" 2000 1000 "req-2" scenario_now
                   (add_cost_entry "vertex-gemini-pro" "alice" 1000 500 "req-1"
                      (cutoff 40 scenario_now)
                      (CostTracker_init default_environ)).1.1).1.1).
  { vm_compute. apply list_elem_of_here. }
  split; [exact Hr|]. split; [exact He|].
  exact (reachable_entries_bucketed _ _ _ Hr He).
Defined.

(** * The hooks of the manager *)

(** X10. A disabled manager checks and records nothing: [pre_request_check]
    allows every request, also one that an exhausted budget or the content
    checks would refuse; [post_request_processing] records no cost and
    validates no output; [get_status] reports only that the manager is
    disabled. None of the three changes the manager or logs. *)
Theorem disabled_manager_checks_nothing (re_search : string -> string -> bool)
    (g : GuardrailsManager) (content mdl uid : string) (itok otok : Z)
    (output rid : string) (now later : datetime) :
  enabled g = false ->
  pre_request_check re_search content mdl uid now g = (g, [], inr (true, [])) /\
  post_request_processing re_search mdl uid itok otok output rid now later g =
    (g, [], inr (true, [])) /\
  get_status now later g = (g, [], inr None).
Proof.
  intros He.
  unfold pre_request_check, post_request_processing, get_status, bind, get, ret.
  rewrite He. repeat split.
Qed.

Lemma disabled_manager_checks_nothing_witness :
  let g := {| cost_tracker := cost_tracker scenario_manager;
              content_guardrails := content_guardrails scenario_manager;
              enabled := false |} in
  enabled g = false /\
  budgetStatus (cost_tracker g) scenario_now !! "daily_emergency" = Some true /\
  pre_request_check (fun _ _ => true) "kill" "vertex-gemini-pro" "alice" scenario_now g =
    (g, [], inr (true, [])) /\
  post_request_processing (fun _ _ => true) "vertex-gemini-pro" "alice" 1000 500
      "sk-secret" "req-1" scenario_now scenario_now g =
    (g, [], inr (true, [])) /\
  get_status scenario_now scenario_now g = (g, [], inr None).
Proof.
  cbv zeta. split; [reflexivity|]. split; [vm_compute; reflexivity|].
  apply disabled_manager_checks_nothing. reflexivity.
Defined.

(** The manager [post_request_processing] leaves behind when the token counts
    are below [2^1000]. *)
Lemma post_request_processing_raises_state (re_search : string -> string -> bool)
    (env : Environ) (g : GuardrailsManager) (mdl uid : string) (itok otok : Z)
    (output rid : string) (now later : datetime) :
  enabled g = true -> reachable env (cost_tracker g) ->
  Z.abs itok < 2 ^ 1000 -> Z.abs otok < 2 ^ 1000 ->
  (post_request_processing re_search mdl uid itok otok output rid now later g).1.1 =
    set_cost_tracker
      (recorded (cost_record (cost_tracker g) mdl uid itok otok rid now) (cost_tracker g))
      g.
Proof.
  intros He Hr Hi Ho. pose proof (reachable_price_table _ _ Hr) as Hp.
  unfold post_request_processing. rewrite He. cbn [negb].
  rewrite (add_cost_entry_run env) by assumption. reflexivity.
Qed.

(** X11. On an enabled manager whose tracker was constructed by [__init__],
    whatever happened to it since, [post_request_processing] never returns:
    the [KeyError] of [add_cost_entry] passes through it, so the output is
    never validated and no budget alert is logged. The cost is on the books
    all the same: for token counts below [2^1000] the manager is left with
    the priced entry appended and added to the four totals. *)
Theorem post_request_processing_always_raises (re_search : string -> string -> bool)
    (env : Environ) (g : GuardrailsManager) (mdl uid : string) (itok otok : Z)
    (output rid : string) (now later : datetime) :
  enabled g = true -> reachable env (cost_tracker g) ->
  (exists e,
     (post_request_processing re_search mdl uid itok otok output rid now later g).2
       = inl e) /\
  (Z.abs itok < 2 ^ 1000 -> Z.abs otok < 2 ^ 1000 ->
   post_request_processing re_search mdl uid itok otok output rid now later g =
     (set_cost_tracker
        (recorded (cost_record (cost_tracker g) mdl uid itok otok rid now)
                  (cost_tracker g)) g,
      tracker_record <$> lookup_warning (cost_tracker g) mdl,
      inl (KeyError match pricing env !! mdl with
                    | Some _ => strftime "%Y-%m-%d" now
                    | None => mdl
                    end))).
Proof.
  intros He Hr. pose proof (reachable_price_table _ _ Hr) as Hp.
  unfold post_request_processing. rewrite He. cbn [negb]. split.
  - destruct (add_cost_entry_never_returns env _ mdl uid itok otok rid now Hr) as (e & E).
    destruct (add_cost_entry mdl uid itok otok rid now (cost_tracker g))
      as [[tracker records] [e'|entry]]; [eauto|discriminate E].
  - intros Hi Ho. rewrite (add_cost_entry_run env) by assumption.
    rewrite Hp. reflexivity.
Qed.

Lemma post_request_processing_always_raises_witness :
  let g := GuardrailsManager_init default_environ true in
  enabled g = true /\ reachable default_environ (cost_tracker g) /\
  (exists e,
     (post_request_processing (fun _ _ => false) "vertex-gemini-pro" "alice" 1000 500
        "fine" "req-1" scenario_now scenario_now g).2 = inl e) /\
  (Z.abs 1000 < 2 ^ 1000 -> Z.abs 500 < 2 ^ 1000 ->
   post_request_processing (fun _ _ => false) "vertex-gemini-pro" "alice" 1000 500
       "fine" "req-1" scenario_now scenario_now g =
     (set_cost_tracker
        (recorded (cost_record (cost_tracker g) "vertex-gemini-pro" "alice" 1000 500
                     "req-1" scenario_now)
                  (cost_tracker g)) g,
      tracker_record <$> lookup_warning (cost_tracker g) "vertex-gemini-pro",
      inl (KeyError match pricing default_environ !! "vertex-gemini-pro" with
                    | Some _ => strftime "%Y-%m-%d" scenario_now
                    | None => "vertex-gemini-pro"
                    end))).
Proof.
  cbv zeta. split; [reflexivity|]. split; [apply reachable_init|].
  apply post_request_processing_always_raises; [reflexivity|apply reachable_init].
Defined.

(** X12. A request whose post-processing raised is still counted. After
    [post_request_processing] on an enabled manager with a constructed
    tracker and non-zero ceilings, [get_status] reports one retained entry
    more than before, and a spend for the day of the request that is the
    previous one plus the total cost of the request. *)
Theorem failed_request_is_counted (re_search : string -> string -> bool)
    (env : Environ) (g : GuardrailsManager) (mdl uid : string) (itok otok : Z)
    (output rid : string) (now later : datetime) :
  enabled g = true -> reachable env (cost_tracker g) ->
  Z.abs itok < 2 ^ 1000 -> Z.abs otok < 2 ^ 1000 ->
  zero_budget (cost_tracker g) = false ->
  let g' := (post_request_processing re_search mdl uid itok otok output rid now later g).1.1 in
  exists report,
    get_status now later g' = (g', [], inr (Some report)) /\
    Status.total_entries report = Z.of_nat (length (costs (cost_tracker g))) + 1 /\
    summary_field (Status.costs report) "daily" "spent" =
      Some (fadd (dict_get (daily_costs (cost_tracker g)) (strftime "%Y-%m-%d" now) fzero)
                 (total_cost (cost_record (cost_tracker g) mdl uid itok otok rid now))).
Proof.
  intros He Hr Hi Ho Hz. cbv zeta.
  rewrite (post_request_processing_raises_state re_search env g mdl uid itok otok
             output rid now later He Hr Hi Ho).
  rewrite get_status_enabled by exact He.
  rewrite get_current_costs_run.
  cbn [cost_tracker set_cost_tracker].
  replace (zero_budget (recorded _ (cost_tracker g))) with false by (symmetry; exact Hz).
  cbn [snd]. cbv zeta. eexists. split; [reflexivity|].
  cbn [Status.total_entries Status.costs]. split.
  - cbn [recorded costs set_user_costs set_monthly_costs set_weekly_costs
         set_daily_costs set_costs].
    rewrite length_app. cbn [length]. lia.
  - summary_lookup.
    cbn [recorded daily_costs set_user_costs set_monthly_costs set_weekly_costs
         set_daily_costs set_costs].
    destruct (cost_record_fields (cost_tracker g) mdl uid itok otok rid now) as (-> & _).
    unfold dict_get at 1. rewrite defaultdict_iadd_lookup. reflexivity.
Qed.

Lemma failed_request_is_counted_witness :
  let g := GuardrailsManager_init default_environ true in
  let g' := (post_request_processing (fun _ _ => false) "vertex-gemini-pro" "alice"
               1000 500 "fine" "req-1" scenario_now scenario_now g).1.1 in
  enabled g = true /\ reachable default_environ (cost_tracker g) /\
  Z.abs 1000 < 2 ^ 1000 /\ Z.abs 500 < 2 ^ 1000 /\
  zero_budget (cost_tracker g) = false /\
  exists report,
    get_status scenario_now scenario_now g' = (g', [], inr (Some report)) /\
    Status.total_entries report = Z.of_nat (length (costs (cost_tracker g))) + 1 /\
    summary_field (Status.costs report) "daily" "spent" =
      Some (fadd (dict_get (daily_costs (cost_tracker g))
                           (strftime "%Y-%m-%d" scenario_now) fzero)
                 (total_cost (cost_record (cost_tracker g) "vertex-gemini-pro" "alice"
                                1000 500 "req-1" scenario_now))).
Proof.
  cbv zeta. split; [reflexivity|]. split; [apply reachable_init|].
  split; [vm_compute; reflexivity|]. split; [vm_compute; reflexivity|].
  split; [reflexivity|].
  apply (failed_request_is_counted (fun _ _ => false) default_environ
           (GuardrailsManager_init default_environ true));
    [reflexivity|apply reachable_init|vm_compute; reflexivity|vm_compute; reflexivity
    |reflexivity].
Defined.

(** * Content validation *)

Lemma startswith_spec (p s : string) :
  startswith p s = true <-> exists b, s = p +:+ b.
Proof.
  revert s. induction p as [|a p IH]; intros s; cbn [startswith String.append].
  - split; [eauto|reflexivity].
  - destruct s as [|c s].
    + split; [discriminate|]. intros (b & H). discriminate H.
    + destruct (Ascii.eqb_spec a c) as [->|Hne].
      * rewrite IH. split; intros (b & H); exists b; [now rewrite H|now inversion H].
      * split; [discriminate|]. intros (b & H). cbn [String.append] in H.
        injection H as H1 H2. now subst.
Qed.

(** [sub in s] holds exactly when [sub] occurs in [s] as a substring. *)
Lemma contains_spec (sub s : string) :
  contains sub s = true <-> exists a b, s = a +:+ sub +:+ b.
Proof.
  induction s as [|c s IH]; cbn [contains]; rewrite orb_true_iff, startswith_spec.
  - split.
    + intros [(b & H)|H]; [|discriminate]. exists EmptyString, b. exact H.
    + intros (a & b & H). left. destruct a; [|discriminate H].
      exists b. exact H.
  - rewrite IH. split.
    + intros [(b & H)|(a & b & H)].
      * exists EmptyString, b. exact H.
      * exists (String c a), b. cbn [String.append]. now rewrite H.
    + intros (a & b & H). destruct a as [|c' a]; cbn [String.append] in H.
      * left. eauto.
      * right. inversion H. eauto.
Qed.

Lemma existsb_false_iff {A} (f : A -> bool) (l : list A) :
  existsb f l = false <-> forall x, x ∈ l -> f x = false.
Proof.
  induction l as [|y l IH]; cbn [existsb].
  - split; [|reflexivity]. intros _ x Hx. now apply elem_of_nil in Hx.
  - rewrite orb_false_iff, IH. split.
    + intros (Hy & Hl) x Hx. apply elem_of_cons in Hx as [->|Hx]; auto.
    + intros H. split; [apply H, list_elem_of_here|].
      intros x Hx. apply H, list_elem_of_further, Hx.
Qed.

Lemma find_first_match {A} (f : A -> bool) (l : list A) :
  match find f l with
  | Some x => x ∈ l /\ f x = true
  | None => forall x, x ∈ l -> f x = false
  end.
Proof.
  induction l as [|y l IH]; cbn [find].
  - intros x Hx. now apply elem_of_nil in Hx.
  - destruct (f y) eqn:Ey; [split; [apply list_elem_of_here|exact Ey]|].
    destruct (find f l) as [x|].
    + destruct IH. split; [now apply list_elem_of_further|assumption].
    + intros x Hx. apply elem_of_cons in Hx as [->|Hx]; auto.
Qed.

(** The violations of [validate_input]: one list per check, in the order of
    the checks, each check adding at most one. *)
Lemma validate_input_run (re_search : string -> string -> bool) (c : ContentGuardrails)
    (content content_type : string) :
  validate_input re_search c content content_type =
    let estimated_tokens :=
      fmul (of_int (Z.of_nat (length (split content)))) (decimal 13 1) in
    let violations :=
      (if max_request_size c <? utf8_len content
       then [RequestSizeExceedsLimit (utf8_len content) (max_request_size c)] else []) ++
      (if float_gt_int estimated_tokens (max_input_tokens c)
       then [EstimatedInputTokensExceedLimit estimated_tokens (max_input_tokens c)]
       else []) ++
      (if block_pii c && existsb (fun p => re_search p content) (pii_patterns c)
       then [PotentialPII] else []) ++
      (if scan_for_secrets c && existsb (fun p => re_search p content) (secret_patterns c)
       then [PotentialSecretInInput] else []) ++
      (if keyword_scan c
       then match find (fun kw => contains kw (lower content)) toxic_keywords with
            | Some kw => [PotentiallyHarmfulContent kw]
            | None => []
            end
       else []) in
    (bool_decide (length violations = 0%nat), violations).
Proof.
  unfold validate_input, keyword_scan. cbv zeta.
  destruct (max_request_size c <? utf8_len content);
    destruct (float_gt_int _ (max_input_tokens c));
    destruct (block_pii c && _); destruct (scan_for_secrets c && _);
    destruct (block_toxic c || block_hate c || block_violence c || block_sexual c);
    try destruct (find _ toxic_keywords); reflexivity.
Qed.

Lemma find_existsb {A} (f : A -> bool) (l : list A) :
  match find f l with Some _ => true | None => false end = existsb f l.
Proof.
  induction l as [|y l IH]; [reflexivity|]. cbn [find existsb].
  destruct (f y); [reflexivity|exact IH].
Qed.

(** The verdict of [validate_input], check by check. *)
Lemma validate_input_verdict (re_search : string -> string -> bool)
    (c : ContentGuardrails) (content content_type : string) :
  (validate_input re_search c content content_type).1 =
    negb (max_request_size c <? utf8_len content)
    && negb (float_gt_int (fmul (of_int (Z.of_nat (length (split content))))
                                (decimal 13 1)) (max_input_tokens c))
    && negb (block_pii c && existsb (fun p => re_search p content) (pii_patterns c))
    && negb (scan_for_secrets c
             && existsb (fun p => re_search p content) (secret_patterns c))
    && negb (keyword_scan c
             && existsb (fun kw => contains kw (lower content)) toxic_keywords).
Proof.
  rewrite validate_input_run. cbv zeta. cbn [fst].
  rewrite <- (find_existsb _ toxic_keywords).
  destruct (max_request_size c <? utf8_len content);
    destruct (float_gt_int _ (max_input_tokens c));
    destruct (block_pii c && _); destruct (scan_for_secrets c && _);
    destruct (keyword_scan c);
    try destruct (find _ toxic_keywords); reflexivity.
Qed.

(** X13. [validate_input] accepts a content exactly when all five checks
    pass: the UTF-8 size is within [max_request_size]; the word count times
    1.3 does not exceed [max_input_tokens]; no PII pattern matches, if
    [block_pii] is set; no secret pattern matches, if [scan_for_secrets] is
    set; and, if any of the four content flags is set, no listed keyword
    occurs in the lower-cased content. The content type plays no part. *)
Theorem validate_input_accepts_iff (re_search : string -> string -> bool)
    (c : ContentGuardrails) (content content_type : string) :
  (validate_input re_search c content content_type).1 = true <->
  utf8_len content <= max_request_size c /\
  float_gt_int (fmul (of_int (Z.of_nat (length (split content)))) (decimal 13 1))
               (max_input_tokens c) = false /\
  (block_pii c = true ->
   forall p, p ∈ pii_patterns c -> re_search p content = false) /\
  (scan_for_secrets c = true ->
   forall p, p ∈ secret_patterns c -> re_search p content = false) /\
  (keyword_scan c = true ->
   forall kw, kw ∈ toxic_keywords -> contains kw (lower content) = false).
Proof.
  rewrite validate_input_verdict.
  rewrite !andb_true_iff, !negb_true_iff, Z.ltb_ge, <- !existsb_false_iff.
  destruct (block_pii c), (scan_for_secrets c), (keyword_scan c); cbn [andb];
    intuition congruence.
Qed.

(** X14. The keyword check of [validate_input] is a substring match that
    ignores letter case, and it runs as soon as one of the four content
    flags is set: a keyword violation is reported exactly when some flag
    among [block_toxic], [block_hate], [block_violence] and [block_sexual]
    is set and one of the five listed keywords occurs somewhere inside the
    lower-cased content. *)
Theorem harmful_keyword_reported_iff (re_search : string -> string -> bool)
    (c : ContentGuardrails) (content content_type : string) :
  (exists kw,
     PotentiallyHarmfulContent kw ∈ (validate_input re_search c content content_type).2)
  <->
  keyword_scan c = true /\
  exists kw a b, kw ∈ toxic_keywords /\ lower content = a +:+ kw +:+ b.
Proof.
  rewrite validate_input_run. cbv zeta. cbn [snd].
  pose proof (find_first_match (fun kw => contains kw (lower content)) toxic_keywords)
    as Hf.
  split.
  - intros (kw & H). rewrite !elem_of_app in H.
    destruct H as [H|[H|[H|[H|H]]]].
    + destruct (_ <? _); [apply list_elem_of_singleton in H; discriminate H
                         |now apply elem_of_nil in H].
    + destruct (float_gt_int _ _); [apply list_elem_of_singleton in H; discriminate H
                                   |now apply elem_of_nil in H].
    + destruct (_ && _); [apply list_elem_of_singleton in H; discriminate H
                         |now apply elem_of_nil in H].
    + destruct (_ && _); [apply list_elem_of_singleton in H; discriminate H
                         |now apply elem_of_nil in H].
    + destruct (keyword_scan c); [|now apply elem_of_nil in H].
      split; [reflexivity|].
      destruct (find _ toxic_keywords) as [kw'|]; [|now apply elem_of_nil in H].
      destruct Hf as (Hin & Hc). apply contains_spec in Hc as (a & b & Hc).
      exists kw', a, b. split; assumption.
  - intros (Hs & kw & a & b & Hin & Heq). rewrite Hs.
    destruct (find _ toxic_keywords) as [kw'|].
    + exists kw'. rewrite !elem_of_app. do 4 right. apply list_elem_of_here.
    + specialize (Hf kw Hin). cbv beta in Hf.
      assert (Hc : contains kw (lower content) = true)
        by (apply contains_spec; eauto).
      rewrite Hc in Hf. discriminate Hf.
Qed.

(** The word "Skills" is refused as harmful content because it contains
    "kill", with only one of the four flags set. *)
Example harmful_keyword_inside_word :
  let c := {| block_pii := false; block_toxic := false; block_hate := false;
              block_violence := false; block_sexual := true;
              max_input_tokens := 8192; max_output_tokens := 8192;
              max_request_size := 1048576; scan_for_secrets := false;
              pii_patterns := []; secret_patterns := [] |} in
  validate_input (fun _ _ => false) c "My Skills" "text/plain" =
    (false, [PotentiallyHarmfulContent "kill"]).
Proof. reflexivity. Qed.

(** The verdict of [validate_output], check by check. *)
Lemma validate_output_verdict (re_search : string -> string -> bool)
    (c : ContentGuardrails) (content : string) :
  (validate_output re_search c content).1 =
    negb (float_gt_int (fmul (of_int (Z.of_nat (length (split content))))
                             (decimal 13 1)) (max_output_tokens c))
    && negb (scan_for_secrets c
             && existsb (fun p => re_search p content) (secret_patterns c)).
Proof.
  unfold validate_output. cbv zeta. cbn [fst].
  destruct (float_gt_int _ (max_output_tokens c)); destruct (scan_for_secrets c && _);
    reflexivity.
Qed.

(** X15. [validate_output] accepts an output exactly when its word count
    times 1.3 does not exceed [max_output_tokens] and, if [scan_for_secrets]
    is set, no secret pattern matches. Neither the PII patterns, nor the
    keywords, nor the size limit are applied to an output, whatever flags
    are set. *)
Theorem validate_output_accepts_iff (re_search : string -> string -> bool)
    (c : ContentGuardrails) (content : string) :
  (validate_output re_search c content).1 = true <->
  float_gt_int (fmul (of_int (Z.of_nat (length (split content)))) (decimal 13 1))
               (max_output_tokens c) = false /\
  (scan_for_secrets c = true ->
   forall p, p ∈ secret_patterns c -> re_search p content = false).
Proof.
  rewrite validate_output_verdict.
  rewrite !andb_true_iff, !negb_true_iff, <- !existsb_false_iff.
  destruct (scan_for_secrets c); cbn [andb]; intuition congruence.
Qed.

(** A text with a keyword and an e-mail address is refused as an input and
    passes as an output, every flag being set. *)
Example validate_output_skips_content_checks :
  let re_search (p s : string) :=
    existsb (String.eqb p) (pii_patterns ContentGuardrails_init) && contains "@" s in
  validate_input re_search ContentGuardrails_init "kill bob@example.com" "text/plain" =
    (false, [PotentialPII; PotentiallyHarmfulContent "kill"]) /\
  validate_output re_search ContentGuardrails_init "kill bob@example.com" = (true, []).
Proof. split; reflexivity. Qed.

Lemma float_gt_int_limit_mono (f : float) (n n' : Z) :
  n <= n' -> float_gt_int f n = false -> float_gt_int f n' = false.
Proof.
  intros Hn. destruct f as [s|s| |s m e]; cbn [float_gt_int]; try tauto.
  - rewrite !Z.ltb_ge. lia.
  - set (v := if s then Z.neg m else Z.pos m).
    destruct (0 <=? e); rewrite !Z.ltb_ge; intros H; [lia|].
    assert (0 <= 2 ^ (- e)) by (apply Z.pow_nonneg; lia). nia.
Qed.

(** X16. Whatever [validate_input] accepts, [validate_output] accepts as
    well, provided the output token limit is not below the input one: the
    checks on outputs are a subset of the checks on inputs. *)
Theorem validate_output_accepts_valid_input (re_search : string -> string -> bool)
    (c : ContentGuardrails) (content content_type : string) :
  max_input_tokens c <= max_output_tokens c ->
  (validate_input re_search c content content_type).1 = true ->
  (validate_output re_search c content).1 = true.
Proof.
  intros Hmax. rewrite validate_input_verdict, validate_output_verdict.
  rewrite !andb_true_iff, !negb_true_iff.
  intros ((((_ & Ht) & _) & Hs) & _). split; [|exact Hs].
  exact (float_gt_int_limit_mono _ _ _ Hmax Ht).
Qed.

Lemma validate_output_accepts_valid_input_witness :
  max_input_tokens ContentGuardrails_init <= max_output_tokens ContentGuardrails_init /\
  (validate_input (fun _ _ => false) ContentGuardrails_init "hello world" "text/plain").1
    = true /\
  (validate_output (fun _ _ => false) ContentGuardrails_init "hello world").1 = true.
Proof.
  split; [vm_compute; discriminate|]. split; [reflexivity|].
  apply (validate_output_accepts_valid_input _ _ _ "text/plain");
    [vm_compute; discriminate|reflexivity].
Defined.

Lemma validate_input_verdict_of_list (re_search : string -> string -> bool)
    (c : ContentGuardrails) (content content_type : string) :
  (validate_input re_search c content content_type).1 =
    bool_decide (length (validate_input re_search c content content_type).2 = 0%nat).
Proof. reflexivity. Qed.

(** X17. An enabled manager allows a request exactly when the daily
    emergency flag is not set, the monthly emergency flag is not set and
    [validate_input] accepts the content; the model, the user and every
    other budget flag, the weekly emergency included, play no part. The
    request is allowed exactly when the list of violations is empty, and the
    check changes nothing and logs nothing. *)
Theorem pre_request_check_allows_iff (re_search : string -> string -> bool)
    (g : GuardrailsManager) (content mdl uid : string) (now : datetime) :
  enabled g = true ->
  exists allowed violations,
    pre_request_check re_search content mdl uid now g =
      (g, [], inr (allowed, violations)) /\
    (allowed = true <->
     budgetStatus (cost_tracker g) now !! "daily_emergency" <> Some true /\
     budgetStatus (cost_tracker g) now !! "monthly_emergency" <> Some true /\
     (validate_input re_search (content_guardrails g) content "text/plain").1 = true) /\
    (allowed = true <-> violations = []).
Proof.
  intros He. rewrite pre_request_check_enabled by exact He. cbv zeta.
  pose proof (validate_input_verdict_of_list re_search (content_guardrails g) content
                "text/plain") as HV.
  destruct (validate_input re_search (content_guardrails g) content "text/plain")
    as [valid viols].
  cbn [fst snd] in *. subst valid.
  eexists _, _. split; [reflexivity|].
  rewrite !bool_decide_eq_true.
  destruct (budgetStatus (cost_tracker g) now !! "daily_emergency") as [[]|];
    destruct (budgetStatus (cost_tracker g) now !! "monthly_emergency") as [[]|];
    destruct viols as [|v viols];
    cbn [truthy default orb negb length app];
    try rewrite (bool_decide_true (0%nat = 0%nat)) by reflexivity;
    try rewrite (bool_decide_false (S (length viols) = 0%nat)) by discriminate;
    cbn [negb length app];
    (split; split; intros H; try discriminate H; try reflexivity;
     try (repeat split; congruence); try (destruct H as (H1 & H2 & H3); congruence)).
Qed.

(** With the weekly ceiling far exceeded and nothing spent today or this
    month, the request is allowed. *)
Example weekly_emergency_does_not_block :
  let g := set_cost_tracker
             (set_weekly_costs {[ strftime "%Y-W%U" scenario_now := of_int 100000 ]}
                (CostTracker_init default_environ))
             (GuardrailsManager_init default_environ true) in
  budgetStatus (cost_tracker g) scenario_now !! "weekly_emergency" = Some true /\
  pre_request_check (fun _ _ => false) "hello world" "vertex-gemini-pro" "alice"
      scenario_now g = (g, [], inr (true, [])).
Proof. split; vm_compute; reflexivity. Qed.

Lemma pre_request_check_allows_iff_witness :
  let g := GuardrailsManager_init default_environ true in
  enabled g = true /\
  exists allowed violations,
    pre_request_check (fun _ _ => false) "hello world" "vertex-gemini-pro" "alice"
        scenario_now g = (g, [], inr (allowed, violations)) /\
    (allowed = true <->
     budgetStatus (cost_tracker g) scenario_now !! "daily_emergency" <> Some true /\
     budgetStatus (cost_tracker g) scenario_now !! "monthly_emergency" <> Some true /\
     (validate_input (fun _ _ => false) (content_guardrails g) "hello world"
        "text/plain").1 = true) /\
    (allowed = true <-> violations = []).
Proof.
  cbv zeta. split; [reflexivity|].
  apply pre_request_check_allows_iff. reflexivity.
Defined.

(** * More on binary64 rounding: signs, and sums that do not decrease *)

Lemma pack_sign (s : bool) (m3 e3 : Z) :
  0 <= m3 -> (if s then nonpos else nonneg) (pack s m3 e3).
Proof.
  intros Hm. unfold pack. destruct m3 as [|p|p]; [destruct s; exact I| |lia].
  destruct (_ <=? _); destruct s; exact I.
Qed.

(** Rounding a non-negative mantissa gives a result of the sign asked for. *)
Lemma round_sign (s : bool) (m e : Z) (l : location) :
  0 <= m -> (if s then nonpos else nonneg) (binary_round_aux prec emax s m e l).
Proof.
  intros Hm.
  destruct (binary_round_aux_bound s m e l
              (Z.max (fexp prec emax (Zdigits2 m + e + 1)) e))
    as (m3 & e3 & -> & H3 & _); [exact Hm|lia|lia|].
  now apply pack_sign.
Qed.

Lemma shift_value (m d : positive) : Zpos (Pos.iter xO m d) = Zpos m * 2 ^ Zpos d.
Proof.
  change (Pos.iter xO m d) with (shift_pos d m).
  rewrite shift_pos_correct. change (Z.pow_pos 2 d) with (2 ^ Zpos d). lia.
Qed.

(** [shl_align] lowers the exponent to the one asked for, if that is lower,
    and keeps the value. *)
Lemma shl_align_spec (mx : positive) (ex ex' : Z) :
  snd (shl_align mx ex ex') = Z.min ex ex' /\
  Zpos (fst (shl_align mx ex ex')) = Zpos mx * 2 ^ (ex - Z.min ex ex').
Proof.
  unfold shl_align. destruct (ex' - ex) as [|d|d] eqn:E; cbn [fst snd].
  - rewrite Z.min_l by lia. rewrite Z.sub_diag, Z.pow_0_r. lia.
  - rewrite Z.min_l by lia. rewrite Z.sub_diag, Z.pow_0_r. lia.
  - rewrite Z.min_r by lia. rewrite shift_value. split; [reflexivity|].
    f_equal. f_equal. lia.
Qed.

(** Digits of a shifted mantissa. *)
Lemma Zdigits2_shift (m k : Z) : 0 < m -> 0 <= k -> Zdigits2 (m * 2 ^ k) = Zdigits2 m + k.
Proof.
  intros Hm Hk.
  assert (Hp : 0 < 2 ^ k) by (apply Z.pow_pos_nonneg; lia).
  destruct (Zdigits2_bounds m Hm) as (Hd & Hlo & Hhi).
  destruct (Zdigits2_bounds (m * 2 ^ k)) as (Hd' & Hlo' & Hhi'); [nia|].
  assert (H1 : Zdigits2 (m * 2 ^ k) <= Zdigits2 m + k).
  { apply Zdigits2_le; [lia|]. split; [nia|]. rewrite Z.pow_add_r by lia. nia. }
  assert (H2 : 2 ^ (Zdigits2 m - 1 + k) < 2 ^ Zdigits2 (m * 2 ^ k)).
  { rewrite Z.pow_add_r by lia. nia. }
  apply Z.pow_lt_mono_r_iff in H2; lia.
Qed.

(** [binary_round] rounds the value it is given: it is [binary_round_aux] on
    an aligned mantissa of the same value, which needs no shift to the left. *)
Lemma binary_round_aligned (s : bool) (m : positive) (e : Z) :
  exists (mz : positive) (ez : Z),
    binary_round prec emax s m e = binary_round_aux prec emax s (Zpos mz) ez loc_Exact /\
    ez <= e /\ Zpos mz = Zpos m * 2 ^ (e - ez) /\
    ez <= fexp prec emax (Zdigits2 (Zpos mz) + ez).
Proof.
  unfold binary_round.
  pose proof (shl_align_spec m e (fexp prec emax (Zpos (digits2_pos m) + e))) as (H1 & H2).
  destruct (shl_align m e (fexp prec emax (Zpos (digits2_pos m) + e))) as [mz ez].
  cbn [fst snd] in H1, H2. exists mz, ez. split; [reflexivity|].
  split; [lia|]. split; [rewrite H2, H1; reflexivity|].
  rewrite H2. rewrite Zdigits2_shift by lia.
  change (Zdigits2 (Zpos m)) with (Zpos (digits2_pos m)).
  replace (Z.pos (digits2_pos m) + (e - Z.min e (fexp prec emax (Z.pos (digits2_pos m) + e))) + ez)
    with (Z.pos (digits2_pos m) + e) by lia.
  lia.
Qed.

(** Rounding a canonical float returns it. *)
Lemma binary_round_aux_canonical (s : bool) (m : positive) (e : Z) :
  bounded prec emax m e = true ->
  binary_round_aux prec emax s (Zpos m) e loc_Exact = S754_finite s m e.
Proof.
  intros Hb. pose proof (bounded_canonical m e Hb) as (Hd & He & Hc).
  assert (HE : fexp prec emax (Zdigits2 (Zpos m) + e) = e).
  { revert Hd He Hc. unfold_fexp. pose proof (Zdigits2_bounds (Zpos m)). lia. }
  destruct (binary_round_aux_exact s m e) as (m2 & HR & Hm2 & _ & ->); [lia|].
  rewrite HE in *. rewrite Z.sub_diag in HR.
  destruct HR as (HR & _). rewrite Z.pow_0_r in HR.
  assert (m2 = Zpos m) by lia. subst m2.
  destruct (Zdigits2_bounds (Zpos m)) as (_ & _ & Hhi); [lia|].
  assert (Zpos m < 2 ^ 53).
  { eapply Z.lt_le_trans; [exact Hhi|]. apply Z.pow_le_mono_r; lia. }
  unfold renorm. destruct (Z.eqb_spec (Zpos m) (2 ^ 53)); [lia|].
  cbn [fst snd pack]. destruct (Z.leb_spec e (emax - prec)); [reflexivity|].
  unfold emax, prec in *. lia.
Qed.

Lemma SFleb_refl_finite (s : bool) (m : positive) (e : Z) :
  SFleb (S754_finite s m e) (S754_finite s m e) = true.
Proof.
  unfold SFleb, SFcompare. rewrite pos_compare_cont_Eq, Z.compare_refl.
  destruct s; rewrite Z.compare_refl; reflexivity.
Qed.

(** Adding a non-negative float never gives less: [x <= x + c], after
    rounding, for every canonical non-negative [x]. *)
Lemma fadd_nonneg_ge (x c : float) :
  valid x = true -> nonneg x -> nonneg c -> fle x (fadd x c) = true.
Proof.
  intros Hv Hx Hc. unfold fle, fadd.
  destruct x as [sx|[]| |[] m e]; try contradiction;
    destruct c as [sc|[]| |[] mc ec]; try contradiction;
    try reflexivity; try (destruct sx, sc; reflexivity);
    try apply SFleb_refl_finite.
  unfold valid in Hv. cbn [valid_binary] in Hv.
  cbn [SFadd cond_Zopp].
  pose proof (shl_align_spec m e (Z.min e ec)) as (_ & Hm').
  pose proof (shl_align_spec mc ec (Z.min e ec)) as (_ & Hc').
  set (mx' := fst (shl_align m e (Z.min e ec))) in *.
  set (mc' := fst (shl_align mc ec (Z.min e ec))) in *.
  change (Z.pos mx' + Z.pos mc') with (Z.pos (mx' + mc')).
  cbn [binary_normalize]. clearbody mx' mc'.
  destruct (binary_round_aligned false (mx' + mc') (Z.min e ec))
    as (mz & ez & -> & Hez & Hmz & Hfz).
  rewrite <- (binary_round_aux_canonical false m e Hv).
  apply round_exact_mono.
  - pose proof (bounded_canonical m e Hv) as (Hd & He & Hcn).
    pose proof (Zdigits2_bounds (Zpos m)). revert Hd He Hcn. unfold_fexp. lia.
  - exact Hfz.
  - assert (Hle : ez <= e) by (clear - Hez; lia).
    assert (Hmin : Z.min e (Z.min e ec) = Z.min e ec) by (clear; lia).
    rewrite Z.min_r by exact Hle. rewrite Z.sub_diag, Z.pow_0_r, Z.mul_1_r.
    rewrite Hmz, Pos2Z.inj_add, Hm', Hmin.
    replace (e - ez) with ((e - Z.min e ec) + (Z.min e ec - ez)) by (clear; lia).
    rewrite Z.pow_add_r by (clear - Hez; lia).
    assert (0 < 2 ^ (Z.min e ec - ez)) by (apply Z.pow_pos_nonneg; clear - Hez; lia).
    assert (0 < 2 ^ (e - Z.min e ec)) by (apply Z.pow_pos_nonneg; clear; lia).
    clear - H H0. nia.
Qed.

(** The sum of two non-negative floats is non-negative, and not a NaN. *)
Lemma fadd_nonneg (x y : float) : nonneg x -> nonneg y -> nonneg (fadd x y).
Proof.
  intros Hx Hy. unfold fadd.
  destruct x as [sx|[]| |[] mx ex]; try contradiction;
    destruct y as [sy|[]| |[] my ey]; try contradiction;
    try exact I; try (destruct sx, sy; exact I).
  cbn [SFadd cond_Zopp].
  change (Z.pos ?a + Z.pos ?b) with (Z.pos (a + b)). cbn [binary_normalize].
  destruct (binary_round_aligned false
              (fst (shl_align mx ex (Z.min ex ey)) + fst (shl_align my ey (Z.min ex ey)))
              (Z.min ex ey)) as (mz & ez & -> & _).
  apply (round_sign false). lia.
Qed.

(** The product of a finite float with a non-negative finite one has the
    sign of the first, or is a zero. *)
Lemma fmul_sign (x y : float) :
  is_finite x = true -> is_finite y = true -> nonneg y ->
  (nonneg x -> nonneg (fmul x y)) /\ (nonpos x -> nonpos (fmul x y)).
Proof.
  intros Fx Fy Hy. unfold fmul.
  destruct x as [sx|?| |sx mx ex]; try discriminate;
    destruct y as [sy|?| |[] my ey]; try discriminate; try contradiction;
    cbn [SFmul]; try (split; intros; exact I).
  destruct sx; cbn [xorb]; split; intros H; try contradiction.
  - apply (round_sign true). lia.
  - apply (round_sign false). lia.
Qed.

(** The quotient of two non-negative integers is not negative. *)
Lemma per_1000_nonneg (a : Z) :
  0 <= a < 2 ^ 1000 -> nonneg (per_1000 a) /\ is_finite (per_1000 a) = true.
Proof.
  intros Ha. unfold per_1000, fdiv. destruct a as [|pa|pa]; [split; reflexivity| |lia].
  cbn [int_to_sf]. split.
  - cbn [SFdiv]. unfold SFdiv_core_binary.
    set (m' := match _ with 0 => Zpos pa | Zpos _ => _ | Zneg _ => 0 end).
    assert (Hm' : 0 <= m').
    { subst m'. destruct (_ - _ - _) as [|p|p]; [lia| |lia].
      rewrite Z.shiftl_mul_pow2 by lia.
      assert (0 < 2 ^ Zpos p) by (apply Z.pow_pos_nonneg; lia). nia. }
    destruct (Z.div_eucl m' 1000) as [q r] eqn:Eqr.
    assert (Hq : q = m' / 1000) by (unfold Z.div; rewrite Eqr; reflexivity).
    apply (round_sign false). rewrite Hq. apply Z.div_pos; lia.
  - pose proof (SFdiv_int_finite false pa 1000) as H.
    destruct (SFdiv prec emax _ _); try reflexivity; exfalso; apply H; lia.
Qed.

(** * Canonical results of rounding *)

(** A mantissa of at most 53 bits at the exponent of its format, or one that
    rounding carried to [2^53], packs to a canonical float. *)
Lemma pack_renorm_valid (s : bool) (m2 E : Z) :
  0 <= m2 <= 2 ^ 53 -> -1074 <= E -> (-1074 < E -> 2 ^ 52 <= m2) ->
  valid (pack s (fst (renorm m2 E)) (snd (renorm m2 E))) = true.
Proof.
  intros Hm HE Hn. unfold renorm.
  destruct (Z.eqb_spec m2 (2 ^ 53)) as [->|Hne]; cbn [fst snd].
  - change (2 ^ 52) with 4503599627370496. unfold pack.
    destruct (Z.leb_spec (E + 1) (emax - prec)) as [Hle|]; [|reflexivity].
    unfold valid, valid_binary, bounded, canonical_mantissa.
    apply andb_true_iff. split; [|now apply Z.leb_le].
    apply Z.eqb_eq. change (Zpos (digits2_pos 4503599627370496)) with 53.
    unfold_fexp. lia.
  - unfold pack. destruct m2 as [|p|p]; [reflexivity| |lia].
    destruct (Z.leb_spec E (emax - prec)) as [Hle|]; [|reflexivity].
    unfold valid, valid_binary, bounded, canonical_mantissa.
    apply andb_true_iff. split; [|now apply Z.leb_le].
    apply Z.eqb_eq.
    destruct (Zdigits2_bounds (Zpos p)) as (Hd1 & Hlo & Hhi); [lia|].
    assert (Hd : Zdigits2 (Zpos p) <= 53) by (apply Zdigits2_le; lia).
    change (Zpos (digits2_pos p)) with (Zdigits2 (Zpos p)).
    destruct (Z.eq_dec E (-1074)) as [->|HE'].
    + unfold_fexp. lia.
    + assert (H52 : 2 ^ 52 <= Zpos p) by (apply Hn; lia).
      assert (Hd' : 53 <= Zdigits2 (Zpos p)).
      { destruct (Z_lt_le_dec (Zdigits2 (Zpos p)) 53) as [Hlt|]; [exfalso|lia].
        assert (2 ^ Zdigits2 (Zpos p) <= 2 ^ 52) by (apply Z.pow_le_mono_r; lia).
        lia. }
      unfold_fexp. lia.
Qed.

(** Exact rounding returns a canonical float. *)
Lemma binary_round_aux_exact_valid (s : bool) (m : positive) (e : Z) :
  e <= fexp prec emax (Zdigits2 (Zpos m) + e) ->
  valid (binary_round_aux prec emax s (Zpos m) e loc_Exact) = true.
Proof.
  intros He. destruct (binary_round_aux_exact s m e He) as (m2 & _ & Hm2 & Hn & ->).
  apply pack_renorm_valid; [exact Hm2| |exact Hn].
  unfold_fexp. lia.
Qed.

Lemma of_int_pos (p : positive) :
  exists (mz : positive) (ez : Z),
    of_int (Zpos p) = binary_round_aux prec emax false (Zpos mz) ez loc_Exact /\
    ez <= 0 /\ Zpos mz = Zpos p * 2 ^ (- ez) /\
    ez <= fexp prec emax (Zdigits2 (Zpos mz) + ez).
Proof.
  unfold of_int. cbn [binary_normalize].
  destruct (binary_round_aligned false p 0) as (mz & ez & E & H1 & H2 & H3).
  exists mz, ez. rewrite Z.sub_0_l in H2. auto.
Qed.

(** [float(n)] is canonical and not negative for [n >= 0], and grows with
    [n]. *)
Lemma of_int_valid (n : Z) : 0 <= n -> valid (of_int n) = true /\ nonneg (of_int n).
Proof.
  intros Hn. destruct n as [|p|p]; [split; [reflexivity|exact I]| |lia].
  destruct (of_int_pos p) as (mz & ez & -> & _ & _ & He). split.
  - now apply binary_round_aux_exact_valid.
  - apply (round_sign false). lia.
Qed.

Lemma of_int_mono (n n' : Z) : 0 <= n <= n' -> fle (of_int n) (of_int n') = true.
Proof.
  intros Hn. unfold fle.
  destruct n as [|p|p]; [| |lia].
  - apply nonpos_le_nonneg; [exact I|]. apply of_int_valid. lia.
  - destruct n' as [|p'|p']; [lia| |lia].
    destruct (of_int_pos p) as (mz & ez & -> & Hz & Hv & He).
    destruct (of_int_pos p') as (mz' & ez' & -> & Hz' & Hv' & He').
    apply round_exact_mono; [exact He|exact He'|].
    rewrite Hv, Hv'. rewrite <- !Z.mul_assoc, <- !Z.pow_add_r by lia.
    replace (- ez + (ez - Z.min ez ez')) with (- Z.min ez ez') by lia.
    replace (- ez' + (ez' - Z.min ez ez')) with (- Z.min ez ez') by lia.
    apply Z.mul_le_mono_nonneg_r; [apply Z.pow_nonneg; lia|lia].
Qed.

Lemma fmul_comm (x y : float) : fmul x y = fmul y x.
Proof.
  unfold fmul.
  destruct x as [sx|sx| |sx mx ex], y as [sy|sy| |sy my ey]; cbn [SFmul];
    try reflexivity; try (rewrite (xorb_comm sx sy); reflexivity).
  now rewrite (xorb_comm sx sy), (Pos.mul_comm mx my), (Z.add_comm ex ey).
Qed.

(** The token estimate of [n] words. *)
Lemma estimate_mono (n n' : nat) :
  (n <= n')%nat ->
  fle (fmul (of_int (Z.of_nat n)) (decimal 13 1))
      (fmul (of_int (Z.of_nat n')) (decimal 13 1)) = true.
Proof.
  intros Hn. rewrite !(fmul_comm _ (decimal 13 1)).
  change (decimal 13 1) with (S754_finite false 5854679515581645 (-52)).
  apply fmul_le_mono_l; [reflexivity| | |].
  - apply of_int_valid. lia.
  - apply of_int_valid. lia.
  - apply of_int_mono. lia.
Qed.

Lemma estimate_valid (n : nat) :
  valid (fmul (of_int (Z.of_nat n)) (decimal 13 1)) = true /\
  nonneg (fmul (of_int (Z.of_nat n)) (decimal 13 1)).
Proof.
  destruct (of_int_valid (Z.of_nat n)) as (Hv & Hs); [lia|].
  change (decimal 13 1) with (S754_finite false 5854679515581645 (-52)).
  destruct (of_int (Z.of_nat n)) as [?|[]| |[] m e]; try contradiction;
    unfold fmul; cbn [SFmul xorb]; try (split; [reflexivity|exact I]).
  split.
  - apply binary_round_aux_exact_valid, product_shift; [exact Hv|reflexivity].
  - apply (round_sign false). lia.
Qed.

(** A float above an integer stays above it when it grows. *)
Lemma float_gt_int_mono (f f' : float) (n : Z) :
  valid f = true -> valid f' = true -> nonneg f ->
  fle f f' = true -> float_gt_int f n = true -> float_gt_int f' n = true.
Proof.
  intros Hv Hv' Hs Hle.
  destruct f as [s|[]| |[] m e]; try contradiction;
    destruct f' as [s'|[]| |[] m' e']; try discriminate Hle; try (intros; reflexivity);
    cbn [float_gt_int]; try tauto.
  - (* zero, positive finite *)
    rewrite Z.ltb_lt. intros H.
    destruct (Z.leb_spec 0 e'); apply Z.ltb_lt.
    + assert (0 < 2 ^ e') by (apply Z.pow_pos_nonneg; lia). nia.
    + assert (0 < 2 ^ (- e')) by (apply Z.pow_pos_nonneg; lia). nia.
  - (* two positive finite floats *)
    unfold valid in Hv, Hv'. cbn [valid_binary] in Hv, Hv'.
    pose proof (canonical_value_le 1 m m' 0 e e' Hv Hv' (finite_le_pos _ _ _ _ Hle)) as Hval.
    assert (Hee : e <= e') by (apply finite_le_pos in Hle; lia).
    rewrite !Pos.mul_1_l, !Z.add_0_l in Hval.
    rewrite Z.min_l in Hval by exact Hee.
    rewrite Z.sub_diag, Z.pow_0_r, Z.mul_1_r in Hval.
    destruct (Z.leb_spec 0 e) as [L|L]; destruct (Z.leb_spec 0 e') as [L'|L']; try lia;
      rewrite !Z.ltb_lt; intros H.
    + replace e' with ((e' - e) + e) by lia. rewrite Z.pow_add_r by lia.
      assert (0 < 2 ^ e) by (apply Z.pow_pos_nonneg; lia).
      assert (0 < 2 ^ (e' - e)) by (apply Z.pow_pos_nonneg; lia). nia.
    + assert (Hp : 2 ^ (e' - e) = 2 ^ e' * 2 ^ (- e))
        by (rewrite <- Z.pow_add_r by lia; f_equal; lia).
      rewrite Hp in Hval.
      assert (0 < 2 ^ e') by (apply Z.pow_pos_nonneg; lia).
      assert (0 < 2 ^ (- e)) by (apply Z.pow_pos_nonneg; lia). nia.
    + assert (Hp : 2 ^ (- e) = 2 ^ (- e') * 2 ^ (e' - e))
        by (rewrite <- Z.pow_add_r by lia; f_equal; lia).
      rewrite Hp in H.
      assert (0 < 2 ^ (- e')) by (apply Z.pow_pos_nonneg; lia).
      assert (0 < 2 ^ (e' - e)) by (apply Z.pow_pos_nonneg; lia). nia.
Qed.

(** * Canonical results: every total the tracker holds is a float *)

(** Rounding a positive mantissa that needs no shift to the left returns a
    canonical float, whatever was lost before. *)
Lemma binary_round_aux_valid (s : bool) (m e : Z) (l : location) :
  0 < m -> e <= fexp prec emax (Zdigits2 m + e) ->
  valid (binary_round_aux prec emax s m e l) = true.
Proof.
  intros Hm He.
  destruct (Zdigits2_bounds m Hm) as (Hd1 & Hlo & Hhi).
  set (d := Zdigits2 m) in *. set (E := fexp prec emax (d + e)) in *.
  assert (HEmin : -1074 <= E) by (subst E; unfold_fexp; lia).
  assert (Hdn : d - (E - e) <= 53) by (subst E; unfold_fexp; lia).
  destruct (shr_general (shr_record_of_loc m l) e (E - e)) as (mrs1 & Hs1 & Hm1);
    [rewrite shr_m_record_of_loc; lia|].
  rewrite shr_m_record_of_loc in Hm1.
  rewrite Z.max_r in Hs1, Hm1 by lia.
  replace (e + (E - e)) with E in Hs1 by lia.
  set (m2 := round_nearest_even (shr_m mrs1) (loc_of_shr_record mrs1)).
  pose proof (round_nearest_even_bounds (shr_m mrs1) (loc_of_shr_record mrs1)) as Hr.
  fold m2 in Hr.
  assert (Hp : 0 < 2 ^ (E - e)) by (apply Z.pow_pos_nonneg; lia).
  assert (H0 : 0 <= shr_m mrs1) by (rewrite Hm1; apply Z.div_pos; lia).
  assert (H53 : shr_m mrs1 < 2 ^ 53).
  { rewrite Hm1. apply Z.div_lt_upper_bound; [lia|].
    rewrite <- Z.pow_add_r by lia.
    eapply Z.lt_le_trans; [exact Hhi|]. apply Z.pow_le_mono_r; lia. }
  assert (H52 : -1074 < E -> 2 ^ 52 <= shr_m mrs1).
  { intros Hn. assert (HEq : E - e = d - 53) by (subst E; unfold_fexp; lia).
    rewrite Hm1. apply Z.div_le_lower_bound; [lia|].
    rewrite HEq, <- Z.pow_add_r by lia.
    replace (d - 53 + 52) with (d - 1) by lia. exact Hlo. }
  unfold binary_round_aux.
  change (shr_fexp prec emax m e l) with (shr (shr_record_of_loc m l) e (E - e)).
  rewrite Hs1. fold m2.
  destruct (shr_fexp_renorm m2 E) as (mrs2 & Hs2 & Hm3); [lia|lia|].
  rewrite Hs2, Hm3.
  apply (pack_renorm_valid s m2 E); [lia|lia|].
  intros Hn. specialize (H52 Hn). lia.
Qed.

(** The thousandth part of a token count is a canonical float. *)
Lemma per_1000_valid (a : Z) : 0 <= a -> valid (per_1000 a) = true.
Proof.
  intros Ha. unfold per_1000, fdiv. destruct a as [|pa|pa]; [reflexivity| |lia].
  cbn [int_to_sf SFdiv xorb]. unfold SFdiv_core_binary.
  change (Zdigits2 1000) with 10.
  destruct (Zdigits2_bounds (Zpos pa)) as (Hd1 & Hlo & Hhi); [lia|].
  set (d1 := Zdigits2 (Zpos pa)) in *.
  set (e' := Z.min (fexp prec emax (d1 + 0 - (10 + 0))) (0 - 0)).
  assert (He' : -1074 <= e' <= 0) by (subst e'; unfold_fexp; lia).
  assert (He'' : e' = -1074 \/ e' <= d1 - 63) by (subst e'; unfold_fexp; lia).
  set (m' := match 0 - 0 - e' with
             | 0 => Zpos pa | Zpos _ => Z.shiftl (Zpos pa) (0 - 0 - e') | Zneg _ => 0 end).
  assert (Hm' : m' = Zpos pa * 2 ^ (- e')).
  { subst m'. replace (0 - 0 - e') with (- e') by lia.
    destruct (- e') as [|p|p] eqn:E; [rewrite Z.pow_0_r; lia| |lia].
    rewrite Z.shiftl_mul_pow2 by lia. reflexivity. }
  clearbody m' e'.
  destruct (Z.div_eucl m' 1000) as [q r] eqn:Eqr.
  assert (Hq : q = m' / 1000) by (unfold Z.div; rewrite Eqr; reflexivity).
  assert (Hp : 0 < 2 ^ (- e')) by (apply Z.pow_pos_nonneg; lia).
  (* a lower bound of the quotient *)
  assert (Hk : 0 <= d1 - 1 - e' - 10).
  { destruct He'' as [->|]; lia. }
  assert (Hml : 2 ^ (d1 - 1 - e' - 10) * 1024 <= m').
  { rewrite Hm'. change 1024 with (2 ^ 10). rewrite <- Z.pow_add_r by lia.
    replace (d1 - 1 - e' - 10 + 10) with ((d1 - 1) + - e') by lia.
    rewrite Z.pow_add_r by lia. nia. }
  assert (Hpk : 0 < 2 ^ (d1 - 1 - e' - 10)) by (apply Z.pow_pos_nonneg; lia).
  assert (Hql : 2 ^ (d1 - 1 - e' - 10) <= q).
  { rewrite Hq. apply Z.div_le_lower_bound; [lia|]. nia. }
  assert (Hqpos : 0 < q) by lia.
  destruct (Zdigits2_bounds q Hqpos) as (_ & _ & Hqhi).
  assert (Hdq : d1 - e' - 10 <= Zdigits2 q).
  { destruct (Z_lt_le_dec (Zdigits2 q) (d1 - e' - 10)) as [Hlt|]; [exfalso|lia].
    assert (2 ^ Zdigits2 q <= 2 ^ (d1 - 1 - e' - 10))
      by (apply Z.pow_le_mono_r; lia).
    lia. }
  apply binary_round_aux_valid; [exact Hqpos|].
  revert Hdq He' He''. unfold_fexp. lia.
Qed.

Lemma fmul_valid (x y : float) :
  valid x = true -> valid y = true -> valid (fmul x y) = true.
Proof.
  intros Hx Hy. unfold fmul.
  destruct x as [sx|sx| |sx mx ex], y as [sy|sy| |sy my ey]; cbn [SFmul];
    try reflexivity.
  apply binary_round_aux_exact_valid, product_shift; assumption.
Qed.

Lemma binary_normalize_valid (z e : Z) (b : bool) :
  valid (binary_normalize prec emax z e b) = true.
Proof.
  destruct z as [|p|p]; cbn [binary_normalize]; [reflexivity| |].
  - destruct (binary_round_aligned false p e) as (mz & ez & -> & _ & _ & H).
    now apply binary_round_aux_exact_valid.
  - destruct (binary_round_aligned true p e) as (mz & ez & -> & _ & _ & H).
    now apply binary_round_aux_exact_valid.
Qed.

Lemma fadd_valid (x y : float) :
  valid x = true -> valid y = true -> valid (fadd x y) = true.
Proof.
  intros Hx Hy. unfold fadd.
  destruct x as [sx|sx| |sx mx ex], y as [sy|sy| |sy my ey]; cbn [SFadd];
    try reflexivity; try assumption;
    try (destruct sx, sy; reflexivity).
  apply binary_normalize_valid.
Qed.

(** * Costs and totals that never go down *)

Lemma is_nonneg_spec (x : float) : is_nonneg x = true <-> nonneg x.
Proof. destruct x as [?|[]| |[] ? ?]; cbn; split; intros H; try discriminate; tauto. Qed.

Lemma nonneg_finite_spec (x : float) :
  nonneg_finite x = true -> nonneg x /\ is_finite x = true.
Proof.
  unfold nonneg_finite. rewrite andb_true_iff, is_nonneg_spec. tauto.
Qed.

(** The costs of non-negative token counts at non-negative finite prices. *)
Lemma cost_nonneg (t : CostTracker) (mdl : string) (itok otok : Z) :
  0 <= itok < 2 ^ 1000 -> 0 <= otok < 2 ^ 1000 ->
  nonneg_finite (price t mdl).1 = true -> nonneg_finite (price t mdl).2 = true ->
  is_nonneg (cost t mdl itok otok).1.1 = true /\
  is_nonneg (cost t mdl itok otok).1.2 = true /\
  is_nonneg (cost t mdl itok otok).2 = true.
Proof.
  intros Hi Ho Hpi Hpo. unfold cost.
  destruct (price t mdl) as [pi po]. cbn [fst snd] in *.
  apply nonneg_finite_spec in Hpi as (Ni & Fi), Hpo as (No & Fo).
  destruct (per_1000_nonneg itok Hi) as (Nqi & Fqi).
  destruct (per_1000_nonneg otok Ho) as (Nqo & Fqo).
  pose proof (proj1 (fmul_sign _ _ Fqi Fi Ni) Nqi) as Hic.
  pose proof (proj1 (fmul_sign _ _ Fqo Fo No) Nqo) as Hoc.
  rewrite !is_nonneg_spec. split; [exact Hic|]. split; [exact Hoc|].
  now apply fadd_nonneg.
Qed.

Lemma zero_tokens_cost (p : float) :
  is_finite p = true -> is_zero (fmul (per_1000 0) p) = true.
Proof. destruct p; intros H; try discriminate H; reflexivity. Qed.

(** X18. For token counts from 0 up to [2^1000] and prices that are finite
    and not negative, [calculate_cost] returns, and none of the three costs
    it returns is negative or a NaN; a count of zero tokens costs zero. *)
Theorem calculate_cost_never_negative (env : Environ) (t : CostTracker) (mdl : string)
    (itok otok : Z) :
  model_costs t = pricing env ->
  0 <= itok < 2 ^ 1000 -> 0 <= otok < 2 ^ 1000 ->
  nonneg_finite (price t mdl).1 = true -> nonneg_finite (price t mdl).2 = true ->
  exists ic oc tc,
    calculate_cost mdl itok otok t = (t, lookup_warning t mdl, inr (ic, oc, tc)) /\
    is_nonneg ic = true /\ is_nonneg oc = true /\ is_nonneg tc = true /\
    (itok = 0 -> is_zero ic = true) /\ (otok = 0 -> is_zero oc = true).
Proof.
  intros Hp Hi Ho Hpi Hpo.
  rewrite (calculate_cost_run env) by (try exact Hp; lia).
  pose proof (cost_nonneg t mdl itok otok Hi Ho Hpi Hpo) as (H1 & H2 & H3).
  assert (Hz : (itok = 0 -> is_zero (cost t mdl itok otok).1.1 = true) /\
               (otok = 0 -> is_zero (cost t mdl itok otok).1.2 = true)).
  { unfold cost. destruct (price t mdl) as [pi po]. cbn [fst snd] in *.
    apply nonneg_finite_spec in Hpi as (_ & Fi), Hpo as (_ & Fo).
    split; intros ->; now apply zero_tokens_cost. }
  destruct (cost t mdl itok otok) as [[ic oc] tc]. cbn [fst snd] in *.
  exists ic, oc, tc. tauto.
Qed.

Lemma calculate_cost_never_negative_witness :
  let t := CostTracker_init default_environ in
  model_costs t = pricing default_environ /\
  0 <= 1000 < 2 ^ 1000 /\ 0 <= 0 < 2 ^ 1000 /\
  nonneg_finite (price t "vertex-gemini-pro").1 = true /\
  nonneg_finite (price t "vertex-gemini-pro").2 = true /\
  exists ic oc tc,
    calculate_cost "vertex-gemini-pro" 1000 0 t =
      (t, lookup_warning t "vertex-gemini-pro", inr (ic, oc, tc)) /\
    is_nonneg ic = true /\ is_nonneg oc = true /\ is_nonneg tc = true /\
    (1000 = 0 -> is_zero ic = true) /\ (0 = 0 -> is_zero oc = true).
Proof.
  cbv zeta. split; [reflexivity|].
  split; [split; vm_compute; [discriminate|reflexivity]|].
  split; [split; vm_compute; [discriminate|reflexivity]|].
  split; [reflexivity|]. split; [reflexivity|].
  apply (calculate_cost_never_negative default_environ);
    [reflexivity
    |split; vm_compute; [discriminate|reflexivity]
    |split; vm_compute; [discriminate|reflexivity]
    |reflexivity|reflexivity].
Defined.

(** The totals of the period of an entry, once it is recorded. *)
Lemma recorded_spent (t : CostTracker) (e : CostEntry) :
  dict_get (daily_costs (recorded e t)) (strftime "%Y-%m-%d" (timestamp e)) fzero =
    fadd (dict_get (daily_costs t) (strftime "%Y-%m-%d" (timestamp e)) fzero)
         (total_cost e) /\
  dict_get (weekly_costs (recorded e t)) (strftime "%Y-W%U" (timestamp e)) fzero =
    fadd (dict_get (weekly_costs t) (strftime "%Y-W%U" (timestamp e)) fzero)
         (total_cost e) /\
  dict_get (monthly_costs (recorded e t)) (strftime "%Y-%m" (timestamp e)) fzero =
    fadd (dict_get (monthly_costs t) (strftime "%Y-%m" (timestamp e)) fzero)
         (total_cost e).
Proof.
  unfold recorded.
  cbn [daily_costs weekly_costs monthly_costs set_user_costs set_monthly_costs
       set_weekly_costs set_daily_costs set_costs].
  repeat split; unfold dict_get at 1; now rewrite defaultdict_iadd_lookup.
Qed.

Lemma flag_stays (limit old new : float) :
  fle old new = true -> fle limit old = true -> fle limit new = true.
Proof. intros H1 H2. exact (SFleb_trans _ _ _ H2 H1). Qed.

(** The nine flags, when the totals of the current periods do not decrease
    and the configuration is the same. *)
Lemma budget_status_mono (t t' : CostTracker) (now : datetime) (key : string) :
  daily_budget t' = daily_budget t -> weekly_budget t' = weekly_budget t ->
  monthly_budget t' = monthly_budget t ->
  warning_threshold t' = warning_threshold t ->
  critical_threshold t' = critical_threshold t ->
  emergency_threshold t' = emergency_threshold t ->
  fle (dict_get (daily_costs t) (strftime "%Y-%m-%d" now) fzero)
      (dict_get (daily_costs t') (strftime "%Y-%m-%d" now) fzero) = true ->
  fle (dict_get (weekly_costs t) (strftime "%Y-W%U" now) fzero)
      (dict_get (weekly_costs t') (strftime "%Y-W%U" now) fzero) = true ->
  fle (dict_get (monthly_costs t) (strftime "%Y-%m" now) fzero)
      (dict_get (monthly_costs t') (strftime "%Y-%m" now) fzero) = true ->
  budgetStatus t now !! key = Some true -> budgetStatus t' now !! key = Some true.
Proof.
  intros E1 E2 E3 E4 E5 E6.
  unfold budgetStatus, check_budget_limits, bind, get, ret. cbn [snd].
  rewrite E1, E2, E3, E4, E5, E6.
  generalize (dict_get (daily_costs t) (strftime "%Y-%m-%d" now) fzero)
             (dict_get (daily_costs t') (strftime "%Y-%m-%d" now) fzero)
             (dict_get (weekly_costs t) (strftime "%Y-W%U" now) fzero)
             (dict_get (weekly_costs t') (strftime "%Y-W%U" now) fzero)
             (dict_get (monthly_costs t) (strftime "%Y-%m" now) fzero)
             (dict_get (monthly_costs t') (strftime "%Y-%m" now) fzero).
  intros d d' w w' m m' Hd Hw Hm.
  repeat match goal with
  | |- <[?k := _]> _ !! key = _ -> _ =>
      destruct (decide (k = key)) as [<-|Hne];
      [rewrite !lookup_insert_eq; intros H; injection H as H; f_equal;
       first [exact (flag_stays _ _ _ Hd H) | exact (flag_stays _ _ _ Hw H)
             | exact (flag_stays _ _ _ Hm H)]
      |rewrite !(lookup_insert_ne _ _ _ _ Hne); clear Hne]
  end.
  rewrite lookup_empty. discriminate.
Qed.

(** What one recording does to the totals of its periods and to the flags,
    when those totals are canonical and not negative. *)
Lemma add_cost_entry_spend_mono (env : Environ) (t : CostTracker)
    (mdl uid : string) (itok otok : Z) (rid : string) (now : datetime) :
  model_costs t = pricing env ->
  0 <= itok < 2 ^ 1000 -> 0 <= otok < 2 ^ 1000 ->
  nonneg_finite (price t mdl).1 = true -> nonneg_finite (price t mdl).2 = true ->
  spend_ok (dict_get (daily_costs t) (strftime "%Y-%m-%d" now) fzero) = true ->
  spend_ok (dict_get (weekly_costs t) (strftime "%Y-W%U" now) fzero) = true ->
  spend_ok (dict_get (monthly_costs t) (strftime "%Y-%m" now) fzero) = true ->
  let t' := (add_cost_entry mdl uid itok otok rid now t).1.1 in
  fle (dict_get (daily_costs t) (strftime "%Y-%m-%d" now) fzero)
      (dict_get (daily_costs t') (strftime "%Y-%m-%d" now) fzero) = true /\
  fle (dict_get (weekly_costs t) (strftime "%Y-W%U" now) fzero)
      (dict_get (weekly_costs t') (strftime "%Y-W%U" now) fzero) = true /\
  fle (dict_get (monthly_costs t) (strftime "%Y-%m" now) fzero)
      (dict_get (monthly_costs t') (strftime "%Y-%m" now) fzero) = true /\
  forall key,
    budgetStatus t now !! key = Some true -> budgetStatus t' now !! key = Some true.
Proof.
  intros Hp Hi Ho Hpi Hpo Sd Sw Sm. cbv zeta.
  rewrite (add_cost_entry_run env) by (try exact Hp; lia). cbn [fst].
  pose proof (cost_nonneg t mdl itok otok Hi Ho Hpi Hpo) as (_ & _ & Htc).
  destruct (cost_record_fields t mdl uid itok otok rid now)
    as (Hts & _ & _ & _ & _ & _ & Hcost).
  set (e := cost_record t mdl uid itok otok rid now) in *.
  assert (Htc' : nonneg (total_cost e)).
  { apply is_nonneg_spec. rewrite <- Hcost in Htc. exact Htc. }
  pose proof (recorded_spent t e) as (Rd & Rw & Rm). rewrite Hts in Rd, Rw, Rm.
  unfold spend_ok in Sd, Sw, Sm.
  apply andb_true_iff in Sd as (Vd & Nd), Sw as (Vw & Nw), Sm as (Vm & Nm).
  apply is_nonneg_spec in Nd, Nw, Nm.
  assert (Hd := fadd_nonneg_ge _ _ Vd Nd Htc').
  assert (Hw := fadd_nonneg_ge _ _ Vw Nw Htc').
  assert (Hm := fadd_nonneg_ge _ _ Vm Nm Htc').
  rewrite <- Rd in Hd. rewrite <- Rw in Hw. rewrite <- Rm in Hm.
  split; [exact Hd|]. split; [exact Hw|]. split; [exact Hm|].
  intros key. now apply budget_status_mono.
Qed.

Lemma recorded_nonneg_reachable (env : Environ) (t : CostTracker) :
  recorded_nonneg env t -> reachable env t.
Proof. induction 1; now constructor. Qed.

(** The prices [calculate_cost] applies, the fallback included. *)
Lemma price_ok (env : Environ) (t : CostTracker) (mdl : string) :
  prices_ok env = true -> model_costs t = pricing env ->
  (valid (price t mdl).1 = true /\ nonneg_finite (price t mdl).1 = true) /\
  (valid (price t mdl).2 = true /\ nonneg_finite (price t mdl).2 = true).
Proof.
  unfold prices_ok. cbn [forallb]. rewrite !andb_true_iff.
  intros ((H1 & H1') & (H2 & H2') & (H3 & H3') & (H4 & H4') & _) Hp.
  unfold price. rewrite Hp. unfold pricing.
  destruct (decide (mdl = "vertex-gemini-pro")) as [->|Hne].
  - rewrite lookup_insert_eq. unfold dict_get.
    rewrite lookup_insert_eq, (lookup_insert_ne _ "input" "output") by discriminate.
    rewrite lookup_singleton_eq. cbn [default fst snd]. tauto.
  - rewrite lookup_insert_ne by congruence.
    destruct (decide (mdl = "vertex-gemini-flash")) as [->|Hne'].
    + rewrite lookup_singleton_eq. unfold dict_get.
      rewrite lookup_insert_eq, (lookup_insert_ne _ "input" "output") by discriminate.
      rewrite lookup_singleton_eq. cbn [default fst snd]. tauto.
    + rewrite lookup_singleton_ne by congruence. cbn [fst snd].
      repeat split; reflexivity.
Qed.

Lemma cost_total_ok (env : Environ) (t : CostTracker) (mdl : string) (itok otok : Z) :
  prices_ok env = true -> model_costs t = pricing env ->
  0 <= itok < 2 ^ 1000 -> 0 <= otok < 2 ^ 1000 ->
  spend_ok (cost t mdl itok otok).2 = true.
Proof.
  intros Hok Hp Hi Ho.
  destruct (price_ok env t mdl Hok Hp) as ((Vi & Ni) & (Vo & No)).
  pose proof (cost_nonneg t mdl itok otok Hi Ho Ni No) as (_ & _ & Hn).
  unfold spend_ok. rewrite Hn, andb_true_r.
  unfold cost. destruct (price t mdl) as [pi po]. cbn [fst snd] in *.
  apply fadd_valid; apply fmul_valid; try assumption; apply per_1000_valid; lia.
Qed.

Lemma spend_ok_add (old amount : float) :
  spend_ok old = true -> spend_ok amount = true -> spend_ok (fadd old amount) = true.
Proof.
  unfold spend_ok. rewrite !andb_true_iff, !is_nonneg_spec.
  intros (V1 & N1) (V2 & N2). split; [now apply fadd_valid|now apply fadd_nonneg].
Qed.

Lemma defaultdict_iadd_get (d : gmap string float) (k key : string) (v : float) :
  dict_get (defaultdict_iadd d k v) key fzero =
    if decide (k = key) then fadd (dict_get d k fzero) v else dict_get d key fzero.
Proof.
  unfold dict_get at 1. destruct (decide (k = key)) as [<-|Hne].
  - now rewrite defaultdict_iadd_lookup.
  - now rewrite defaultdict_iadd_lookup_ne.
Qed.

Lemma defaultdict_iadd_ok (d : gmap string float) (k : string) (v : float) :
  (forall key, spend_ok (dict_get d key fzero) = true) -> spend_ok v = true ->
  forall key, spend_ok (dict_get (defaultdict_iadd d k v) key fzero) = true.
Proof.
  intros Hd Hv key. rewrite defaultdict_iadd_get.
  destruct (decide (k = key)); [now apply spend_ok_add|apply Hd].
Qed.

Lemma totals_ok_recorded (t : CostTracker) (e : CostEntry) :
  totals_ok t -> spend_ok (total_cost e) = true -> totals_ok (recorded e t).
Proof.
  intros Ht He user key. unfold recorded.
  cbn [daily_costs weekly_costs monthly_costs user_costs set_user_costs
       set_monthly_costs set_weekly_costs set_daily_costs set_costs].
  split; [|split; [|split]].
  - apply defaultdict_iadd_ok; [|exact He]. intros k. apply (Ht user k).
  - apply defaultdict_iadd_ok; [|exact He]. intros k. apply (Ht user k).
  - apply defaultdict_iadd_ok; [|exact He]. intros k. apply (Ht user k).
  - destruct (decide (user_id e = user)) as [<-|Hne].
    + unfold dict_get at 2. rewrite lookup_insert_eq. cbn [default].
      apply defaultdict_iadd_ok; [|exact He]. intros k. apply (Ht (user_id e) k).
    + unfold dict_get at 2. rewrite lookup_insert_ne by exact Hne.
      apply (Ht user key).
Qed.

Lemma recorded_nonneg_totals (env : Environ) (t : CostTracker) :
  prices_ok env = true -> recorded_nonneg env t -> totals_ok t.
Proof.
  intros Hok. induction 1 as [|t mdl uid itok otok rid now Hr IH Hi Ho|t R now _ IH].
  - intros user key. repeat split.
  - pose proof (reachable_price_table _ _ (recorded_nonneg_reachable _ _ Hr)) as Hp.
    rewrite (add_cost_entry_run env) by (try exact Hp; lia). cbn [fst].
    apply totals_ok_recorded; [exact IH|].
    destruct (cost_record_fields t mdl uid itok otok rid now)
      as (_ & _ & _ & _ & _ & _ & Hcost).
    pose proof (cost_total_ok env t mdl itok otok Hok Hp Hi Ho) as Hc.
    rewrite <- Hcost in Hc. exact Hc.
  - destruct (cleanup_old_entries_state t R now) as (kept & -> & _). exact IH.
Qed.

(** X19. As long as the configured prices are finite and not negative and
    only token counts from 0 up to [2^1000] are recorded, every total a
    constructed tracker holds - per day, week, month, and per user and day -
    is a canonical float that is not negative; none ever becomes a NaN.
    Pruning and failed calls included. *)
Theorem totals_never_negative (env : Environ) (t : CostTracker) (user key : string) :
  prices_ok env = true -> recorded_nonneg env t ->
  spend_ok (dict_get (daily_costs t) key fzero) = true /\
  spend_ok (dict_get (weekly_costs t) key fzero) = true /\
  spend_ok (dict_get (monthly_costs t) key fzero) = true /\
  spend_ok (dict_get (dict_get (user_costs t) user ∅) key fzero) = true.
Proof. intros Hok Hr. exact (recorded_nonneg_totals env t Hok Hr user key). Qed.

(** X20. Recording a request never lowers what has been spent. On a
    constructed tracker with prices that are finite and not negative, on
    which only token counts from 0 up to [2^1000] were and are recorded,
    [add_cost_entry] leaves the totals of the current day, week and month at
    least as large as they were, rounding included, and every budget flag
    that was set before the call is set after it. *)
Theorem recording_never_lowers_spend (env : Environ) (t : CostTracker)
    (mdl uid : string) (itok otok : Z) (rid : string) (now : datetime) :
  prices_ok env = true -> recorded_nonneg env t ->
  0 <= itok < 2 ^ 1000 -> 0 <= otok < 2 ^ 1000 ->
  let t' := (add_cost_entry mdl uid itok otok rid now t).1.1 in
  fle (dict_get (daily_costs t) (strftime "%Y-%m-%d" now) fzero)
      (dict_get (daily_costs t') (strftime "%Y-%m-%d" now) fzero) = true /\
  fle (dict_get (weekly_costs t) (strftime "%Y-W%U" now) fzero)
      (dict_get (weekly_costs t') (strftime "%Y-W%U" now) fzero) = true /\
  fle (dict_get (monthly_costs t) (strftime "%Y-%m" now) fzero)
      (dict_get (monthly_costs t') (strftime "%Y-%m" now) fzero) = true /\
  forall key,
    budgetStatus t now !! key = Some true -> budgetStatus t' now !! key = Some true.
Proof.
  intros Hok Hr Hi Ho.
  pose proof (reachable_price_table _ _ (recorded_nonneg_reachable _ _ Hr)) as Hp.
  destruct (price_ok env t mdl Hok Hp) as ((_ & Ni) & (_ & No)).
  pose proof (recorded_nonneg_totals env t Hok Hr) as Ht.
  apply (add_cost_entry_spend_mono env); try assumption.
  - apply (Ht EmptyString).
  - apply (Ht EmptyString).
  - apply (Ht EmptyString).
Qed.

Lemma recording_never_lowers_spend_witness :
  let t := (add_cost_entry "gpt-4" "bob" 2000 1000 "req-0" (scenario_now - 1)
              (CostTracker_init default_environ)).1.1 in
  let t' := (add_cost_entry "vertex-gemini-pro" "alice" 1000 500 "req-1" scenario_now
               t).1.1 in
  prices_ok default_environ = true /\ recorded_nonneg default_environ t /\
  0 <= 1000 < 2 ^ 1000 /\ 0 <= 500 < 2 ^ 1000 /\
  fle (dict_get (daily_costs t) (strftime "%Y-%m-%d" scenario_now) fzero)
      (dict_get (daily_costs t') (strftime "%Y-%m-%d" scenario_now) fzero) = true /\
  fle (dict_get (weekly_costs t) (strftime "%Y-W%U" scenario_now) fzero)
      (dict_get (weekly_costs t') (strftime "%Y-W%U" scenario_now) fzero) = true /\
  fle (dict_get (monthly_costs t) (strftime "%Y-%m" scenario_now) fzero)
      (dict_get (monthly_costs t') (strftime "%Y-%m" scenario_now) fzero) = true /\
  forall key,
    budgetStatus t scenario_now !! key = Some true ->
    budgetStatus t' scenario_now !! key = Some true.
Proof.
  cbv zeta.
  assert (Hr : recorded_nonneg default_environ
    (add_cost_entry "gpt-4" "bob" 2000 1000 "req-0" (scenario_now - 1)
       (CostTracker_init default_environ)).1.1).
  { apply recorded_nonneg_add; [apply recorded_nonneg_init| |];
      split; vm_compute; [discriminate|reflexivity|discriminate|reflexivity]. }
  split; [reflexivity|]. split; [exact Hr|].
  split; [split; vm_compute; [discriminate|reflexivity]|].
  split; [split; vm_compute; [discriminate|reflexivity]|].
  apply (recording_never_lowers_spend default_environ);
    [reflexivity|exact Hr
    |split; vm_compute; [discriminate|reflexivity]
    |split; vm_compute; [discriminate|reflexivity]].
Defined.

Lemma totals_never_negative_witness :
  let t := (cleanup_old_entries 30 scenario_now
              (add_cost_entry "gpt-4" "bob" 2000 1000 "req-0" (scenario_now - 1)
                 (CostTracker_init default_environ)).1.1).1.1 in
  let key := strftime "%Y-%m-%d" (scenario_now - 1) in
  prices_ok default_environ = true /\ recorded_nonneg default_environ t /\
  spend_ok (dict_get (daily_costs t) key fzero) = true /\
  spend_ok (dict_get (weekly_costs t) key fzero) = true /\
  spend_ok (dict_get (monthly_costs t) key fzero) = true /\
  spend_ok (dict_get (dict_get (user_costs t) "bob" ∅) key fzero) = true.
Proof.
  cbv zeta.
  assert (Hr : recorded_nonneg default_environ
    (cleanup_old_entries 30 scenario_now
       (add_cost_entry "gpt-4" "bob" 2000 1000 "req-0" (scenario_now - 1)
          (CostTracker_init default_environ)).1.1).1.1).
  { apply recorded_nonneg_cleanup, recorded_nonneg_add; [apply recorded_nonneg_init| |];
      split; vm_compute; [discriminate|reflexivity|discriminate|reflexivity]. }
  split; [reflexivity|]. split; [exact Hr|].
  exact (totals_never_negative default_environ _ "bob" _ eq_refl Hr).
Defined.


(** A ceiling that is not positive is reached by every spend that is not
    negative, whatever the fraction. *)
Lemma nonpositive_ceiling_reached (budget fraction spent : float) :
  nonpos_finite budget = true -> nonneg_finite fraction = true ->
  is_nonneg spent = true ->
  fle (fmul budget fraction) spent = true.
Proof.
  intros Hb Hf Hs. apply nonneg_finite_spec in Hf as (Nf & Ff).
  apply is_nonneg_spec in Hs.
  apply nonpos_le_nonneg; [|exact Hs].
  apply (fmul_sign budget fraction); try assumption;
    destruct budget as [?|?| |[] ? ?]; try discriminate Hb; try reflexivity; exact I.
Qed.

(** X21. A daily or monthly ceiling of zero (or a negative one) blocks every
    request from the first one on: with such a ceiling, a finite fraction
    that is not negative and a spend for the period that is not negative
    (nothing spent included), an enabled manager refuses every content with
    the budget violation first in the list. *)
Theorem nonpositive_budget_blocks (re_search : string -> string -> bool)
    (g : GuardrailsManager) (content mdl uid : string) (now : datetime) :
  enabled g = true ->
  nonneg_finite (emergency_threshold (cost_tracker g)) = true ->
  nonpos_finite (daily_budget (cost_tracker g))
  && is_nonneg (dict_get (daily_costs (cost_tracker g)) (strftime "%Y-%m-%d" now) fzero)
  || nonpos_finite (monthly_budget (cost_tracker g))
     && is_nonneg (dict_get (monthly_costs (cost_tracker g)) (strftime "%Y-%m" now) fzero)
  = true ->
  exists violations,
    pre_request_check re_search content mdl uid now g =
      (g, [], inr (false, BudgetLimitExceeded :: violations)).
Proof.
  intros He Hf Hb. rewrite pre_request_check_enabled by exact He. cbv zeta.
  assert (Hflag : truthy (budgetStatus (cost_tracker g) now !! "daily_emergency")
                  || truthy (budgetStatus (cost_tracker g) now !! "monthly_emergency")
                  = true).
  { unfold budgetStatus, check_budget_limits, bind, get, ret. cbn [snd].
    status_lookup. cbn [truthy default].
    apply orb_true_iff in Hb as [Hb|Hb]; apply andb_true_iff in Hb as (Hb & Hs);
      rewrite (nonpositive_ceiling_reached _ _ _ Hb Hf Hs);
      [reflexivity|apply orb_true_r]. }
  rewrite Hflag.
  destruct (validate_input re_search (content_guardrails g) content "text/plain")
    as [valid violations].
  cbn [fst snd]. destruct valid; cbn [negb app]; eauto.
Qed.

Lemma nonpositive_budget_blocks_witness :
  let env := {|
    DAILY_BUDGET := of_int 0;
    WEEKLY_BUDGET := WEEKLY_BUDGET default_environ;
    MONTHLY_BUDGET := MONTHLY_BUDGET default_environ;
    COST_ALERT_WARNING := COST_ALERT_WARNING default_environ;
    COST_ALERT_CRITICAL := COST_ALERT_CRITICAL default_environ;
    COST_ALERT_EMERGENCY := COST_ALERT_EMERGENCY default_environ;
    VERTEX_GEMINI_PRO_INPUT_COST := VERTEX_GEMINI_PRO_INPUT_COST default_environ;
    VERTEX_GEMINI_PRO_OUTPUT_COST := VERTEX_GEMINI_PRO_OUTPUT_COST default_environ;
    VERTEX_GEMINI_FLASH_INPUT_COST := VERTEX_GEMINI_FLASH_INPUT_COST default_environ;
    VERTEX_GEMINI_FLASH_OUTPUT_COST := VERTEX_GEMINI_FLASH_OUTPUT_COST default_environ;
  |} in
  let g := GuardrailsManager_init env true in
  enabled g = true /\
  nonneg_finite (emergency_threshold (cost_tracker g)) = true /\
  nonpos_finite (daily_budget (cost_tracker g))
  && is_nonneg (dict_get (daily_costs (cost_tracker g))
                         (strftime "%Y-%m-%d" scenario_now) fzero)
  || nonpos_finite (monthly_budget (cost_tracker g))
     && is_nonneg (dict_get (monthly_costs (cost_tracker g))
                            (strftime "%Y-%m" scenario_now) fzero)
  = true /\
  exists violations,
    pre_request_check (fun _ _ => false) "hello world" "vertex-gemini-pro" "alice"
        scenario_now g =
      (g, [], inr (false, BudgetLimitExceeded :: violations)).
Proof.
  cbv zeta. do 3 (split; [reflexivity|]).
  apply nonpositive_budget_blocks; reflexivity.
Defined.

(** * The token limit, in words *)

(** Whether the input-token violation is among those [validate_input]
    reports. *)
Lemma token_violation_reported (re_search : string -> string -> bool)
    (c : ContentGuardrails) (content content_type : string) :
  existsb is_token_violation (validate_input re_search c content content_type).2 =
    float_gt_int (fmul (of_int (Z.of_nat (length (split content)))) (decimal 13 1))
                 (max_input_tokens c).
Proof.
  rewrite validate_input_run. cbv zeta. cbn [snd].
  destruct (max_request_size c <? utf8_len content);
    destruct (float_gt_int _ (max_input_tokens c));
    destruct (block_pii c && _); destruct (scan_for_secrets c && _);
    destruct (keyword_scan c);
    try destruct (find _ toxic_keywords); reflexivity.
Qed.

Lemma estimate_gt_mono (n n' : nat) (limit : Z) :
  (n <= n')%nat ->
  float_gt_int (fmul (of_int (Z.of_nat n)) (decimal 13 1)) limit = true ->
  float_gt_int (fmul (of_int (Z.of_nat n')) (decimal 13 1)) limit = true.
Proof.
  intros Hn. apply float_gt_int_mono.
  - apply estimate_valid.
  - apply estimate_valid.
  - apply estimate_valid.
  - now apply estimate_mono.
Qed.

(** X22. The token check depends on the content through its number of
    words only, and it is monotone in it: when [validate_input] reports the
    input-token violation for a content, it reports it for every content
    with at least as many words, under the same limit, rounding of the
    estimate included. *)
Theorem token_violation_monotone_in_words (re_search : string -> string -> bool)
    (c : ContentGuardrails) (content content' content_type : string) :
  (length (split content) <= length (split content'))%nat ->
  existsb is_token_violation (validate_input re_search c content content_type).2 = true ->
  existsb is_token_violation (validate_input re_search c content' content_type).2 = true.
Proof.
  intros Hn. rewrite !token_violation_reported. now apply estimate_gt_mono.
Qed.

Lemma token_violation_monotone_in_words_witness :
  let c := {| block_pii := true; block_toxic := true; block_hate := true;
              block_violence := true; block_sexual := true;
              max_input_tokens := 2; max_output_tokens := 8192;
              max_request_size := 1048576; scan_for_secrets := true;
              pii_patterns := []; secret_patterns := [] |} in
  (length (split "one two") <= length (split "one two three"))%nat /\
  existsb is_token_violation
    (validate_input (fun _ _ => false) c "one two" "text/plain").2 = true /\
  existsb is_token_violation
    (validate_input (fun _ _ => false) c "one two three" "text/plain").2 = true.
Proof.
  cbv zeta. split; [vm_compute; lia|]. split; [reflexivity|].
  apply (token_violation_monotone_in_words _ _ "one two"); [vm_compute; lia|reflexivity].
Defined.

(** X23. With the default limit of 8192 input tokens, [validate_input]
    reports the input-token violation exactly for the contents of 6302 words
    or more: 6301 words are estimated at 8191.3 tokens, 6302 words at
    8192.6. *)
Theorem default_token_limit_in_words (re_search : string -> string -> bool)
    (c : ContentGuardrails) (content content_type : string) :
  max_input_tokens c = 8192 ->
  (existsb is_token_violation (validate_input re_search c content content_type).2 = true
   <-> 6302 <= Z.of_nat (length (split content))).
Proof.
  intros Hmax. rewrite token_violation_reported, Hmax. split.
  - intros H.
    destruct (Z_lt_le_dec (Z.of_nat (length (split content))) 6302) as [Hlt|]; [|assumption].
    exfalso.
    assert (Hle : (length (split content) <= Z.to_nat 6301)%nat) by lia.
    pose proof (estimate_gt_mono _ _ 8192 Hle H) as H'.
    vm_compute in H'. discriminate H'.
  - intros Hge.
    assert (Hle : (Z.to_nat 6302 <= length (split content))%nat) by lia.
    apply (estimate_gt_mono _ _ 8192 Hle). vm_compute. reflexivity.
Qed.

Lemma default_token_limit_in_words_witness :
  max_input_tokens ContentGuardrails_init = 8192 /\
  (existsb is_token_violation
     (validate_input (fun _ _ => false) ContentGuardrails_init "hello world"
        "text/plain").2 = true
   <-> 6302 <= Z.of_nat (length (split "hello world"))).
Proof.
  split; [reflexivity|].
  apply default_token_limit_in_words. reflexivity.
Defined.
